(** * gemini-cli-openai: request shaping and stream transform

    A shallow embedding of the two algorithmic parts of the worker:

    - [GenerationConfigValidator] (schema converter, thinking budget,
      generation config, tool resolution), and
    - [createOpenAIStreamTransformer] (the per-stream state machine that
      turns backend chunks into OpenAI server-sent events).

    JavaScript values are embedded as the inductive type [value].  An object
    is the list of its own enumerable properties in the order
    [Object.entries] and [JSON.stringify] observe: array indices first, in
    ascending order, then the other names in the order of their creation.
    The values are those of JSON data, whose objects and arrays have the
    standard prototypes; the prototype matters to this program only where it
    assigns to a property whose name the client chose ([Js.assign]), since
    a write to [__proto__] may reach the accessor of [Object.prototype].
    Numbers are embedded as integers, with [VNaN] and the two infinities
    besides: a [VNum n] stands for the number [n].  A sum is rounded to the
    nearest double, as JavaScript rounds it, and is exact up to 2^53 in
    magnitude.  A number prints as its decimal numeral, which is what
    JavaScript prints for the integers of that range (beyond it JavaScript
    prints the shortest numeral that reads back as the same double); no
    statement below depends on how a number beyond that range prints. *)

From stdpp Require Import base strings list gmap pretty sorting.
From Stdlib Require Import ZArith Lia.

Local Open Scope Z_scope.
Set Warnings "-register-all,-clear-no-such-hyp".

(** ** JavaScript values *)

Inductive value : Type :=
| VUndefined
| VNull
| VBool (b : bool)
| VNum (n : Z)
| VNaN
| VStr (s : string)
| VArr (elems : list value)
| VObj (fields : list (string * value))
| VInfinity (negative : bool).

Abbreviation fields := (list (string * value)).

Module Js.

(** ToBoolean. *)
Definition truthy (v : value) : bool :=
  match v with
  | VUndefined | VNull | VNaN => false
  | VBool b => b
  | VNum n => negb (n =? 0)
  | VStr s => negb (String.eqb s "")
  | VArr _ | VObj _ | VInfinity _ => true
  end.

(** [typeof v === "object"]: true of [null], arrays and objects. *)
Definition typeof_object (v : value) : bool :=
  match v with
  | VNull | VArr _ | VObj _ => true
  | _ => false
  end.

Definition typeof_string (v : value) : bool :=
  match v with VStr _ => true | _ => false end.

(** [v === undefined]. *)
Definition is_undefined (v : value) : bool :=
  match v with VUndefined => true | _ => false end.

(** [v === "s"] for a string literal. *)
Definition is_str (s : string) (v : value) : bool :=
  match v with VStr t => String.eqb t s | _ => false end.

(** Own property lookup on the field list of an object. *)
Fixpoint obj_get (k : string) (fs : fields) : value :=
  match fs with
  | [] => VUndefined
  | (k', v) :: fs' => if String.eqb k' k then v else obj_get k fs'
  end.

Fixpoint obj_has (k : string) (fs : fields) : bool :=
  match fs with
  | [] => false
  | (k', _) :: fs' => if String.eqb k' k then true else obj_has k fs'
  end.

(** [o[k] = v] for a name [k] fixed by the program (none of them is an
    array index or [__proto__]): overwrite in place when the key exists,
    append otherwise. *)
Fixpoint obj_set (k : string) (v : value) (fs : fields) : fields :=
  match fs with
  | [] => [(k, v)]
  | (k', v') :: fs' =>
      if String.eqb k' k then (k', v) :: fs' else (k', v') :: obj_set k v fs'
  end.

(** [delete o[k]]. *)
Definition obj_delete (k : string) (fs : fields) : fields :=
  filter (λ kv, String.eqb kv.1 k = false) fs.

(** [v.k] for a named (non-index) property [k] on a non-nullish [v]:
    primitives and arrays have none of the names used in this program. *)
Definition get (v : value) (k : string) : value :=
  match v with
  | VObj fs => obj_get k fs
  | _ => VUndefined
  end.

(** ["k" in v], used after the [typeof v === "object" && v !== null] test. *)
Definition has_key (k : string) (v : value) : bool :=
  match v with
  | VObj fs => obj_has k fs
  | _ => false
  end.

(** [typeof data === "object" && data !== null]. *)
Definition is_object_like (v : value) : bool :=
  match v with VArr _ | VObj _ => true | _ => false end.

(** [a || b]. *)
Definition or (a b : value) : value := if truthy a then a else b.

(** [a ?? b]. *)
Definition nullish (a b : value) : value :=
  match a with VUndefined | VNull => b | _ => a end.

(** [Object.entries]: the fields of an object, the indexed elements of an
    array, nothing for a primitive. *)
Definition entries (v : value) : fields :=
  match v with
  | VObj fs => fs
  | VArr l => imap (λ i x, (pretty i, x)) l
  | _ => []
  end.

Definition lower_ascii (c : Ascii.ascii) : Ascii.ascii :=
  let n := Ascii.N_of_ascii c in
  if ((65 <=? n) && (n <=? 90))%N then Ascii.ascii_of_N (n + 32) else c.

(** [s.toLowerCase()] on the ASCII range.  The one character outside it
    that JavaScript lower-cases into it is the Kelvin sign, to [k]; it
    matters to none of the comparisons this program makes on a lower-cased
    string: no type name contains a [k], and the mode name that does is an
    alias that never selects the r1 mode. *)
Fixpoint toLowerCase (s : string) : string :=
  match s with
  | EmptyString => EmptyString
  | String c s' => String (lower_ascii c) (toLowerCase s')
  end.

(** [s.includes(sub)]. *)
Definition includes (s sub : string) : bool :=
  match String.index 0 sub s with Some _ => true | None => false end.

Fixpoint join (sep : string) (l : list string) : string :=
  match l with
  | [] => ""
  | [s] => s
  | s :: l' => s +:+ sep +:+ join sep l'
  end.

(** ToString, as string concatenation and template literals apply it. *)
Fixpoint toString (v : value) : string :=
  match v with
  | VUndefined => "undefined"
  | VNull => "null"
  | VBool b => if b then "true" else "false"
  | VNum n => pretty n
  | VNaN => "NaN"
  | VStr s => s
  | VArr l =>
      join "," (map (λ x, match x with
                          | VUndefined | VNull => ""
                          | _ => toString x
                          end) l)
  | VObj _ => "[object Object]"
  | VInfinity negative => if negative then "-Infinity" else "Infinity"
  end.

(** ToNumber on the non-string primitives. *)
Definition toNumber (v : value) : value :=
  match v with
  | VNum n => VNum n
  | VInfinity negative => VInfinity negative
  | VBool b => VNum (if b then 1 else 0)
  | VNull => VNum 0
  | _ => VNaN
  end.

(** The double nearest to an integer: the integer itself up to 2^53 in
    magnitude, beyond that the nearest multiple of the power of two that
    leaves 53 significant bits, ties going to the even one. *)
Definition to_double (z : Z) : Z :=
  let m := Z.abs z in
  let e := Z.log2 m - 52 in
  if e <=? 0 then z
  else
    let ulp := 2 ^ e in
    let q := m `div` ulp in
    let r := m `mod` ulp in
    let q := if 2 * r <? ulp then q
             else if ulp <? 2 * r then q + 1
             else if Z.even q then q else q + 1 in
    Z.sgn z * (q * ulp).

(** The number that an exact integer result rounds to: the nearest
    double, or an infinity when that is beyond the largest double. *)
Definition number_of (z : Z) : value :=
  let d := to_double z in
  if 2 ^ 1024 <=? Z.abs d then VInfinity (z <? 0) else VNum d.

(** The binary [+]: concatenation as soon as one operand is (or converts
    to) a string, numeric addition otherwise. *)
Definition add (a b : value) : value :=
  let stringy v := match v with VStr _ | VArr _ | VObj _ => true | _ => false end in
  if stringy a || stringy b then VStr (toString a +:+ toString b)
  else match toNumber a, toNumber b with
       | VNum x, VNum y => number_of (x + y)
       | VInfinity s, VNum _ | VNum _, VInfinity s => VInfinity s
       | VInfinity s, VInfinity s' => if Bool.eqb s s' then VInfinity s else VNaN
       | _, _ => VNaN
       end.

(** *** Assignment to a property whose name the client chose *)

Definition digit_value (c : Ascii.ascii) : option N :=
  let n := Ascii.N_of_ascii c in
  if ((48 <=? n) && (n <=? 57))%N then Some (n - 48)%N else None.

Fixpoint decimal (acc : N) (s : string) : option N :=
  match s with
  | EmptyString => Some acc
  | String c s' =>
      match digit_value c with
      | Some d => decimal (10 * acc + d) s'
      | None => None
      end
  end.

(** A property name that is an array index: the canonical decimal numeral
    (no sign, no leading zero) of an integer below 2^32 - 1. *)
Definition array_index (k : string) : option N :=
  match k with
  | EmptyString => None
  | _ =>
      match decimal 0 k with
      | Some n =>
          if String.eqb (pretty n) k && (n <? 4294967295)%N then Some n else None
      | None => None
      end
  end.

(** Creating the own property [k], an array index of value [n]: it goes
    after the indices below [n] and before everything else. *)
Fixpoint insert_index (n : N) (k : string) (v : value) (fs : fields) : fields :=
  match fs with
  | [] => [(k, v)]
  | (k', v') :: fs' =>
      match array_index k' with
      | Some n' =>
          if (n' <? n)%N then (k', v') :: insert_index n k v fs' else (k, v) :: fs
      | None => (k, v) :: fs
      end
  end.

(** Writing the own data property [k]: an existing property keeps its
    place; a new one goes among the array indices, in ascending order, when
    [k] is one, and to the end otherwise. *)
Definition own_set (k : string) (v : value) (fs : fields) : fields :=
  if obj_has k fs then obj_set k v fs
  else match array_index k with
       | Some n => insert_index n k v fs
       | None => fs ++ [(k, v)]
       end.

(** An object created by the literal [{}] and filled by assignments
    [obj[k] = v]: its own properties, and whether a write to [__proto__]
    that finds no own property of that name lands on the accessor of
    [Object.prototype].  It does at first; it no longer does once the
    prototype has been set to [null], or to an object that has an own
    property named [__proto__]. *)
Record literal := { own : fields; proto_accessor : bool }.

Definition empty_literal : literal := {| own := []; proto_accessor := true |}.

(** [obj[k] = v] for any name [k].  A write to [__proto__] that lands on
    the accessor creates no own property: an object, an array or [null]
    becomes the prototype of [obj], any other value is ignored.  Every
    other write creates or updates an own property. *)
Definition assign (k : string) (v : value) (obj : literal) : literal :=
  if String.eqb k "__proto__" && negb (obj_has "__proto__" (own obj))
     && proto_accessor obj then
    {| own := own obj;
       proto_accessor := match v with
                         | VNull => false
                         | VObj fs => negb (obj_has "__proto__" fs)
                         | _ => true
                         end |}
  else {| own := own_set k v (own obj); proto_accessor := proto_accessor obj |}.

(** A name that is neither an array index nor [__proto__]: assigning it
    to an object that lacks it creates a property at the end, whatever the
    object. *)
Definition plain_name (k : string) : bool :=
  match array_index k with
  | Some _ => false
  | None => negb (String.eqb k "__proto__")
  end.

(** The order in which an object lists its own properties: [k1] may come
    before [k2]. *)
Definition key_before (k1 k2 : string) : Prop :=
  match array_index k1, array_index k2 with
  | Some n1, Some n2 => (n1 < n2)%N
  | Some _, None => True
  | None, Some _ => False
  | None, None => True
  end.

Definition own_order (fs : fields) : Prop := StronglySorted key_before fs.*1.

Definition hex_digit (n : N) : Ascii.ascii :=
  Ascii.ascii_of_N (if (n <? 10)%N then 48 + n else 87 + n).

Definition escape_char (c : Ascii.ascii) : string :=
  let n := Ascii.N_of_ascii c in
  if (n =? 34)%N then "\" +:+ String c ""
  else if (n =? 92)%N then "\\"
  else if (n =? 8)%N then "\b"
  else if (n =? 9)%N then "\t"
  else if (n =? 10)%N then "\n"
  else if (n =? 12)%N then "\f"
  else if (n =? 13)%N then "\r"
  else if (n <? 32)%N then
    "\u00" +:+ String (hex_digit (n / 16)) (String (hex_digit (n mod 16)) "")
  else String c "".

Fixpoint escape (s : string) : string :=
  match s with
  | EmptyString => EmptyString
  | String c s' => escape_char c +:+ escape s'
  end.

Definition quote (s : string) : string :=
  String (Ascii.ascii_of_N 34) (escape s) +:+ String (Ascii.ascii_of_N 34) "".

(** [JSON.stringify]; [None] is the [undefined] it returns for [undefined].
    Undefined-valued properties are skipped, undefined array slots print
    as [null]. *)
Fixpoint stringify (v : value) : option string :=
  match v with
  | VUndefined => None
  | VNull | VNaN | VInfinity _ => Some "null"
  | VBool b => Some (if b then "true" else "false")
  | VNum n => Some (pretty n)
  | VStr s => Some (quote s)
  | VArr l =>
      Some ("[" +:+ join "," (map (λ x, default "null" (stringify x)) l) +:+ "]")
  | VObj fs =>
      Some ("{" +:+
            join "," (omap (λ kv, match stringify kv.2 with
                                  | Some s => Some (quote kv.1 +:+ ":" +:+ s)
                                  | None => None
                                  end) fs) +:+ "}")
  end.

(** A template literal slot holding the result of [JSON.stringify]. *)
Definition stringify_text (v : value) : string :=
  default "undefined" (stringify v).

Definition stringify_value (v : value) : value :=
  match stringify v with Some s => VStr s | None => VUndefined end.

End Js.


(** ** Schema converter (GenerationConfigValidator, private helpers) *)

Module Schema.

(** The [switch] of [toGeminiType] on a lower-cased type name. *)
Definition gemini_type_of_name (name : string) : option string :=
  if String.eqb name "object" then Some "OBJECT"
  else if String.eqb name "string" then Some "STRING"
  else if String.eqb name "number" then Some "NUMBER"
  else if String.eqb name "integer" then Some "INTEGER"
  else if String.eqb name "boolean" then Some "BOOLEAN"
  else if String.eqb name "array" then Some "ARRAY"
  else None.

(** [type.find((t) => t !== "null")]. *)
Definition find_non_null (l : list value) : value :=
  default VUndefined (head (filter (λ t, Js.is_str "null" t = false) l)).

(** [toGeminiType]: [None] is [undefined]. *)
Fixpoint toGeminiType (type : value) : option string :=
  match type with
  | VArr l =>
      (fix find (l : list value) : option string :=
         match l with
         | [] => None
         | t :: l' => if Js.is_str "null" t then find l' else toGeminiType t
         end) l
  | VStr s => gemini_type_of_name (Js.toLowerCase s)
  | _ => None
  end.

(** One iteration of the loop of [normalizeProperties]. *)
Definition normalize_item (obj : Js.literal) (item : value) : Js.literal :=
  match item with
  | VArr (VStr k :: v :: _) => Js.assign k v obj
  | VObj fs =>
      if Js.obj_has "key" fs && Js.obj_has "value" fs then
        match Js.obj_get "key" fs with
        | VStr k => Js.assign k (Js.obj_get "value" fs) obj
        | _ => obj
        end
      else if Js.obj_has "name" fs && Js.obj_has "schema" fs then
        match Js.obj_get "name" fs with
        | VStr k => Js.assign k (Js.obj_get "schema" fs) obj
        | _ => obj
        end
      else obj
  | _ => obj
  end.

(** [normalizeProperties]: [None] is [undefined]; the result is given by
    its own properties, which is what [Object.entries] reads from it. *)
Definition normalizeProperties (input : value) : option fields :=
  if negb (Js.truthy input) then None
  else match input with
       | VArr items => Some (Js.own (foldl normalize_item Js.empty_literal items))
       | VObj fs => Some fs
       | _ => None
       end.

Definition allowList : list string :=
  ["type"; "description"; "properties"; "items"; "required"; "enum";
   "format"; "nullable"].

Definition in_allowList (k : string) : bool :=
  existsb (String.eqb k) allowList.

Definition stripUnsupportedKeys (schema : value) : fields :=
  filter (λ kv, negb (String.prefix "$" kv.1) && in_allowList kv.1 = true)
         (Js.entries schema).

(** [if (conv) o[k] = conv], for the fixed name [items]. *)
Definition set_if_truthy (k : string) (conv : value) (o : fields) : fields :=
  if Js.truthy conv then Js.obj_set k conv o else o.

(** [if (conv) convertedProps[name] = conv], for the name of a property. *)
Definition assign_if_truthy (name : string) (conv : value)
           (convertedProps : Js.literal) : Js.literal :=
  if Js.truthy conv then Js.assign name conv convertedProps else convertedProps.

(** The steps of [convertJSONSchemaToGeminiSchema], in source order; each
    takes the object [initial] built so far and returns it updated.  The
    recursive call is abstracted as [self], which answers [None] when it
    cannot complete. *)

(** Map type to Gemini enum string. *)
Definition map_type (initial : fields) : fields :=
  match Js.obj_get "type" initial with
  | VUndefined => initial
  | ty => match toGeminiType ty with
          | Some mappedType => Js.obj_set "type" (VStr mappedType) initial
          | None => Js.obj_delete "type" initial
          end
  end.

(** Handle nullable if type contained null previously. *)
Definition mark_nullable (input : value) (initial : fields) : fields :=
  match Js.get input "type" with
  | VArr l => if existsb (Js.is_str "null") l
              then Js.obj_set "nullable" (VBool true) initial
              else initial
  | _ => initial
  end.

(** The loop over [Object.entries(props)]; the result is [convertedProps],
    given by its own properties. *)
Definition convert_entries (self : value → option value) (props : fields)
  : option fields :=
  Js.own <$>
    foldl (λ acc entry,
             convertedProps ← acc;
             conv ← self entry.2;
             Some (assign_if_truthy entry.1 conv convertedProps))
          (Some Js.empty_literal) props.

(** The same loop when the recursive calls are answered by a total
    function [f], from the properties [acc] collected so far. *)
Definition converted_entries (f : value → value) (acc : Js.literal)
           (props : fields) : Js.literal :=
  foldl (λ convertedProps entry,
           assign_if_truthy entry.1 (f entry.2) convertedProps) acc props.

(** Normalize properties. *)
Definition convert_properties (self : value → option value) (input : value)
           (initial : fields) : option fields :=
  match Js.get input "properties" with
  | VUndefined => Some initial
  | properties =>
      match normalizeProperties properties with
      | None => Some initial
      | Some props =>
          convertedProps ← convert_entries self props;
          Some (match convertedProps with
                | [] => initial
                | _ => Js.obj_set "properties" (VObj convertedProps) initial
                end)
      end
  end.

(** Items (arrays). *)
Definition convert_items (self : value → option value) (input : value)
           (initial : fields) : option fields :=
  match Js.get input "items" with
  | VUndefined => Some initial
  | VArr items =>
      conv ← self (default VUndefined (head items));
      Some (set_if_truthy "items" conv initial)
  | items =>
      conv ← self items;
      Some (set_if_truthy "items" conv initial)
  end.

(** required, enum, description, format. *)
Definition copy_plain_keys (input : value) (initial : fields) : fields :=
  let initial :=
    match Js.get input "required" with
    | VArr l =>
        Js.obj_set "required" (VArr (filter (λ r, Js.typeof_string r = true) l)) initial
    | _ => initial
    end in
  let initial :=
    match Js.get input "enum" with
    | VArr l => Js.obj_set "enum" (VArr l) initial
    | _ => initial
    end in
  let initial :=
    match Js.get input "description" with
    | VStr d => Js.obj_set "description" (VStr d) initial
    | _ => initial
    end in
  match Js.get input "format" with
  | VStr f => Js.obj_set "format" (VStr f) initial
  | _ => initial
  end.

(** The body of [convertJSONSchemaToGeminiSchema]. *)
Definition convert_body (self : value → option value) (input : value)
  : option value :=
  if negb (Js.truthy input) || negb (Js.typeof_object input) then
    Some VUndefined
  else
    let initial := stripUnsupportedKeys input in
    let initial := map_type initial in
    let initial := mark_nullable input initial in
    initial ← convert_properties self input initial;
    initial ← convert_items self input initial;
    Some (VObj (copy_plain_keys input initial)).

(** The body of the converter with its recursive calls answered by a total
    function [f]. *)
Definition convert_with (f : value → value) (input : value) : value :=
  default VUndefined (convert_body (λ v, Some (f v)) input).

(** The recursion of [convertJSONSchemaToGeminiSchema], bounded by the
    number of nested calls it may make. *)
Fixpoint convert_fuel (fuel : nat) (input : value) : option value :=
  match fuel with
  | O => None
  | S fuel' => convert_body (convert_fuel fuel') input
  end.

(** Nesting depth of a value. *)
Fixpoint depth (v : value) : nat :=
  match v with
  | VArr l => S (max_list (map depth l))
  | VObj fs => S (max_list (map (λ kv, depth kv.2) fs))
  | _ => O
  end.

(** [convertJSONSchemaToGeminiSchema]: the recursion is given as many
    nested calls as the input is deep, which always suffices
    ([convert_fuel_enough] below). *)
Definition convertJSONSchemaToGeminiSchema (input : value) : value :=
  default VUndefined (convert_fuel (S (depth input)) input).

End Schema.

(** ** Generation config and tool resolution (GenerationConfigValidator) *)

Module Config.

(** An entry of [geminiCliModels]; only the [thinking] flag is read here. *)
Record ModelInfo := { thinking : bool }.

(** Modelled from the spec: the shape of [REASONING_EFFORT_BUDGETS], a
    constant of the repository's constants module, which is not part of
    the sources at hand.  Fixed values at none/low, one value per model
    class (flash family, default family) at medium/high. *)
Record EffortBudgets := {
  budget_none : Z;
  budget_low : Z;
  budget_medium_flash : Z;
  budget_medium_default : Z;
  budget_high_flash : Z;
  budget_high_default : Z
}.

(** Modelled from the spec: the table is sensitive to the model class at
    medium and high (section 3 of the specification); the constants module
    holding the actual numbers is not part of the sources at hand. *)
Definition class_sensitive (t : EffortBudgets) : Prop :=
  budget_medium_flash t ≠ budget_medium_default t ∧
  budget_high_flash t ≠ budget_high_default t.

(** Modelled from the spec: [DEFAULT_THINKING_BUDGET], the sentinel for
    dynamic allocation; the constants module is not part of the sources at
    hand, the value is the one the source's comments give at each
    [return DEFAULT_THINKING_BUDGET; // -1]. *)
Definition DEFAULT_THINKING_BUDGET : Z := -1.

Record ToolFunction := {
  name : value;
  description : value;
  parameters : value
}.

Record Tool := { function : ToolFunction }.

(** The fields of [ChatCompletionRequest] read by the validator.  A numeric
    option that is absent is [None]; loosely typed fields are values. *)
Record ChatCompletionRequest := {
  temperature : value;
  max_tokens : value;
  top_p : value;
  stop : value;
  presence_penalty : value;
  frequency_penalty : value;
  seed : value;
  response_format : value;
  thinking_budget : option Z;
  reasoning_effort : value;
  extra_body : value;
  model_params : value;
  tools : option (list Tool);
  tool_choice : value
}.

Record NativeToolsConfiguration := {
  useCustomTools : bool;
  useNativeTools : bool;
  customTools : option (list Tool);
  nativeTools : option (list value)
}.

(** The result of [createValidateTools] and [createFinalToolConfiguration]. *)
Record ToolSetup := { setup_tools : value; setup_toolConfig : value }.

(** [v?.k]. *)
Definition opt_get (v : value) (k : string) : value :=
  match v with
  | VUndefined | VNull => VUndefined
  | _ => Js.get v k
  end.

Definition isValidEffortLevel (v : value) : bool :=
  match v with
  | VStr s => existsb (String.eqb s) ["none"; "low"; "medium"; "high"]
  | _ => false
  end.

Section Validator.

(** The model table and the constants the validator imports. *)
Variable geminiCliModels : gmap string ModelInfo.
Variable REASONING_EFFORT_BUDGETS : EffortBudgets.
Variable DEFAULT_TEMPERATURE : value.

Definition mapEffortToThinkingBudget (effort : value) (modelId : string) : Z :=
  let isFlashModel := Js.includes modelId "flash" in
  if Js.is_str "none" effort then budget_none REASONING_EFFORT_BUDGETS
  else if Js.is_str "low" effort then budget_low REASONING_EFFORT_BUDGETS
  else if Js.is_str "medium" effort then
    if isFlashModel then budget_medium_flash REASONING_EFFORT_BUDGETS
    else budget_medium_default REASONING_EFFORT_BUDGETS
  else if Js.is_str "high" effort then
    if isFlashModel then budget_high_flash REASONING_EFFORT_BUDGETS
    else budget_high_default REASONING_EFFORT_BUDGETS
  else DEFAULT_THINKING_BUDGET.

(** [modelInfo?.thinking], as a condition. *)
Definition model_thinks (modelId : string) : bool :=
  match geminiCliModels !! modelId with
  | Some modelInfo => thinking modelInfo
  | None => false
  end.

(** [validateThinkingBudget]; the two log lines are not modelled. *)
Definition validateThinkingBudget (modelId : string) (thinkingBudget : Z) : Z :=
  if model_thinks modelId then
    if thinkingBudget =? 0 then DEFAULT_THINKING_BUDGET
    else if thinkingBudget <? -1 then DEFAULT_THINKING_BUDGET
    else thinkingBudget
  else thinkingBudget.

(** The hint read by [createValidatedConfig]:
    [options.reasoning_effort || options.extra_body?.reasoning_effort
     || options.model_params?.reasoning_effort]. *)
Definition requested_effort (options : ChatCompletionRequest) : value :=
  Js.or (Js.or (reasoning_effort options)
               (opt_get (extra_body options) "reasoning_effort"))
        (opt_get (model_params options) "reasoning_effort").

(** The block of [createValidatedConfig] that fixes the local variables
    [thinkingBudget] and [includeReasoning] of a thinking model, before
    validation. *)
Definition resolve_effort (modelId : string) (options : ChatCompletionRequest)
           (includeReasoning : bool) : Z * bool :=
  let thinkingBudget := default DEFAULT_THINKING_BUDGET (thinking_budget options) in
  let reasoning_effort := requested_effort options in
  if Js.truthy reasoning_effort && isValidEffortLevel reasoning_effort then
    (mapEffortToThinkingBudget reasoning_effort modelId,
     negb (Js.is_str "none" reasoning_effort))
  else (thinkingBudget, includeReasoning).

Definition thinkingConfig_object (budget : Z) (includeThoughts : bool) : value :=
  VObj [("thinkingBudget", VNum budget); ("includeThoughts", VBool includeThoughts)].

Definition createValidatedConfig (modelId : string)
           (options : ChatCompletionRequest)
           (isRealThinkingEnabled includeReasoning : bool) : fields :=
  let generationConfig :=
    [("temperature", Js.nullish (temperature options) DEFAULT_TEMPERATURE);
     ("maxOutputTokens", max_tokens options);
     ("topP", top_p options);
     ("stopSequences", if Js.typeof_string (stop options)
                       then VArr [stop options] else stop options);
     ("presencePenalty", presence_penalty options);
     ("frequencyPenalty", frequency_penalty options);
     ("seed", seed options)] in
  let generationConfig :=
    if Js.is_str "json_object" (opt_get (response_format options) "type")
    then Js.obj_set "responseMimeType" (VStr "application/json") generationConfig
    else generationConfig in
  let isThinkingModel := model_thinks modelId in
  let generationConfig :=
    if isThinkingModel then
      let '(thinkingBudget, includeReasoning) :=
        resolve_effort modelId options includeReasoning in
      let validatedBudget := validateThinkingBudget modelId thinkingBudget in
      if isRealThinkingEnabled && includeReasoning then
        Js.obj_set "thinkingConfig"
                   (thinkingConfig_object validatedBudget true) generationConfig
      else
        Js.obj_set "thinkingConfig"
                   (thinkingConfig_object
                      (validateThinkingBudget modelId DEFAULT_THINKING_BUDGET) false)
                   generationConfig
    else generationConfig in
  (* Remove undefined keys *)
  filter (λ kv, Js.is_undefined kv.2 = false) generationConfig.

End Validator.

(** A request that carries nothing but [tools] and [tool_choice]. *)
Definition request_with_tools (tools : option (list Tool)) (tool_choice : value)
  : ChatCompletionRequest :=
  {| temperature := VUndefined; max_tokens := VUndefined; top_p := VUndefined;
     stop := VUndefined; presence_penalty := VUndefined;
     frequency_penalty := VUndefined; seed := VUndefined;
     response_format := VUndefined; thinking_budget := None;
     reasoning_effort := VUndefined; extra_body := VUndefined;
     model_params := VUndefined; tools := tools; tool_choice := tool_choice |}.

(** The places a reasoning-effort hint is looked for, in order. *)
Definition effort_hint_sources (options : ChatCompletionRequest) : list value :=
  [reasoning_effort options;
   opt_get (extra_body options) "reasoning_effort";
   opt_get (model_params options) "reasoning_effort"].

Definition functionDeclaration (tool : Tool) : value :=
  VObj [("name", name (function tool));
        ("description", description (function tool));
        ("parameters",
          Schema.convertJSONSchemaToGeminiSchema
            (Js.or (parameters (function tool)) (VObj [])))].

Definition functionCallingConfig (cfg : fields) : value :=
  VObj [("functionCallingConfig", VObj cfg)].

Definition createValidateTools (options : ChatCompletionRequest) : ToolSetup :=
  match tools options with
  | Some (tool :: rest) =>
      let functionDeclarations := map functionDeclaration (tool :: rest) in
      let toolConfig :=
        let tool_choice := tool_choice options in
        if Js.truthy tool_choice then
          if Js.is_str "auto" tool_choice then
            functionCallingConfig [("mode", VStr "AUTO")]
          else if Js.is_str "none" tool_choice then
            functionCallingConfig [("mode", VStr "NONE")]
          else if Js.typeof_object tool_choice
                  && Js.truthy (Js.get tool_choice "function") then
            functionCallingConfig
              [("mode", VStr "ANY");
               ("allowedFunctionNames",
                 VArr [Js.get (Js.get tool_choice "function") "name"])]
          else VObj []
        else VObj [] in
      {| setup_tools := VArr [VObj [("functionDeclarations", VArr functionDeclarations)]];
         setup_toolConfig := toolConfig |}
  | _ => {| setup_tools := VArr []; setup_toolConfig := VObj [] |}
  end.

Definition non_empty {A} (l : option (list A)) : bool :=
  match l with Some (_ :: _) => true | _ => false end.

(** The callback of [config.nativeTools.map]; [None] is the [TypeError]
    that reading [tool.google_search] throws when [tool] is [null] or
    [undefined]. *)
Definition normalize_native_tool (tool : value) : option value :=
  match tool with
  | VUndefined | VNull => None
  | _ =>
      Some (if Js.truthy (Js.get tool "google_search") then
              VObj [("google_search", Js.get tool "google_search")]
            else if Js.truthy (Js.get tool "url_context") then
              VObj [("url_context", Js.get tool "url_context")]
            else tool)
  end.

(** [createFinalToolConfiguration]; [None] is a [TypeError] thrown by the
    callback above, which ends the call. *)
Definition createFinalToolConfiguration (config : NativeToolsConfiguration)
           (options : ChatCompletionRequest) : option ToolSetup :=
  if useCustomTools config && non_empty (customTools config) then
    let toolConfig := setup_toolConfig (createValidateTools options) in
    Some {| setup_tools :=
              VArr [VObj [("functionDeclarations",
                            VArr (map functionDeclaration
                                      (default [] (customTools config))))]];
            setup_toolConfig := toolConfig |}
  else if useNativeTools config && non_empty (nativeTools config) then
    mapped ← mapM normalize_native_tool (default [] (nativeTools config));
    Some {| setup_tools := VArr mapped; setup_toolConfig := VUndefined |}
  else Some {| setup_tools := VUndefined; setup_toolConfig := VUndefined |}.

End Config.

(** ** Stream transformer (createOpenAIStreamTransformer) *)

Module Stream.

Record StreamChunk := { type : string; data : value }.

(** What the host gives a transformer: the results of its successive calls
    to [crypto.randomUUID()] and the value of [Date.now()] at creation. *)
Record Host := { randomUUID : nat → string; now : Z }.

(** The constants a transformer closes over. *)
Record Transformer := {
  chatID : string;
  creationTime : Z;
  model : string;
  isR1 : bool;
  host : Host
}.

(** The variables a transformer mutates; [drawn] counts the UUIDs taken
    from the host so far. *)
Record State := {
  firstChunk : bool;
  toolCallId : value;
  toolCallName : value;
  usageData : value;
  drawn : nat
}.

(** Type guards. *)
Definition isReasoningData (d : value) : bool :=
  Js.is_object_like d && (Js.has_key "reasoning" d || Js.has_key "toolCode" d).

Definition isReasoningEndData (d : value) : bool :=
  Js.is_object_like d && Js.has_key "finished" d.

Definition isGeminiFunctionCall (d : value) : bool :=
  Js.is_object_like d && Js.has_key "name" d && Js.has_key "args" d.

Definition isUsageData (d : value) : bool :=
  Js.is_object_like d && Js.has_key "inputTokens" d && Js.has_key "outputTokens" d.

Definition isNativeToolResponse (d : value) : bool :=
  Js.is_object_like d && Js.has_key "type" d && Js.has_key "data" d.

Definition newline : string := String (Ascii.ascii_of_N 10) "".

(** [encoder.encode(`data: ${JSON.stringify(payload)}\n\n`)]. *)
Definition sse_frame (payload : value) : string :=
  "data: " +:+ Js.stringify_text payload +:+ newline +:+ newline.

Definition done_frame : string := "data: [DONE]" +:+ newline +:+ newline.

(** Normalize output mode aliases: the parameter defaults to ["tagged"]
    when omitted, an empty mode falls back to ["tagged"], and the legacy
    ["think-tags"] is an alias of ["tagged"]. *)
Definition normalize_mode (outputMode : option string) : string :=
  let outputMode := default "tagged" outputMode in
  let rawMode :=
    Js.toLowerCase (if String.eqb outputMode "" then "tagged" else outputMode) in
  if String.eqb rawMode "think-tags" then "tagged" else rawMode.

Section Transform.

(** [OPENAI_CHAT_COMPLETION_OBJECT], imported from the config module. *)
Variable OPENAI_CHAT_COMPLETION_OBJECT : string.

Definition createOpenAIStreamTransformer (h : Host) (model : string)
           (outputMode : option string) : Transformer * State :=
  let chatID := "chatcmpl-" +:+ randomUUID h 0 in
  let creationTime := now h `div` 1000 in
  let mode := normalize_mode outputMode in
  let isR1 := String.eqb mode "r1" in
  ({| chatID := chatID; creationTime := creationTime; model := model;
      isR1 := isR1; host := h |},
   {| firstChunk := true; toolCallId := VNull; toolCallName := VNull;
      usageData := VUndefined; drawn := 1 |}).

(** The [openAIChunk] built around a non-empty delta. *)
Definition openAIChunk (T : Transformer) (delta : fields) : value :=
  VObj [("id", VStr (chatID T));
        ("object", VStr OPENAI_CHAT_COMPLETION_OBJECT);
        ("created", VNum (creationTime T));
        ("model", VStr (model T));
        ("choices",
          VArr [VObj [("index", VNum 0);
                      ("delta", VObj delta);
                      ("finish_reason", VNull);
                      ("logprobs", VNull);
                      ("matched_stop", VNull)]]);
        ("usage", VNull)].

(** [if (Object.keys(delta).length > 0) ... enqueue]: the payload that is
    serialised and enqueued, if any. *)
Definition enqueue_delta (T : Transformer) (delta : fields) : option value :=
  match delta with
  | [] => None
  | _ => Some (openAIChunk T delta)
  end.

(** [transform(chunk, controller)]: the new state and the payload
    enqueued for this chunk, if any. *)
Definition transform (T : Transformer) (st : State) (chunk : StreamChunk)
  : State * option value :=
  let kind := type chunk in
  let d := data chunk in
  if String.eqb kind "text" || String.eqb kind "thinking_content" then
    if Js.typeof_string d then
      let delta := [("content", d)] in
      if firstChunk st then
        ({| firstChunk := false; toolCallId := toolCallId st;
            toolCallName := toolCallName st; usageData := usageData st;
            drawn := drawn st |},
         enqueue_delta T (Js.obj_set "role" (VStr "assistant") delta))
      else (st, enqueue_delta T delta)
    else (st, enqueue_delta T [])
  else if String.eqb kind "real_thinking" then
    if Js.typeof_string d then
      if isR1 T then (st, enqueue_delta T [("reasoning_content", d)])
      else (st, enqueue_delta T [("reasoning", d)])
    else (st, enqueue_delta T [])
  else if String.eqb kind "reasoning" then
    if isReasoningData d then
      if isR1 T then (st, enqueue_delta T [("reasoning_content", Js.get d "reasoning")])
      else (st, enqueue_delta T [("reasoning", Js.get d "reasoning")])
    else (st, enqueue_delta T [])
  else if String.eqb kind "reasoning_end" then
    if negb (isR1 T) && isReasoningEndData d then
      (st, enqueue_delta T [("reasoning_finished", Js.get d "finished")])
    else (st, enqueue_delta T [])
  else if String.eqb kind "tool_code" then
    if isGeminiFunctionCall d then
      let toolCallName' := Js.get d "name" in
      let toolCallId' := "call_" +:+ randomUUID (host T) (drawn st) in
      let delta :=
        [("tool_calls",
           VArr [VObj [("index", VNum 0);
                       ("id", VStr toolCallId');
                       ("type", VStr "function");
                       ("function",
                         VObj [("name", toolCallName');
                               ("arguments", Js.stringify_value (Js.get d "args"))])]])] in
      let delta :=
        if firstChunk st then
          Js.obj_set "content" VNull (Js.obj_set "role" (VStr "assistant") delta)
        else delta in
      ({| firstChunk := false; toolCallId := VStr toolCallId';
          toolCallName := toolCallName'; usageData := usageData st;
          drawn := S (drawn st) |},
       enqueue_delta T delta)
    else (st, enqueue_delta T [])
  else if String.eqb kind "native_tool" then
    if isNativeToolResponse d then (st, enqueue_delta T [("native_tool_calls", VArr [d])])
    else (st, enqueue_delta T [])
  else if String.eqb kind "grounding_metadata" then
    if Js.truthy d then (st, enqueue_delta T [("grounding", d)])
    else (st, enqueue_delta T [])
  else if String.eqb kind "usage" then
    if isUsageData d then
      ({| firstChunk := firstChunk st; toolCallId := toolCallId st;
          toolCallName := toolCallName st; usageData := d;
          drawn := drawn st |}, None)
    else (st, None)
  else (st, enqueue_delta T []).

(** The payload of the final data frame enqueued by [flush]. *)
Definition flush_payload (T : Transformer) (st : State) : value :=
  let finishReason := if Js.truthy (toolCallId st) then "tool_calls" else "stop" in
  let finalChunk :=
    [("id", VStr (chatID T));
     ("object", VStr OPENAI_CHAT_COMPLETION_OBJECT);
     ("created", VNum (creationTime T));
     ("model", VStr (model T));
     ("choices",
       VArr [VObj [("index", VNum 0);
                   ("delta", VObj []);
                   ("finish_reason", VStr finishReason)]])] in
  let finalChunk :=
    if Js.truthy (usageData st) then
      Js.obj_set "usage"
        (VObj [("prompt_tokens", Js.get (usageData st) "inputTokens");
               ("completion_tokens", Js.get (usageData st) "outputTokens");
               ("total_tokens",
                 Js.add (Js.get (usageData st) "inputTokens")
                        (Js.get (usageData st) "outputTokens"))])
        finalChunk
    else finalChunk in
  let payload := finalChunk in
  let payload :=
    if isR1 T then
      Js.obj_set "completion_tokens_details"
                 (VObj [("reasoning_tokens", VNum 0)]) payload
    else payload in
  VObj payload.

(** Pushing a sequence of chunks through [transform], in arrival order:
    the final state and, for each enqueued payload, the chunk it arose
    from. *)
Fixpoint feed (T : Transformer) (st : State) (chunks : list StreamChunk)
  : State * list (StreamChunk * value) :=
  match chunks with
  | [] => (st, [])
  | chunk :: rest =>
      let '(st', out) := transform T st chunk in
      let '(st'', outs) := feed T st' rest in
      (st'', match out with
             | Some payload => (chunk, payload) :: outs
             | None => outs
             end)
  end.

(** The payloads [transform] enqueues over a whole stream, each with the
    chunk it arose from. *)
Definition stream_trace (h : Host) (model : string)
           (outputMode : option string) (chunks : list StreamChunk)
  : list (StreamChunk * value) :=
  let '(T, st0) := createOpenAIStreamTransformer h model outputMode in
  (feed T st0 chunks).2.

(** A whole stream: create the transformer, feed it the chunks, flush.
    [stream_payloads] lists the serialised payloads in order, the last
    one being the terminal frame's. *)
Definition stream_payloads (h : Host) (model : string)
           (outputMode : option string) (chunks : list StreamChunk)
  : list value :=
  let '(T, st0) := createOpenAIStreamTransformer h model outputMode in
  let '(st, outs) := feed T st0 chunks in
  map snd outs ++ [flush_payload T st].

(** The byte frames the stream enqueues, ending with the sentinel. *)
Definition stream_output (h : Host) (model : string)
           (outputMode : option string) (chunks : list StreamChunk)
  : list string :=
  map sse_frame (stream_payloads h model outputMode chunks) ++ [done_frame].

End Transform.

(** Accessors on payloads. *)
Definition first_choice (payload : value) : value :=
  match Js.get payload "choices" with
  | VArr (c :: _) => c
  | _ => VUndefined
  end.

Definition delta_of (payload : value) : value :=
  Js.get (first_choice payload) "delta".

Definition finish_reason_of (payload : value) : value :=
  Js.get (first_choice payload) "finish_reason".

End Stream.

(** ** Encodings of one set of tool properties

    The three calling conventions of [properties] named by the
    specification, for the properties [ps] listed in order. *)

Module Encodings.

Definition as_mapping (ps : fields) : value := VObj ps.

Definition as_pairs (ps : fields) : value :=
  VArr (map (λ e, VArr [VStr e.1; e.2]) ps).

Definition as_key_value_records (ps : fields) : value :=
  VArr (map (λ e, VObj [("key", VStr e.1); ("value", e.2)]) ps).

Definition as_name_schema_records (ps : fields) : value :=
  VArr (map (λ e, VObj [("name", VStr e.1); ("schema", e.2)]) ps).

(** A schema whose [properties] field holds the encoding [enc], among the
    other fields [before] and [after]. *)
Definition schema_with (before after : fields) (enc : value) : value :=
  VObj (before ++ ("properties", enc) :: after).

(** Two field lists that are equal except for the value held by the first
    field named [k]. *)
Inductive differ_at (k : string) : fields → fields → Prop :=
| differ_here v v' fs : differ_at k ((k, v) :: fs) ((k, v') :: fs)
| differ_later e fs fs' :
    e.1 ≠ k → differ_at k fs fs' → differ_at k (e :: fs) (e :: fs').

End Encodings.

(** ** Vocabulary for statements about streams *)

Module StreamSpec.
Import Stream.

(** The chunk kinds handled by a [case] of [transform]. *)
Definition recognized_kinds : list string :=
  ["text"; "thinking_content"; "real_thinking"; "reasoning"; "reasoning_end";
   "tool_code"; "native_tool"; "grounding_metadata"; "usage"].

(** The test each kind applies to its payload before using it. *)
Definition shape_ok (kind : string) (d : value) : bool :=
  if String.eqb kind "text" || String.eqb kind "thinking_content"
     || String.eqb kind "real_thinking" then Js.typeof_string d
  else if String.eqb kind "reasoning" then isReasoningData d
  else if String.eqb kind "reasoning_end" then isReasoningEndData d
  else if String.eqb kind "tool_code" then isGeminiFunctionCall d
  else if String.eqb kind "native_tool" then isNativeToolResponse d
  else if String.eqb kind "grounding_metadata" then Js.truthy d
  else if String.eqb kind "usage" then isUsageData d
  else true.

Definition is_tool_code (c : StreamChunk) : bool := String.eqb (type c) "tool_code".

(** A [tool_code] chunk that carries a function call: the chunks for which
    [transform] assigns a tool-call id. *)
Definition assigns_tool_call (c : StreamChunk) : bool :=
  is_tool_code c && isGeminiFunctionCall (data c).

(** The three kinds whose first delta carries the role. *)
Definition role_kind (c : StreamChunk) : bool :=
  String.eqb (type c) "text" || String.eqb (type c) "thinking_content"
  || String.eqb (type c) "tool_code".

(** Blanking the stream id and the creation time of a payload. *)
Definition mask_stream_fields (payload : value) : value :=
  match payload with
  | VObj fs => VObj (Js.obj_set "created" (VNum 0) (Js.obj_set "id" (VStr "") fs))
  | _ => payload
  end.

(** Blanking, in addition, the id of every tool call of the delta. *)
Definition mask_tool_call (call : value) : value :=
  match call with
  | VObj fs => VObj (Js.obj_set "id" (VStr "") fs)
  | _ => call
  end.

Definition mask_delta (delta : value) : value :=
  match delta with
  | VObj fs =>
      match Js.obj_get "tool_calls" fs with
      | VArr calls => VObj (Js.obj_set "tool_calls" (VArr (map mask_tool_call calls)) fs)
      | _ => delta
      end
  | _ => delta
  end.

Definition mask_choice (choice : value) : value :=
  match choice with
  | VObj fs => VObj (Js.obj_set "delta" (mask_delta (Js.obj_get "delta" fs)) fs)
  | _ => choice
  end.

Definition mask_all_ids (payload : value) : value :=
  match mask_stream_fields payload with
  | VObj fs =>
      match Js.obj_get "choices" fs with
      | VArr choices => VObj (Js.obj_set "choices" (VArr (map mask_choice choices)) fs)
      | _ => VObj fs
      end
  | p => p
  end.

End StreamSpec.

(** ** Safety settings (GenerationConfigValidator.createSafetySettings) *)

Module Safety.

(** The four moderation thresholds of [Env]; each is a string or
    undefined. *)
Record Env := {
  GEMINI_MODERATION_HARASSMENT_THRESHOLD : value;
  GEMINI_MODERATION_HATE_SPEECH_THRESHOLD : value;
  GEMINI_MODERATION_SEXUALLY_EXPLICIT_THRESHOLD : value;
  GEMINI_MODERATION_DANGEROUS_CONTENT_THRESHOLD : value
}.

(** The four entries of [GEMINI_SAFETY_CATEGORIES], a constant of the
    constants module, read here as given. *)
Record SafetyCategories := {
  HARASSMENT : string;
  HATE_SPEECH : string;
  SEXUALLY_EXPLICIT : string;
  DANGEROUS_CONTENT : string
}.

Definition safetySetting (category : string) (threshold : value) : value :=
  VObj [("category", VStr category); ("threshold", threshold)].

(** [if (threshold) safetySettings.push({category, threshold})]. *)
Definition push_if_set (category : string) (threshold : value)
           (safetySettings : list value) : list value :=
  if Js.truthy threshold then safetySettings ++ [safetySetting category threshold]
  else safetySettings.

Definition createSafetySettings (GEMINI_SAFETY_CATEGORIES : SafetyCategories)
           (env : Env) : list value :=
  let safetySettings := [] in
  let safetySettings :=
    push_if_set (HARASSMENT GEMINI_SAFETY_CATEGORIES)
                (GEMINI_MODERATION_HARASSMENT_THRESHOLD env) safetySettings in
  let safetySettings :=
    push_if_set (HATE_SPEECH GEMINI_SAFETY_CATEGORIES)
                (GEMINI_MODERATION_HATE_SPEECH_THRESHOLD env) safetySettings in
  let safetySettings :=
    push_if_set (SEXUALLY_EXPLICIT GEMINI_SAFETY_CATEGORIES)
                (GEMINI_MODERATION_SEXUALLY_EXPLICIT_THRESHOLD env) safetySettings in
  push_if_set (DANGEROUS_CONTENT GEMINI_SAFETY_CATEGORIES)
              (GEMINI_MODERATION_DANGEROUS_CONTENT_THRESHOLD env) safetySettings.

(** The category/threshold pairs of an environment, in the order the
    function visits them. *)
Definition thresholds (cats : SafetyCategories) (env : Env) : list (string * value) :=
  [(HARASSMENT cats, GEMINI_MODERATION_HARASSMENT_THRESHOLD env);
   (HATE_SPEECH cats, GEMINI_MODERATION_HATE_SPEECH_THRESHOLD env);
   (SEXUALLY_EXPLICIT cats, GEMINI_MODERATION_SEXUALLY_EXPLICIT_THRESHOLD env);
   (DANGEROUS_CONTENT cats, GEMINI_MODERATION_DANGEROUS_CONTENT_THRESHOLD env)].

End Safety.

(** ** Vocabulary for further statements about streams *)

Module StreamVocabulary.
Import Stream StreamSpec.

(** The chunks for which [transform] enqueues a frame, in a stream whose
    r1 flag is [r1]: a chunk of a recognised kind other than usage whose
    payload passes the test of its kind, reasoning_end being silent in r1
    mode. *)
Definition emits (r1 : bool) (c : StreamChunk) : bool :=
  existsb (String.eqb (type c)) recognized_kinds
  && negb (String.eqb (type c) "usage")
  && shape_ok (type c) (data c)
  && negb (r1 && String.eqb (type c) "reasoning_end").

(** The usage object attached to the terminal frame for a recorded usage
    payload. *)
Definition usage_object (usageData : value) : value :=
  VObj [("prompt_tokens", Js.get usageData "inputTokens");
        ("completion_tokens", Js.get usageData "outputTokens");
        ("total_tokens",
          Js.add (Js.get usageData "inputTokens") (Js.get usageData "outputTokens"))].

(** A usage chunk that [transform] records. *)
Definition records_usage (c : StreamChunk) : bool :=
  String.eqb (type c) "usage" && isUsageData (data c).

(** The id of the tool call carried by a payload. *)
Definition tool_call_id_of (payload : value) : value :=
  match Js.get (delta_of payload) "tool_calls" with
  | VArr (call :: _) => Js.get call "id"
  | _ => VUndefined
  end.

End StreamVocabulary.

(** * Properties *)

(** ** Objects as field lists *)

Module JsFacts.
Import Js.

Lemma obj_get_set_eq k v fs : obj_get k (obj_set k v fs) = v.
Proof.
  induction fs as [|[k' v'] fs IH]; simpl.
  - by rewrite String.eqb_refl.
  - destruct (String.eqb k' k) eqn:E; simpl; rewrite E; auto.
Qed.

Lemma obj_get_set_ne k k' v fs :
  k ≠ k' → obj_get k (obj_set k' v fs) = obj_get k fs.
Proof.
  intros Hne. induction fs as [|[k0 v0] fs IH]; simpl.
  - destruct (String.eqb_spec k' k); congruence.
  - destruct (String.eqb_spec k0 k'); simpl.
    + subst k0. destruct (String.eqb_spec k' k); congruence.
    + destruct (String.eqb_spec k0 k); auto.
Qed.

Lemma obj_has_set_eq k v fs : obj_has k (obj_set k v fs) = true.
Proof.
  induction fs as [|[k' v'] fs IH]; simpl.
  - by rewrite String.eqb_refl.
  - destruct (String.eqb k' k) eqn:E; simpl; rewrite E; auto.
Qed.

Lemma obj_has_set_ne k k' v fs :
  k ≠ k' → obj_has k (obj_set k' v fs) = obj_has k fs.
Proof.
  intros Hne. induction fs as [|[k0 v0] fs IH]; simpl.
  - destruct (String.eqb_spec k' k); congruence.
  - destruct (String.eqb_spec k0 k'); simpl.
    + subst k0. destruct (String.eqb_spec k' k); congruence.
    + destruct (String.eqb_spec k0 k); auto.
Qed.

Lemma obj_has_delete_eq k fs : obj_has k (obj_delete k fs) = false.
Proof.
  unfold obj_delete. induction fs as [|[k' v'] fs IH]; simpl; [done|].
  destruct (String.eqb k' k) eqn:E.
  - rewrite filter_cons_False; [done|]. simpl. by rewrite E.
  - rewrite filter_cons_True by done. simpl. by rewrite E.
Qed.

Lemma obj_has_false_get k fs : obj_has k fs = false → obj_get k fs = VUndefined.
Proof.
  induction fs as [|[k' v'] fs IH]; simpl; [done|].
  destruct (String.eqb k' k); [done|auto].
Qed.

(** A filter that keeps every field named [k] does not disturb [k]. *)
Lemma obj_get_filter (P : string * value → Prop) `{!∀ x, Decision (P x)} k fs :
  (∀ v, P (k, v)) → obj_get k (filter P fs) = obj_get k fs.
Proof.
  intros HP. induction fs as [|[k' v'] fs IH]; simpl; [done|].
  destruct (String.eqb_spec k' k) as [->|Hne].
  - rewrite filter_cons_True by apply HP. simpl. by rewrite String.eqb_refl.
  - destruct (decide (P (k', v'))).
    + rewrite filter_cons_True by done. simpl.
      destruct (String.eqb_spec k' k); [done|auto].
    + by rewrite filter_cons_False.
Qed.

Lemma obj_has_filter (P : string * value → Prop) `{!∀ x, Decision (P x)} k fs :
  (∀ v, P (k, v)) → obj_has k (filter P fs) = obj_has k fs.
Proof.
  intros HP. induction fs as [|[k' v'] fs IH]; simpl; [done|].
  destruct (String.eqb_spec k' k) as [->|Hne].
  - rewrite filter_cons_True by apply HP. simpl. by rewrite String.eqb_refl.
  - destruct (decide (P (k', v'))).
    + rewrite filter_cons_True by done. simpl.
      destruct (String.eqb_spec k' k); [done|auto].
    + by rewrite filter_cons_False.
Qed.

(** Assigning fresh, pairwise distinct keys to an object lists them in
    assignment order. *)
Lemma obj_set_fresh k v fs :
  obj_has k fs = false → obj_set k v fs = fs ++ [(k, v)].
Proof.
  induction fs as [|[k' v'] fs IH]; simpl; [done|].
  destruct (String.eqb k' k); [done|]. intros H. by rewrite IH.
Qed.

Lemma obj_has_app k fs gs : obj_has k (fs ++ gs) = obj_has k fs || obj_has k gs.
Proof.
  induction fs as [|[k' v'] fs IH]; simpl; [done|].
  destruct (String.eqb k' k); auto.
Qed.

Lemma Forall_obj_set (P : value → Prop) k v fs :
  Forall (λ e, P e.2) fs → P v → Forall (λ e, P e.2) (obj_set k v fs).
Proof.
  intros Hfs Hv. induction Hfs as [|[k' v'] fs Hx Hfs IH]; simpl.
  - by constructor.
  - destruct (String.eqb k' k); constructor; auto.
Qed.

(** *** Own properties under assignment *)

Lemma obj_has_elem_of k (fs : fields) : obj_has k fs = true ↔ k ∈ fs.*1.
Proof.
  induction fs as [|[k0 v0] fs IH]; simpl.
  - split; [done|]. intros H. by apply elem_of_nil in H.
  - rewrite elem_of_cons. destruct (String.eqb_spec k0 k) as [->|Hne].
    + split; auto.
    + rewrite IH. split; [auto|]. intros [?|?]; [congruence|done].
Qed.

Lemma obj_has_not_elem_of k (fs : fields) : obj_has k fs = false ↔ k ∉ fs.*1.
Proof.
  rewrite <- obj_has_elem_of. destruct (obj_has k fs); split; done.
Qed.

Lemma obj_set_present_keys k v fs :
  obj_has k fs = true → (obj_set k v fs).*1 = fs.*1.
Proof.
  induction fs as [|[k0 v0] fs IH]; simpl; [done|].
  destruct (String.eqb k0 k); simpl; [done|]. intros H. f_equal. by apply IH.
Qed.

Lemma array_index_pretty k n : array_index k = Some n → k = pretty n.
Proof.
  unfold array_index. destruct k as [|c k]; [done|].
  destruct (decimal 0 (String c k)) as [m|]; [|done].
  destruct (String.eqb_spec (pretty m) (String c k)) as [He|?]; [|done].
  simpl. destruct (m <? 4294967295)%N; [|done]. by intros [= <-].
Qed.

Lemma array_index_inj k k' n :
  array_index k = Some n → array_index k' = Some n → k = k'.
Proof.
  intros H H'. by rewrite (array_index_pretty _ _ H), (array_index_pretty _ _ H').
Qed.

Lemma insert_index_perm n k v fs : insert_index n k v fs ≡ₚ (k, v) :: fs.
Proof.
  induction fs as [|[k0 v0] fs IH]; simpl; [done|].
  destruct (array_index k0) as [n0|]; [|done].
  destruct (n0 <? n)%N; [|done].
  rewrite IH. apply Permutation_swap.
Qed.

Lemma obj_get_insert_index_ne n k k' v fs :
  k' ≠ k → obj_get k' (insert_index n k v fs) = obj_get k' fs.
Proof.
  intros Hne. induction fs as [|[k0 v0] fs IH]; simpl.
  - by destruct (String.eqb_spec k k').
  - destruct (array_index k0) as [n0|]; [destruct (n0 <? n)%N|]; simpl;
      rewrite ?IH; try done; by destruct (String.eqb_spec k k').
Qed.

Lemma obj_has_insert_index_ne n k k' v fs :
  k' ≠ k → obj_has k' (insert_index n k v fs) = obj_has k' fs.
Proof.
  intros Hne. induction fs as [|[k0 v0] fs IH]; simpl.
  - by destruct (String.eqb_spec k k').
  - destruct (array_index k0) as [n0|]; [destruct (n0 <? n)%N|]; simpl;
      rewrite ?IH; try done; by destruct (String.eqb_spec k k').
Qed.

Lemma obj_get_insert_index_eq n k v fs :
  obj_has k fs = false → obj_get k (insert_index n k v fs) = v.
Proof.
  induction fs as [|[k0 v0] fs IH]; simpl.
  - by rewrite String.eqb_refl.
  - destruct (String.eqb_spec k0 k) as [->|Hne]; [done|]. intros Hk.
    destruct (array_index k0) as [n0|]; [destruct (n0 <? n)%N|]; simpl;
      rewrite ?String.eqb_refl; try done.
    destruct (String.eqb_spec k0 k); [done|auto].
Qed.

Lemma obj_has_insert_index_eq n k v fs : obj_has k (insert_index n k v fs) = true.
Proof.
  induction fs as [|[k0 v0] fs IH]; simpl.
  - by rewrite String.eqb_refl.
  - destruct (array_index k0) as [n0|]; [destruct (n0 <? n)%N|]; simpl;
      rewrite ?String.eqb_refl; try done.
    by destruct (String.eqb k0 k).
Qed.

Lemma obj_get_own_set_eq k v fs : obj_get k (own_set k v fs) = v.
Proof.
  unfold own_set. destruct (obj_has k fs) eqn:Hk.
  - apply obj_get_set_eq.
  - destruct (array_index k) as [n|].
    + by apply obj_get_insert_index_eq.
    + rewrite <- (obj_set_fresh k v fs Hk). apply obj_get_set_eq.
Qed.

Lemma obj_has_own_set_eq k v fs : obj_has k (own_set k v fs) = true.
Proof.
  unfold own_set. destruct (obj_has k fs) eqn:Hk.
  - apply obj_has_set_eq.
  - destruct (array_index k) as [n|].
    + apply obj_has_insert_index_eq.
    + rewrite <- (obj_set_fresh k v fs Hk). apply obj_has_set_eq.
Qed.

Lemma obj_get_own_set_ne k k' v fs :
  k ≠ k' → obj_get k (own_set k' v fs) = obj_get k fs.
Proof.
  intros Hne. unfold own_set. destruct (obj_has k' fs) eqn:Hk.
  - by apply obj_get_set_ne.
  - destruct (array_index k') as [n|].
    + by apply obj_get_insert_index_ne.
    + rewrite <- (obj_set_fresh k' v fs Hk). by apply obj_get_set_ne.
Qed.

Lemma obj_has_own_set_ne k k' v fs :
  k ≠ k' → obj_has k (own_set k' v fs) = obj_has k fs.
Proof.
  intros Hne. unfold own_set. destruct (obj_has k' fs) eqn:Hk.
  - by apply obj_has_set_ne.
  - destruct (array_index k') as [n|].
    + by apply obj_has_insert_index_ne.
    + rewrite <- (obj_set_fresh k' v fs Hk). by apply obj_has_set_ne.
Qed.

(** A new property with a plain name goes to the end. *)
Lemma own_set_plain k v fs :
  obj_has k fs = false → array_index k = None → own_set k v fs = fs ++ [(k, v)].
Proof. intros Hk Hi. unfold own_set. by rewrite Hk, Hi. Qed.

Lemma Forall_own_set (P : value → Prop) k v fs :
  Forall (λ e, P e.2) fs → P v → Forall (λ e, P e.2) (own_set k v fs).
Proof.
  intros Hfs Hv. unfold own_set. destruct (obj_has k fs).
  - by apply Forall_obj_set.
  - destruct (array_index k) as [n|].
    + rewrite insert_index_perm. by constructor.
    + apply Forall_app. split; [done|]. by constructor.
Qed.

Lemma own_set_nonempty k v fs : own_set k v fs ≠ [].
Proof.
  intros H. pose proof (obj_has_own_set_eq k v fs) as Hhas. by rewrite H in Hhas.
Qed.

Lemma own_set_keys k v fs :
  (own_set k v fs).*1 ≡ₚ (if obj_has k fs then fs.*1 else k :: fs.*1).
Proof.
  unfold own_set. destruct (obj_has k fs) eqn:Hk.
  - by rewrite obj_set_present_keys.
  - destruct (array_index k) as [n|].
    + by rewrite insert_index_perm.
    + rewrite fmap_app. simpl. by rewrite <- Permutation_cons_append.
Qed.

Lemma own_set_nodup k v fs : NoDup fs.*1 → NoDup (own_set k v fs).*1.
Proof.
  intros Hnd. rewrite own_set_keys. destruct (obj_has k fs) eqn:Hk; [done|].
  apply NoDup_cons. split; [|done]. by apply obj_has_not_elem_of.
Qed.

Lemma own_set_keys_elem k k' v fs :
  k' ∈ (own_set k v fs).*1 ↔ k' = k ∨ k' ∈ fs.*1.
Proof.
  rewrite own_set_keys. destruct (obj_has k fs) eqn:Hk.
  - split; [auto|]. intros [->|?]; [|done]. by apply obj_has_elem_of.
  - by rewrite elem_of_cons.
Qed.

(** The order of own properties is kept by every write. *)

Lemma key_before_index_trans k k' x n n' :
  array_index k = Some n → array_index k' = Some n' → (n < n')%N →
  key_before k' x → key_before k x.
Proof.
  unfold key_before. intros -> -> Hlt.
  destruct (array_index x) as [m|]; [lia|done].
Qed.

Lemma insert_index_order n k v fs :
  array_index k = Some n → obj_has k fs = false →
  own_order fs → own_order (insert_index n k v fs).
Proof.
  intros Hk. unfold own_order.
  induction fs as [|[k0 v0] fs IH]; simpl; intros Hfresh Hs.
  - repeat constructor.
  - destruct (String.eqb_spec k0 k) as [->|Hne]; [done|].
    apply StronglySorted_inv in Hs as [Hs Hall].
    destruct (array_index k0) as [n0|] eqn:H0.
    + destruct (N.ltb_spec n0 n) as [Hlt|Hge]; simpl.
      * constructor; [by apply IH|].
        rewrite insert_index_perm. simpl. constructor; [|done].
        unfold key_before. rewrite H0, Hk. done.
      * assert (n ≠ n0) as Hnn.
        { intros ->. apply Hne. by apply (array_index_inj _ _ n0). }
        constructor; [by constructor|].
        constructor.
        -- unfold key_before. rewrite Hk, H0. lia.
        -- eapply Forall_impl; [exact Hall|]. intros x Hx.
           apply (key_before_index_trans k k0 x n n0); [done|done|lia|done].
    + simpl. constructor; [by constructor|].
      constructor.
      * unfold key_before. by rewrite Hk, H0.
      * eapply Forall_impl; [exact Hall|]. intros x.
        unfold key_before. rewrite H0, Hk. by destruct (array_index x).
Qed.

Lemma own_order_snoc fs k :
  StronglySorted key_before fs → Forall (λ x, key_before x k) fs →
  StronglySorted key_before (fs ++ [k]).
Proof.
  induction 1 as [|x fs Hs IH Hall]; intros Hk; simpl.
  - repeat constructor.
  - apply Forall_cons in Hk as [Hx Hk]. constructor; [by apply IH|].
    apply Forall_app. split; [done|]. by constructor.
Qed.

Lemma own_set_order k v fs : own_order fs → own_order (own_set k v fs).
Proof.
  intros Hs. unfold own_set. destruct (obj_has k fs) eqn:Hk.
  - unfold own_order. by rewrite obj_set_present_keys.
  - destruct (array_index k) as [n|] eqn:Hi.
    + by apply insert_index_order.
    + unfold own_order. rewrite fmap_app. simpl. apply own_order_snoc; [done|].
      apply Forall_forall. intros x _. unfold key_before. rewrite Hi.
      by destruct (array_index x).
Qed.

Lemma own_order_last fs k :
  StronglySorted key_before (fs ++ [k]) → Forall (λ x, key_before x k) fs.
Proof.
  induction fs as [|x fs IH]; simpl; [done|].
  intros Hs. apply StronglySorted_inv in Hs as [Hs Hall].
  apply Forall_app in Hall as [_ Hk]. apply Forall_cons in Hk as [Hk _].
  constructor; auto.
Qed.

Lemma insert_index_last n k v fs :
  array_index k = Some n → Forall (λ e, key_before e.1 k) fs →
  insert_index n k v fs = fs ++ [(k, v)].
Proof.
  intros Hk. induction 1 as [|[k0 v0] fs Hx _ IH]; simpl; [done|].
  unfold key_before in Hx. simpl in Hx. rewrite Hk in Hx.
  destruct (array_index k0) as [n0|]; [|done].
  destruct (N.ltb_spec n0 n); [|lia]. by rewrite IH.
Qed.

(** Writing, in order, the properties of an object that is in order gives
    the object back. *)
Lemma own_set_last k v fs :
  own_order (fs ++ [(k, v)]) → k ∉ fs.*1 → own_set k v fs = fs ++ [(k, v)].
Proof.
  unfold own_order. rewrite fmap_app. simpl. intros Hs Hk.
  apply own_order_last in Hs.
  unfold own_set. rewrite (proj2 (obj_has_not_elem_of k fs) Hk).
  destruct (array_index k) as [n|] eqn:Hi; [|done].
  apply insert_index_last; [done|]. by apply Forall_fmap in Hs.
Qed.

(** [assign] on a name other than [__proto__] writes an own property. *)
Lemma assign_plain k v obj :
  k ≠ "__proto__" →
  assign k v obj = {| own := own_set k v (own obj);
                      proto_accessor := proto_accessor obj |}.
Proof.
  intros Hk. unfold assign. by destruct (String.eqb_spec k "__proto__").
Qed.

Lemma plain_name_spec k :
  plain_name k = true ↔ k ≠ "__proto__" ∧ array_index k = None.
Proof.
  unfold plain_name. destruct (array_index k); [by split; [|intros []]|].
  destruct (String.eqb_spec k "__proto__"); simpl; split; try done; by intros [].
Qed.

(** Assigning a plain name that the object does not have yet. *)
Lemma assign_fresh_plain k v obj :
  plain_name k = true → k ∉ (own obj).*1 →
  assign k v obj = {| own := own obj ++ [(k, v)];
                      proto_accessor := proto_accessor obj |}.
Proof.
  intros Hp Hk. apply plain_name_spec in Hp as [Hne Hi].
  rewrite assign_plain by done. f_equal.
  apply own_set_plain; [|done]. by apply obj_has_not_elem_of.
Qed.

(** A write to [__proto__] that lands on the accessor leaves the own
    properties alone. *)
Lemma assign_proto_accessor v obj :
  proto_accessor obj = true → obj_has "__proto__" (own obj) = false →
  own (assign "__proto__" v obj) = own obj.
Proof. intros Ha Hh. unfold assign. by rewrite Ha, Hh. Qed.

Lemma own_assign_cases k v obj :
  own (assign k v obj) = own obj ∨ own (assign k v obj) = own_set k v (own obj).
Proof. unfold assign. case_match; simpl; auto. Qed.

Lemma obj_get_assign_ne k k' v obj :
  k ≠ k' → obj_get k (own (assign k' v obj)) = obj_get k (own obj).
Proof.
  intros Hne. destruct (own_assign_cases k' v obj) as [->| ->]; [done|].
  by apply obj_get_own_set_ne.
Qed.

Lemma obj_has_assign_ne k k' v obj :
  k ≠ k' → obj_has k (own (assign k' v obj)) = obj_has k (own obj).
Proof.
  intros Hne. destruct (own_assign_cases k' v obj) as [->| ->]; [done|].
  by apply obj_has_own_set_ne.
Qed.

Lemma Forall_assign (P : value → Prop) k v obj :
  Forall (λ e, P e.2) (own obj) → P v → Forall (λ e, P e.2) (own (assign k v obj)).
Proof.
  intros Hfs Hv. destruct (own_assign_cases k v obj) as [->| ->]; [done|].
  by apply Forall_own_set.
Qed.

Lemma assign_nodup k v obj : NoDup (own obj).*1 → NoDup (own (assign k v obj)).*1.
Proof.
  intros Hnd. destruct (own_assign_cases k v obj) as [->| ->]; [done|].
  by apply own_set_nodup.
Qed.

Lemma assign_order k v obj : own_order (own obj) → own_order (own (assign k v obj)).
Proof.
  intros Hs. destruct (own_assign_cases k v obj) as [->| ->]; [done|].
  by apply own_set_order.
Qed.

(** The double nearest to an integer of magnitude up to 2^53 is the
    integer. *)
Lemma to_double_exact z : Z.abs z ≤ 2 ^ 53 → to_double z = z.
Proof.
  intros Hz. unfold to_double.
  destruct (Z.leb_spec (Z.log2 (Z.abs z) - 52) 0) as [|Hbig]; [done|].
  assert (Z.abs z = 2 ^ 53) as Habs.
  { destruct (decide (Z.abs z < 2 ^ 53)) as [Hlt|]; [|lia].
    destruct (decide (Z.abs z = 0)) as [H0|]; [rewrite H0 in Hbig; simpl in Hbig; lia|].
    apply Z.log2_lt_pow2 in Hlt; lia. }
  rewrite Habs.
  change (Z.log2 (2 ^ 53) - 52) with 1.
  destruct (Z.abs_eq_or_opp z) as [Hz'|Hz']; rewrite Hz' in Habs.
  - by rewrite Habs.
  - assert (z = - 2 ^ 53) as -> by lia. done.
Qed.

Lemma number_of_exact z : Z.abs z ≤ 2 ^ 53 → number_of z = VNum z.
Proof.
  intros Hz. unfold number_of. rewrite to_double_exact by done.
  assert (2 ^ 53 < 2 ^ 1024) by (apply Z.pow_lt_mono_r; lia).
  destruct (Z.leb_spec (2 ^ 1024) (Z.abs z)); [lia|done].
Qed.

End JsFacts.

(** ** The schema converter terminates *)

Module SchemaFacts.
Import Js Schema JsFacts.

Lemma depth_obj_get k fs :
  (depth (obj_get k fs) ≤ max_list (map (λ kv, depth kv.2) fs))%nat.
Proof.
  induction fs as [|[k' v'] fs IH]; simpl; [lia|].
  destruct (String.eqb k' k); simpl; lia.
Qed.

Lemma depth_get input k :
  is_object_like input = true → (depth (get input k) < depth input)%nat.
Proof.
  destruct input as [| | | | | |l|fs|]; simpl; try done; intros _; [lia|].
  pose proof (depth_obj_get k fs). lia.
Qed.

Lemma depth_elem (v : value) l :
  v ∈ l → (depth v ≤ max_list (map depth l))%nat.
Proof. induction 1; simpl; lia. Qed.

Lemma depth_field (e : string * value) fs :
  e ∈ fs → (depth e.2 ≤ max_list (map (λ kv, depth kv.2) fs))%nat.
Proof. induction 1; simpl; lia. Qed.

Lemma depth_head l :
  (depth (default VUndefined (head l)) ≤ max_list (map depth l))%nat.
Proof. destruct l; simpl; lia. Qed.

Lemma normalize_item_depth n obj item :
  Forall (λ e, (depth e.2 < n)%nat) (own obj) → (depth item < n)%nat →
  Forall (λ e, (depth e.2 < n)%nat) (own (normalize_item obj item)).
Proof.
  intros Hobj Hitem. unfold normalize_item.
  destruct item as [| | | | | |l|fs|]; try done.
  - destruct l as [|[| | | | |k| | |] [|v l]]; try done.
    apply (Forall_assign (λ v, (depth v < n)%nat)); [done|].
    simpl in Hitem. lia.
  - pose proof (depth_obj_get "value" fs). pose proof (depth_obj_get "schema" fs).
    simpl in Hitem.
    repeat case_match; subst; try done;
      apply (Forall_assign (λ v, (depth v < n)%nat)); try done; lia.
Qed.

Lemma normalizeProperties_depth p props :
  normalizeProperties p = Some props →
  Forall (λ e, (depth e.2 < depth p)%nat) props.
Proof.
  unfold normalizeProperties.
  destruct p as [| | | | | |elems|fs|]; simpl; try done; try (by case_match).
  - intros [= <-].
    assert (Hgen : ∀ acc items,
               Forall (λ e, (depth e.2 < S (max_list (map depth elems)))%nat) (own acc) →
               items ⊆ elems →
               Forall (λ e, (depth e.2 < S (max_list (map depth elems)))%nat)
                      (own (foldl normalize_item acc items))).
    { intros acc items. revert acc.
      induction items as [|item items IH]; intros acc Hacc Hsub; simpl; [done|].
      apply IH.
      - apply normalize_item_depth; [done|].
        assert (item ∈ elems) as Hin by (apply Hsub; left).
        apply depth_elem in Hin. lia.
      - intros x Hx. apply Hsub. by right. }
    apply Hgen; [constructor|done].
  - intros [= <-]. apply Forall_forall. intros e He.
    apply depth_field in He. lia.
Qed.

(** The loop over the normalised properties, when every recursive call
    answers. *)
Lemma convert_entries_answers (self : value → option value) (f : value → value) props :
  Forall (λ e, self e.2 = Some (f e.2)) props →
  convert_entries self props = Some (own (converted_entries f empty_literal props)).
Proof.
  unfold convert_entries, converted_entries. generalize empty_literal as acc.
  intros acc H. revert acc.
  induction H as [|e props He _ IH]; intros acc; simpl; [done|].
  rewrite He. simpl. apply IH.
Qed.

Lemma convert_entries_ext (self self' : value → option value) (f : value → value) props :
  Forall (λ e, self e.2 = Some (f e.2)) props →
  Forall (λ e, self' e.2 = Some (f e.2)) props →
  convert_entries self props = convert_entries self' props.
Proof.
  intros H H'. rewrite (convert_entries_answers self f), (convert_entries_answers self' f);
    done.
Qed.

Lemma convert_properties_answers (self : value → option value) (f : value → value)
      input initial :
  is_object_like input = true →
  (∀ v, (depth v < depth input)%nat → self v = Some (f v)) →
  convert_properties self input initial
  = convert_properties (λ v, Some (f v)) input initial
  ∧ is_Some (convert_properties self input initial).
Proof.
  intros Hobj Hself. unfold convert_properties.
  pose proof (depth_get input "properties" Hobj) as Hdp.
  assert (∀ p, p = get input "properties" →
            match normalizeProperties p with
            | Some props =>
                convertedProps ← convert_entries self props;
                Some (match convertedProps with
                      | [] => initial
                      | _ => obj_set "properties" (VObj convertedProps) initial
                      end)
            | None => Some initial
            end =
            match normalizeProperties p with
            | Some props =>
                convertedProps ← convert_entries (λ v, Some (f v)) props;
                Some (match convertedProps with
                      | [] => initial
                      | _ => obj_set "properties" (VObj convertedProps) initial
                      end)
            | None => Some initial
            end
            ∧ is_Some (match normalizeProperties p with
                       | Some props =>
                           convertedProps ← convert_entries self props;
                           Some (match convertedProps with
                                 | [] => initial
                                 | _ => obj_set "properties" (VObj convertedProps) initial
                                 end)
                       | None => Some initial
                       end)) as Hgen.
  { intros p ->.
    destruct (normalizeProperties (get input "properties")) as [props|] eqn:Hn; [|eauto].
    apply normalizeProperties_depth in Hn.
    assert (Forall (λ e, self e.2 = Some (f e.2)) props) as H1.
    { eapply Forall_impl; [exact Hn|]. intros e He. simpl in He. apply Hself. lia. }
    assert (Forall (λ e, (λ v, Some (f v)) e.2 = Some (f e.2)) props) as H2
      by by apply Forall_forall.
    rewrite (convert_entries_ext self (λ v, Some (f v)) f props H1 H2).
    rewrite (convert_entries_answers _ f props H2). simpl. eauto. }
  destruct (get input "properties") eqn:Hp; eauto.
Qed.

Lemma convert_items_answers (self : value → option value) (f : value → value)
      input initial :
  is_object_like input = true →
  (∀ v, (depth v < depth input)%nat → self v = Some (f v)) →
  convert_items self input initial
  = Some (default initial (convert_items (λ v, Some (f v)) input initial)).
Proof.
  intros Hobj Hself. unfold convert_items.
  pose proof (depth_get input "items" Hobj) as Hdi.
  destruct (get input "items") as [| | | | | |l|fs|] eqn:Hit; simpl; try done.
  all: try (rewrite Hself by (simpl in *; lia); done).
  rewrite Hself; [done|]. simpl in Hdi. pose proof (depth_head l). lia.
Qed.

Lemma convert_body_answers (self : value → option value) (f : value → value) input :
  (∀ v, (depth v < depth input)%nat → self v = Some (f v)) →
  convert_body self input = Some (convert_with f input).
Proof.
  intros Hself. unfold convert_with, convert_body.
  destruct (negb (truthy input) || negb (typeof_object input)) eqn:Hguard; [done|].
  assert (is_object_like input = true) as Hobj
    by (destruct input; simpl in *; try done; by rewrite orb_true_r in Hguard).
  set (initial := mark_nullable input _).
  destruct (convert_properties_answers self f input initial Hobj Hself) as [-> [i Hi]].
  assert (∀ v, (depth v < depth input)%nat → (λ v, Some (f v)) v = Some (f v)) as Hf by done.
  destruct (convert_properties_answers _ f input initial Hobj Hf) as [_ [i' Hi']].
  rewrite Hi'. simpl.
  rewrite (convert_items_answers self f input i' Hobj Hself).
  rewrite (convert_items_answers _ f input i' Hobj Hf). done.
Qed.

Lemma convert_fuel_answers fuel :
  ∀ input, (depth input < fuel)%nat →
           convert_fuel fuel input = Some (convertJSONSchemaToGeminiSchema input).
Proof.
  induction fuel as [fuel IH] using lt_wf_ind. intros input Hd.
  assert (∀ n v, (depth v < n)%nat → (n < fuel)%nat → is_Some (convert_fuel n v)) as Hsome.
  { intros n v H1 H2. rewrite (IH n H2 v H1). eauto. }
  destruct fuel as [|fuel]; [lia|]. simpl.
  unfold convertJSONSchemaToGeminiSchema at 1.
  assert (∀ n, (depth input ≤ n)%nat → (n ≤ fuel)%nat →
               convert_body (convert_fuel n) input
               = Some (convert_with convertJSONSchemaToGeminiSchema input)) as Hb.
  { intros n H1 H2. apply convert_body_answers. intros v Hv. apply IH; lia. }
  rewrite (Hb fuel) by lia. simpl. rewrite (Hb (depth input)) by lia. done.
Qed.

(** Enough fuel: the recursion completes on every input. *)
Lemma convert_fuel_enough input :
  convert_fuel (S (depth input)) input = Some (convertJSONSchemaToGeminiSchema input).
Proof. apply convert_fuel_answers. lia. Qed.

(** The defining equation of [convertJSONSchemaToGeminiSchema]: it is its
    own body with itself as the recursive call. *)
Lemma convert_unfold input :
  convertJSONSchemaToGeminiSchema input
  = convert_with convertJSONSchemaToGeminiSchema input.
Proof.
  pose proof (convert_fuel_enough input) as H. simpl in H.
  rewrite (convert_body_answers _ convertJSONSchemaToGeminiSchema) in H.
  - by injection H.
  - intros v Hv. apply convert_fuel_answers. lia.
Qed.

End SchemaFacts.

(** ** Schema converter: the [type] key *)

Module TypeKey.
Import Js Schema JsFacts SchemaFacts.

Lemma toGeminiType_array l :
  toGeminiType (VArr l) = toGeminiType (find_non_null l).
Proof.
  unfold find_non_null. induction l as [|t l IH]; [done|].
  change (toGeminiType (VArr (t :: l)))
    with (if is_str "null" t then toGeminiType (VArr l) else toGeminiType t).
  destruct (is_str "null" t) eqn:E.
  - rewrite filter_cons_False by (rewrite E; done). apply IH.
  - rewrite filter_cons_True by done. done.
Qed.

Lemma gemini_type_of_name_spec name m :
  gemini_type_of_name name = Some m ↔
  (name, m) ∈ [("object", "OBJECT"); ("string", "STRING"); ("number", "NUMBER");
               ("integer", "INTEGER"); ("boolean", "BOOLEAN"); ("array", "ARRAY")].
Proof.
  unfold gemini_type_of_name. split.
  - repeat match goal with
           | |- context [String.eqb name ?s] =>
               destruct (String.eqb_spec name s) as [->|?];
               [intros [= <-]; set_solver|]
           end.
    done.
  - rewrite !elem_of_cons, elem_of_nil.
    intros [[= -> ->]|[[= -> ->]|[[= -> ->]|[[= -> ->]|[[= -> ->]|[[= -> ->]|[]]]]]]];
      done.
Qed.

Lemma strip_keeps_type input :
  obj_get "type" (stripUnsupportedKeys input) = obj_get "type" (entries input).
Proof. unfold stripUnsupportedKeys. by apply obj_get_filter. Qed.

(** What [map_type] leaves under the key [type]. *)
Lemma map_type_spec initial :
  obj_get "type" initial ≠ VUndefined →
  match toGeminiType (obj_get "type" initial) with
  | Some m => obj_get "type" (map_type initial) = VStr m
  | None => obj_has "type" (map_type initial) = false
  end.
Proof.
  intros Hdef. unfold map_type.
  destruct (obj_get "type" initial) as [| | | | | |l|fs|] eqn:Hty; try done;
    match goal with
    | |- context [toGeminiType ?t] => destruct (toGeminiType t) as [m|]
    end; by rewrite ?obj_get_set_eq, ?obj_has_delete_eq.
Qed.

Lemma mark_nullable_other k input initial :
  k ≠ "nullable" →
  obj_get k (mark_nullable input initial) = obj_get k initial
  ∧ obj_has k (mark_nullable input initial) = obj_has k initial.
Proof.
  intros Hk. unfold mark_nullable.
  repeat case_match; rewrite ?obj_get_set_ne, ?obj_has_set_ne by done; done.
Qed.

Lemma set_if_truthy_other k k' conv o :
  k ≠ k' →
  obj_get k (set_if_truthy k' conv o) = obj_get k o
  ∧ obj_has k (set_if_truthy k' conv o) = obj_has k o.
Proof.
  intros Hk. unfold set_if_truthy.
  case_match; rewrite ?obj_get_set_ne, ?obj_has_set_ne by done; done.
Qed.

Lemma convert_properties_other k self input initial initial' :
  k ≠ "properties" →
  convert_properties self input initial = Some initial' →
  obj_get k initial' = obj_get k initial ∧ obj_has k initial' = obj_has k initial.
Proof.
  intros Hk. unfold convert_properties.
  assert (∀ p, match normalizeProperties p with
               | Some props =>
                   convertedProps ← convert_entries self props;
                   Some (match convertedProps with
                         | [] => initial
                         | _ => obj_set "properties" (VObj convertedProps) initial
                         end)
               | None => Some initial
               end = Some initial' →
               obj_get k initial' = obj_get k initial
               ∧ obj_has k initial' = obj_has k initial) as Hgen.
  { intros p. destruct (normalizeProperties p) as [props|]; [|by intros [= <-]].
    destruct (convert_entries self props) as [[|e cp]|]; simpl; intros [= <-];
      rewrite ?obj_get_set_ne, ?obj_has_set_ne by done; done. }
  destruct (get input "properties") eqn:Hp; try apply Hgen. by intros [= <-].
Qed.

Lemma convert_items_other k self input initial initial' :
  k ≠ "items" →
  convert_items self input initial = Some initial' →
  obj_get k initial' = obj_get k initial ∧ obj_has k initial' = obj_has k initial.
Proof.
  intros Hk. unfold convert_items.
  destruct (get input "items") as [| | | | | |l|fs|]; simpl.
  1: by intros [= <-].
  all: match goal with |- context [mbind _ (?g ?x)] => destruct (g x); simpl; [|done] end.
  all: intros [= <-]; by apply set_if_truthy_other.
Qed.

Lemma copy_plain_keys_other k input initial :
  k ∉ ["required"; "enum"; "description"; "format"] →
  obj_get k (copy_plain_keys input initial) = obj_get k initial
  ∧ obj_has k (copy_plain_keys input initial) = obj_has k initial.
Proof.
  intros Hk. unfold copy_plain_keys.
  assert (k ≠ "required" ∧ k ≠ "enum" ∧ k ≠ "description" ∧ k ≠ "format")
    as (?&?&?&?) by set_solver.
  repeat case_match; rewrite ?obj_get_set_ne, ?obj_has_set_ne by done; done.
Qed.

(** An object-like input converts to an object, whose [type] is the one
    [map_type] computed. *)
Lemma convert_type_key input :
  is_object_like input = true →
  ∃ out, convertJSONSchemaToGeminiSchema input = VObj out
         ∧ obj_get "type" out = obj_get "type" (map_type (stripUnsupportedKeys input))
         ∧ obj_has "type" out = obj_has "type" (map_type (stripUnsupportedKeys input)).
Proof.
  intros Hobj. rewrite convert_unfold. unfold convert_with, convert_body.
  replace (negb (truthy input) || negb (typeof_object input)) with false
    by (by destruct input).
  set (f := convertJSONSchemaToGeminiSchema).
  set (i0 := map_type (stripUnsupportedKeys input)).
  assert (∀ v, (depth v < depth input)%nat → (λ v, Some (f v)) v = Some (f v)) as Hf by done.
  destruct (convert_properties_answers _ f input (mark_nullable input i0) Hobj Hf)
    as [_ [i1 Hi1]].
  rewrite Hi1. simpl.
  pose proof (convert_items_answers _ f input i1 Hobj Hf) as Hi2.
  rewrite Hi2. simpl.
  eexists; split; [done|].
  pose proof (copy_plain_keys_other "type" input
                (default i1 (convert_items (λ v, Some (f v)) input i1))
                ltac:(set_solver)) as [E1 E1'].
  pose proof (convert_items_other "type" _ input i1 _ ltac:(done) Hi2) as [E2 E2'].
  pose proof (convert_properties_other "type" _ input _ i1 ltac:(done) Hi1) as [E3 E3'].
  pose proof (mark_nullable_other "type" input i0 ltac:(done)) as [E4 E4'].
  split; congruence.
Qed.

End TypeKey.

Module SchemaClaims.
Import Js Schema JsFacts SchemaFacts TypeKey Encodings.

(** C4. The schema converter normalises an array-valued type by picking
    the first entry that is not ["null"]; scalar type strings are mapped
    case-insensitively onto OBJECT, STRING, NUMBER, INTEGER, BOOLEAN, ARRAY
    and onto nothing else; a type that maps to nothing is removed from the
    result, a type that maps is replaced by its image; and a schema whose
    type is ["string","null"] converts to type STRING with nullable true. *)
Theorem C4_type_normalization :
  (∀ l, toGeminiType (VArr l) = toGeminiType (find_non_null l)) ∧
  (∀ s t, toLowerCase s = toLowerCase t →
          toGeminiType (VStr s) = toGeminiType (VStr t)) ∧
  (∀ s m, toGeminiType (VStr s) = Some m ↔
          (toLowerCase s, m) ∈
            [("object", "OBJECT"); ("string", "STRING"); ("number", "NUMBER");
             ("integer", "INTEGER"); ("boolean", "BOOLEAN"); ("array", "ARRAY")]) ∧
  (∀ src, obj_get "type" src ≠ VUndefined →
          ∃ out, convertJSONSchemaToGeminiSchema (VObj src) = VObj out ∧
                 match toGeminiType (obj_get "type" src) with
                 | Some m => obj_get "type" out = VStr m
                 | None => obj_has "type" out = false
                 end) ∧
  convertJSONSchemaToGeminiSchema (VObj [("type", VArr [VStr "string"; VStr "null"])])
  = VObj [("type", VStr "STRING"); ("nullable", VBool true)].
Proof.
  split_and!.
  - apply toGeminiType_array.
  - intros s t Hst. simpl. by rewrite Hst.
  - intros s m. apply gemini_type_of_name_spec.
  - intros src Hdef.
    destruct (convert_type_key (VObj src) eq_refl) as (out & Hout & Hget & Hhas).
    exists out. split; [done|].
    pose proof (map_type_spec (stripUnsupportedKeys (VObj src))) as Hm.
    rewrite strip_keeps_type in Hm. simpl in Hm. specialize (Hm Hdef).
    destruct (toGeminiType (obj_get "type" src)); congruence.
  - reflexivity.
Qed.

(** The converter at a schema with an unmapped type string and at one with
    a mixed-case type string. *)
Lemma C4_type_normalization_witness :
  (∃ out, convertJSONSchemaToGeminiSchema (VObj [("type", VStr "tuple")]) = VObj out
          ∧ obj_has "type" out = false)
  ∧ toGeminiType (VStr "Integer") = toGeminiType (VStr "INTEGER").
Proof.
  destruct C4_type_normalization as (_ & Hcase & _ & Hkey & _). split.
  - apply (Hkey [("type", VStr "tuple")]). simpl. discriminate.
  - apply (Hcase "Integer" "INTEGER"). reflexivity.
Defined.

End SchemaClaims.

(** ** Schema converter: the encodings of [properties] *)

Module EncodingFacts.
Import Js Schema JsFacts SchemaFacts TypeKey Encodings.

Lemma differ_at_base k b c v v' :
  obj_has k b = false → differ_at k (b ++ (k, v) :: c) (b ++ (k, v') :: c).
Proof.
  induction b as [|[k0 v0] b IH]; simpl; [constructor|].
  destruct (String.eqb_spec k0 k); [done|]. intros H.
  apply differ_later; auto.
Qed.

Lemma differ_at_get k k' fs fs' :
  differ_at k fs fs' → k' ≠ k → obj_get k' fs = obj_get k' fs'.
Proof.
  induction 1 as [v v' fs|[k0 v0] fs fs' Hne _ IH]; intros Hk; simpl.
  - destruct (String.eqb_spec k k'); congruence.
  - rewrite IH by done. done.
Qed.

Lemma differ_at_set_same k v fs fs' :
  differ_at k fs fs' → obj_set k v fs = obj_set k v fs'.
Proof.
  induction 1 as [v0 v' fs|[k0 v0] fs fs' Hne _ IH]; simpl.
  - by rewrite String.eqb_refl.
  - simpl in Hne. destruct (String.eqb_spec k0 k); congruence.
Qed.

Lemma differ_at_set_other k k' v fs fs' :
  differ_at k fs fs' → k' ≠ k →
  differ_at k (obj_set k' v fs) (obj_set k' v fs').
Proof.
  induction 1 as [v0 v' fs|[k0 v0] fs fs' Hne Hd IH]; intros Hk; simpl.
  - destruct (String.eqb_spec k k'); [congruence|]. apply differ_here.
  - destruct (String.eqb_spec k0 k').
    + by apply differ_later.
    + apply differ_later; auto.
Qed.

(** A filter that keeps [k] and never looks at the value held by [k]. *)
Lemma differ_at_filter (P : string * value → Prop) `{!∀ x, Decision (P x)} k fs fs' :
  (∀ v, P (k, v)) → differ_at k fs fs' →
  differ_at k (filter P fs) (filter P fs').
Proof.
  intros HP. induction 1 as [v0 v' fs|e fs fs' Hne Hd IH].
  - rewrite !filter_cons_True by done. apply differ_here.
  - destruct (decide (P e)).
    + rewrite !filter_cons_True by done. by apply differ_later.
    + rewrite !filter_cons_False by done. done.
Qed.

Lemma differ_at_delete_other k k' fs fs' :
  differ_at k fs fs' → k' ≠ k →
  differ_at k (obj_delete k' fs) (obj_delete k' fs').
Proof.
  intros Hd Hk. unfold obj_delete.
  apply differ_at_filter; [|done].
  intros v. simpl. apply String.eqb_neq. congruence.
Qed.

Lemma differ_at_strip before after enc enc' :
  obj_has "properties" before = false →
  differ_at "properties" (stripUnsupportedKeys (schema_with before after enc))
                         (stripUnsupportedKeys (schema_with before after enc')).
Proof.
  intros Hb. unfold stripUnsupportedKeys, schema_with. simpl.
  apply differ_at_filter; [done|].
  by apply differ_at_base.
Qed.

Lemma differ_at_map_type fs fs' :
  differ_at "properties" fs fs' → differ_at "properties" (map_type fs) (map_type fs').
Proof.
  intros Hd. unfold map_type.
  rewrite <- (differ_at_get "properties" "type" fs fs' Hd) by done.
  destruct (obj_get "type" fs) as [| | | | | |l|o|]; try done;
    match goal with
    | |- context [toGeminiType ?t] => destruct (toGeminiType t)
    end;
    by (apply differ_at_set_other || apply differ_at_delete_other).
Qed.

Lemma get_schema_with_other before after enc k :
  k ≠ "properties" →
  get (schema_with before after enc) k = obj_get k (before ++ after).
Proof.
  intros Hk. unfold schema_with, get.
  induction before as [|[k0 v0] b IH]; cbn [app obj_get].
  - destruct (String.eqb_spec "properties" k) as [<-|?]; done.
  - by rewrite IH.
Qed.

Lemma get_schema_with_properties before after enc :
  obj_has "properties" before = false →
  get (schema_with before after enc) "properties" = enc.
Proof.
  intros Hb. unfold schema_with, get.
  induction before as [|[k0 v0] b IH]; cbn [app obj_get obj_has] in *.
  - by rewrite String.eqb_refl.
  - destruct (String.eqb k0 "properties"); [done|auto].
Qed.

Lemma differ_at_mark_nullable before after enc enc' fs fs' :
  differ_at "properties" fs fs' →
  differ_at "properties" (mark_nullable (schema_with before after enc) fs)
                         (mark_nullable (schema_with before after enc') fs').
Proof.
  intros Hd. unfold mark_nullable.
  rewrite !get_schema_with_other by done.
  repeat case_match; try done; by apply differ_at_set_other.
Qed.

(** The normalised mapping of each encoding is the list of properties
    itself, provided no name occurs twice and the names are plain. *)

Lemma obj_has_fresh k (acc : fields) : k ∉ acc.*1 → obj_has k acc = false.
Proof. apply obj_has_not_elem_of. Qed.

Lemma normalize_fresh_plain (item : string * value → value) acc ps :
  (∀ e obj, plain_name e.1 = true → normalize_item obj (item e) = assign e.1 e.2 obj) →
  NoDup ((own acc).*1 ++ ps.*1) →
  Forall (λ e, plain_name e.1 = true) ps →
  foldl normalize_item acc (map item ps)
  = {| own := own acc ++ ps; proto_accessor := proto_accessor acc |}.
Proof.
  intros Hitem. revert acc.
  induction ps as [|[k v] ps IH]; intros acc Hnd Hplain; simpl.
  - rewrite app_nil_r. by destruct acc.
  - apply Forall_cons in Hplain as [Hk Hplain].
    rewrite (Hitem (k, v)) by done. simpl.
    rewrite assign_fresh_plain; [|done|].
    + rewrite IH; simpl; [by rewrite <- app_assoc| |done].
      rewrite fmap_app. simpl. by rewrite <- app_assoc.
    + simpl in Hnd. apply NoDup_app in Hnd as (_ & Hdisj & _).
      intros Hin. apply (Hdisj k Hin). constructor.
Qed.

Lemma normalize_pairs acc ps :
  NoDup ((own acc).*1 ++ ps.*1) →
  Forall (λ e, plain_name e.1 = true) ps →
  foldl normalize_item acc (map (λ e, VArr [VStr e.1; e.2]) ps)
  = {| own := own acc ++ ps; proto_accessor := proto_accessor acc |}.
Proof. apply normalize_fresh_plain. done. Qed.

Lemma normalize_key_value_records acc ps :
  NoDup ((own acc).*1 ++ ps.*1) →
  Forall (λ e, plain_name e.1 = true) ps →
  foldl normalize_item acc
        (map (λ e, VObj [("key", VStr e.1); ("value", e.2)]) ps)
  = {| own := own acc ++ ps; proto_accessor := proto_accessor acc |}.
Proof. apply normalize_fresh_plain. done. Qed.

Lemma normalize_name_schema_records acc ps :
  NoDup ((own acc).*1 ++ ps.*1) →
  Forall (λ e, plain_name e.1 = true) ps →
  foldl normalize_item acc
        (map (λ e, VObj [("name", VStr e.1); ("schema", e.2)]) ps)
  = {| own := own acc ++ ps; proto_accessor := proto_accessor acc |}.
Proof. apply normalize_fresh_plain. done. Qed.

(** All four encodings normalise to the same mapping. *)
Lemma normalizeProperties_encodings ps enc :
  NoDup ps.*1 →
  Forall (λ e, plain_name e.1 = true) ps →
  enc ∈ [as_mapping ps; as_pairs ps; as_key_value_records ps;
         as_name_schema_records ps] →
  normalizeProperties enc = Some ps.
Proof.
  intros Hnd Hplain. rewrite !elem_of_cons, elem_of_nil.
  intros [->|[->|[->|[->|[]]]]]; unfold normalizeProperties; simpl; [done|..].
  - by rewrite (normalize_pairs empty_literal ps).
  - by rewrite (normalize_key_value_records empty_literal ps).
  - by rewrite (normalize_name_schema_records empty_literal ps).
Qed.

Lemma obj_set_nonempty k v fs : obj_set k v fs ≠ [].
Proof. destruct fs as [|[k0 v0] fs]; simpl; [done|]. by destruct (String.eqb k0 k). Qed.

Lemma converted_entries_nonempty (f : value → value) ps acc :
  own acc ≠ [] ∨ (∃ e, e ∈ ps ∧ truthy (f e.2) = true ∧ e.1 ≠ "__proto__") →
  own (converted_entries f acc ps) ≠ [].
Proof.
  unfold converted_entries.
  revert acc. induction ps as [|e ps IH]; intros acc H; simpl.
  - destruct H as [H|(e & He & _)]; [done|]. by apply elem_of_nil in He.
  - apply IH. unfold assign_if_truthy.
    destruct (truthy (f e.2)) eqn:Ht.
    + destruct (decide (e.1 = "__proto__")) as [Hp|Hp].
      * destruct H as [H|(e' & He' & Ht' & Hn')].
        -- left. destruct (own_assign_cases e.1 (f e.2) acc) as [->| ->]; [done|].
           apply own_set_nonempty.
        -- apply elem_of_cons in He' as [->|He']; [done|]. right. eauto.
      * left. rewrite assign_plain by done. apply own_set_nonempty.
    + destruct H as [H|(e' & He' & Ht' & Hn')]; [by left|].
      apply elem_of_cons in He' as [->|He']; [congruence|].
      right. eauto.
Qed.

Lemma convert_object_truthy input :
  is_object_like input = true → truthy (convertJSONSchemaToGeminiSchema input) = true.
Proof. intros H. by destruct (convert_type_key input H) as (out & -> & _). Qed.

(** [convert_properties] when the normalised mapping is known. *)
Lemma convert_properties_known (f : value → value) input initial ps :
  normalizeProperties (get input "properties") = Some ps →
  convert_properties (λ v, Some (f v)) input initial
  = Some (match own (converted_entries f empty_literal ps) with
          | [] => initial
          | cp => obj_set "properties" (VObj cp) initial
          end).
Proof.
  intros Hn. unfold convert_properties.
  assert (convert_entries (λ v, Some (f v)) ps
          = Some (own (converted_entries f empty_literal ps))) as He
    by (apply convert_entries_answers; by apply Forall_forall).
  destruct (get input "properties"); try done; rewrite Hn, He; simpl;
    by case_match.
Qed.

Lemma convert_items_cong (g : value → option value) input input' initial :
  get input "items" = get input' "items" →
  convert_items g input initial = convert_items g input' initial.
Proof. unfold convert_items. by intros ->. Qed.

Lemma copy_plain_keys_cong input input' initial :
  (∀ k, k ≠ "properties" → get input k = get input' k) →
  copy_plain_keys input initial = copy_plain_keys input' initial.
Proof.
  intros H. unfold copy_plain_keys.
  by rewrite (H "required"), (H "enum"), (H "description"), (H "format").
Qed.

(** Two encodings that normalise to the same mapping, of which at least
    one property converts to something, give the same converted schema. *)
Lemma convert_schema_with_agree before after enc enc' ps :
  obj_has "properties" before = false →
  normalizeProperties enc = Some ps →
  normalizeProperties enc' = Some ps →
  (∃ e, e ∈ ps ∧ is_object_like e.2 = true ∧ e.1 ≠ "__proto__") →
  convertJSONSchemaToGeminiSchema (schema_with before after enc)
  = convertJSONSchemaToGeminiSchema (schema_with before after enc').
Proof.
  intros Hb Hn Hn' (e & He & Hobj & Hname).
  rewrite (convert_unfold (schema_with before after enc)).
  rewrite (convert_unfold (schema_with before after enc')).
  unfold convert_with, convert_body.
  change (negb (truthy (schema_with before after enc))
          || negb (typeof_object (schema_with before after enc))) with false.
  change (negb (truthy (schema_with before after enc'))
          || negb (typeof_object (schema_with before after enc'))) with false.
  cbv iota.
  set (f := convertJSONSchemaToGeminiSchema).
  rewrite (convert_properties_known f _ _ ps)
    by (by rewrite get_schema_with_properties).
  rewrite (convert_properties_known f _ _ ps)
    by (by rewrite get_schema_with_properties).
  pose proof (converted_entries_nonempty f ps empty_literal) as Hne.
  destruct (own (converted_entries f empty_literal ps)) as [|c cp] eqn:Hcp.
  { exfalso. apply Hne; [|done]. right. exists e. split_and!; [done| |done].
    by apply convert_object_truthy. }
  rewrite (differ_at_set_same "properties" (VObj (c :: cp)) _
             (mark_nullable (schema_with before after enc')
                            (map_type (stripUnsupportedKeys (schema_with before after enc'))))).
  2:{ apply differ_at_mark_nullable, differ_at_map_type. by apply differ_at_strip. }
  cbn [mbind option_bind].
  rewrite (convert_items_cong _ (schema_with before after enc)
                              (schema_with before after enc'))
    by (by rewrite !get_schema_with_other).
  destruct (convert_items _ _ _); cbn [mbind option_bind]; [|done].
  rewrite (copy_plain_keys_cong (schema_with before after enc)
                                (schema_with before after enc')); [done|].
  intros k Hk. by rewrite !get_schema_with_other.
Qed.

(** The encodings agree as soon as one property has an object for its
    sub-schema: the case the normalisation is written for.  The names are
    plain ones, listed once each. *)
Lemma properties_encodings_agree before after ps enc :
  NoDup ps.*1 →
  Forall (λ e, plain_name e.1 = true) ps →
  obj_has "properties" before = false →
  (∃ e, e ∈ ps ∧ is_object_like e.2 = true) →
  enc ∈ [as_pairs ps; as_key_value_records ps; as_name_schema_records ps] →
  convertJSONSchemaToGeminiSchema (schema_with before after enc)
  = convertJSONSchemaToGeminiSchema (schema_with before after (as_mapping ps)).
Proof.
  intros Hnd Hplain Hb (e & He & Hobj) Henc.
  apply (convert_schema_with_agree before after enc (as_mapping ps) ps); [done| |done|].
  - apply normalizeProperties_encodings; [done|done|]. set_solver.
  - exists e. split_and!; [done|done|].
    apply (proj1 (Forall_forall _ _) Hplain) in He.
    by apply plain_name_spec in He as [? _].
Qed.

End EncodingFacts.

Module EncodingClaims.
Import Js Schema Encodings.

(** C5. Evaluation at the failing input.  For the empty set of properties
    the converter leaves the [properties] field as it was passed: the
    mapping encoding comes out as an empty object, the pair-list and
    record-list encodings as an empty array, so the converted schemas are
    not identical. *)
Theorem C5_empty_properties_keep_their_encoding :
  convertJSONSchemaToGeminiSchema
    (schema_with [("type", VStr "object")] [] (as_mapping []))
  = VObj [("type", VStr "OBJECT"); ("properties", VObj [])]
  ∧ convertJSONSchemaToGeminiSchema
      (schema_with [("type", VStr "object")] [] (as_pairs []))
    = VObj [("type", VStr "OBJECT"); ("properties", VArr [])]
  ∧ convertJSONSchemaToGeminiSchema
      (schema_with [("type", VStr "object")] [] (as_key_value_records []))
    = VObj [("type", VStr "OBJECT"); ("properties", VArr [])]
  ∧ convertJSONSchemaToGeminiSchema
      (schema_with [("type", VStr "object")] [] (as_mapping []))
    ≠ convertJSONSchemaToGeminiSchema
        (schema_with [("type", VStr "object")] [] (as_pairs [])).
Proof. split_and!; [reflexivity..|]. vm_compute. discriminate. Qed.

(** The same leak with a property whose value is not a schema: nothing
    converts, and the raw encoding stays in the result. *)
Example unconvertible_properties_keep_their_encoding :
  convertJSONSchemaToGeminiSchema
    (schema_with [] [] (as_pairs [("a", VStr "string")]))
  = VObj [("properties", VArr [VArr [VStr "a"; VStr "string"]])].
Proof. reflexivity. Qed.

(** The three encodings of one object-valued property, converted. *)
Example encodings_of_one_property :
  let ps := [("city", VObj [("type", VStr "string"); ("minLength", VNum 1)])] in
  let expected :=
    VObj [("type", VStr "OBJECT");
          ("properties", VObj [("city", VObj [("type", VStr "STRING")])])] in
  Forall (λ enc, convertJSONSchemaToGeminiSchema
                   (schema_with [("type", VStr "object")] [] enc) = expected)
         [as_mapping ps; as_pairs ps; as_key_value_records ps;
          as_name_schema_records ps].
Proof. repeat constructor. Qed.

End EncodingClaims.

(** ** Thinking budget, reasoning effort, tool choice *)

Module ConfigClaims.
Import Js Config JsFacts.

Lemma obj_get_set_defined k v fs :
  is_undefined v = false →
  obj_get k (filter (λ kv, is_undefined kv.2 = false) (obj_set k v fs)) = v.
Proof.
  intros Hv. induction fs as [|[k0 v0] fs IH]; simpl.
  - rewrite filter_cons_True by done. simpl. by rewrite String.eqb_refl.
  - destruct (String.eqb k0 k) eqn:E.
    + rewrite filter_cons_True by done. simpl. by rewrite E.
    + destruct (is_undefined v0) eqn:Hu.
      * rewrite filter_cons_False by (simpl; congruence). done.
      * rewrite filter_cons_True by done. simpl. by rewrite E.
Qed.

(** A valid effort level is a non-empty string. *)
Lemma valid_effort_truthy effort :
  isValidEffortLevel effort = true → truthy effort = true.
Proof.
  destruct effort as [| | | | |s| | |]; try done.
  destruct s; [by vm_compute|done].
Qed.

(** The [||] chain returns the first hint that is set. *)
Lemma requested_effort_first options effort :
  head (filter (λ v, truthy v = true) (effort_hint_sources options)) = Some effort →
  requested_effort options = effort.
Proof.
  unfold requested_effort, effort_hint_sources, Js.or.
  destruct (truthy (reasoning_effort options)) eqn:H1.
  { rewrite filter_cons_True by done. rewrite H1. simpl. by intros [= <-]. }
  rewrite filter_cons_False by congruence.
  destruct (truthy (opt_get (extra_body options) "reasoning_effort")) eqn:H2.
  { rewrite filter_cons_True by done. simpl. by intros [= <-]. }
  rewrite filter_cons_False by congruence.
  destruct (truthy (opt_get (model_params options) "reasoning_effort")) eqn:H3.
  { rewrite filter_cons_True by done. simpl. by intros [= <-]. }
  rewrite filter_cons_False by congruence. done.
Qed.

(** C2. On a model that the model table marks as thinking,
    [validateThinkingBudget] answers the default sentinel, -1, for the
    budget 0 and for every budget below -1, and the budget itself for
    every other budget; on a model that is not so marked (or is not in the
    table) it answers the budget itself, whatever it is. *)
Theorem C2_validateThinkingBudget
        (geminiCliModels : gmap string ModelInfo) (modelId : string) (budget : Z) :
  (∀ modelInfo, geminiCliModels !! modelId = Some modelInfo →
                thinking modelInfo = true →
                (budget = 0 ∨ budget < -1 →
                 validateThinkingBudget geminiCliModels modelId budget
                 = DEFAULT_THINKING_BUDGET
                 ∧ DEFAULT_THINKING_BUDGET = -1)
                ∧ (-1 ≤ budget → budget ≠ 0 →
                   validateThinkingBudget geminiCliModels modelId budget = budget))
  ∧ ((∀ modelInfo, geminiCliModels !! modelId = Some modelInfo →
                   thinking modelInfo = false) →
     validateThinkingBudget geminiCliModels modelId budget = budget).
Proof.
  unfold validateThinkingBudget, model_thinks. split.
  - intros modelInfo -> ->. split.
    + intros [->|Hlt]; [done|].
      destruct (Z.eqb_spec budget 0); [done|].
      destruct (Z.ltb_spec budget (-1)); [done|lia].
    + intros Hge Hne.
      destruct (Z.eqb_spec budget 0); [done|].
      destruct (Z.ltb_spec budget (-1)); [lia|done].
  - intros Hno. destruct (geminiCliModels !! modelId) as [modelInfo|]; [|done].
    by rewrite (Hno modelInfo eq_refl).
Qed.

(** The budgets 0, -2 and 8192 on a thinking model, and 0 on a model that
    is not in the table. *)
Lemma C2_validateThinkingBudget_witness :
  let models : gmap string ModelInfo :=
    {[ "gemini-2.5-pro" := {| thinking := true |} ]} in
  validateThinkingBudget models "gemini-2.5-pro" 0 = -1
  ∧ validateThinkingBudget models "gemini-2.5-pro" (-2) = -1
  ∧ validateThinkingBudget models "gemini-2.5-pro" 8192 = 8192
  ∧ validateThinkingBudget models "text-bison" 0 = 0.
Proof.
  intros models. split_and!.
  - apply (proj1 (C2_validateThinkingBudget models "gemini-2.5-pro" 0)
                 {| thinking := true |}); [reflexivity|reflexivity|lia].
  - apply (proj1 (C2_validateThinkingBudget models "gemini-2.5-pro" (-2))
                 {| thinking := true |}); [reflexivity|reflexivity|lia].
  - apply (proj1 (C2_validateThinkingBudget models "gemini-2.5-pro" 8192)
                 {| thinking := true |}); [reflexivity|reflexivity|lia|lia].
  - apply (proj2 (C2_validateThinkingBudget models "text-bison" 0)).
    intros modelInfo H. vm_compute in H. discriminate.
Defined.

Lemma thinkingConfig_of_config models table temp modelId options isReal incl :
  model_thinks models modelId = true →
  obj_get "thinkingConfig"
          (createValidatedConfig models table temp modelId options isReal incl)
  = let '(thinkingBudget, includeReasoning) :=
      resolve_effort table modelId options incl in
    if isReal && includeReasoning then
      thinkingConfig_object (validateThinkingBudget models modelId thinkingBudget) true
    else
      thinkingConfig_object
        (validateThinkingBudget models modelId DEFAULT_THINKING_BUDGET) false.
Proof.
  intros Hm. unfold createValidatedConfig. rewrite Hm.
  destruct (resolve_effort table modelId options incl) as [b i].
  destruct (isReal && i); by rewrite obj_get_set_defined.
Qed.

(** C3. On a thinking model, when the first reasoning-effort hint that is
    set (top-level field, then [extra_body], then [model_params]) is one of
    none, low, medium, high, the budget is the table's entry for that
    effort (at medium and high, the entry for the flash family when the
    model id contains "flash", the default entry otherwise), whatever
    [thinking_budget] says, and reasoning is included exactly when the
    effort is not none, whatever the caller passed; the emitted
    [thinkingConfig] follows.  At medium and at high,
    [mapEffortToThinkingBudget] answers the flash entry for a model id
    that contains "flash" and the default entry for one that does not, so
    that with a table that is sensitive to the model class the two
    budgets differ. *)
Theorem C3_effort_overrides_budget
        (geminiCliModels : gmap string ModelInfo) (table : EffortBudgets)
        (DEFAULT_TEMPERATURE : value) :
  (∀ modelId modelInfo options isRealThinkingEnabled includeReasoning effort budget,
     geminiCliModels !! modelId = Some modelInfo →
     thinking modelInfo = true →
     head (filter (λ v, truthy v = true) (effort_hint_sources options))
     = Some (VStr effort) →
     (effort, budget) ∈
       [("none", budget_none table);
        ("low", budget_low table);
        ("medium", if includes modelId "flash" then budget_medium_flash table
                   else budget_medium_default table);
        ("high", if includes modelId "flash" then budget_high_flash table
                 else budget_high_default table)] →
     resolve_effort table modelId options includeReasoning
     = (budget, negb (String.eqb effort "none"))
     ∧ obj_get "thinkingConfig"
               (createValidatedConfig geminiCliModels table DEFAULT_TEMPERATURE
                                      modelId options isRealThinkingEnabled
                                      includeReasoning)
       = if isRealThinkingEnabled && negb (String.eqb effort "none") then
           thinkingConfig_object
             (validateThinkingBudget geminiCliModels modelId budget) true
         else
           thinkingConfig_object
             (validateThinkingBudget geminiCliModels modelId DEFAULT_THINKING_BUDGET)
             false)
  ∧ (∀ flashId otherId,
       includes flashId "flash" = true →
       includes otherId "flash" = false →
       mapEffortToThinkingBudget table (VStr "medium") flashId
       = budget_medium_flash table
       ∧ mapEffortToThinkingBudget table (VStr "medium") otherId
         = budget_medium_default table
       ∧ mapEffortToThinkingBudget table (VStr "high") flashId
         = budget_high_flash table
       ∧ mapEffortToThinkingBudget table (VStr "high") otherId
         = budget_high_default table
       ∧ (class_sensitive table →
          ∀ effort, effort ∈ [VStr "medium"; VStr "high"] →
                    mapEffortToThinkingBudget table effort flashId
                    ≠ mapEffortToThinkingBudget table effort otherId)).
Proof.
  split.
  - intros modelId modelInfo options isReal incl effort budget Hm Ht Hfirst Hentry.
    assert (isValidEffortLevel (VStr effort) = true
            ∧ mapEffortToThinkingBudget table (VStr effort) modelId = budget
            ∧ is_str "none" (VStr effort) = String.eqb effort "none")
      as (Hvalid & Hmap & Hnone).
    { rewrite !elem_of_cons, elem_of_nil in Hentry.
      unfold mapEffortToThinkingBudget.
      destruct Hentry as [[= -> ->]|[[= -> ->]|[[= -> ->]|[[= -> ->]|[]]]]]; done. }
    assert (resolve_effort table modelId options incl
            = (budget, negb (String.eqb effort "none"))) as Hres.
    { unfold resolve_effort. rewrite (requested_effort_first _ _ Hfirst).
      by rewrite (valid_effort_truthy _ Hvalid), Hvalid, Hmap, Hnone. }
    split; [done|].
    rewrite thinkingConfig_of_config by (unfold model_thinks; by rewrite Hm).
    by rewrite Hres.
  - intros flashId otherId Hf Ho.
    unfold mapEffortToThinkingBudget. rewrite Hf, Ho. simpl.
    split_and!; try done.
    intros [Hmed Hhigh] effort He.
    rewrite !elem_of_cons, elem_of_nil in He.
    destruct He as [->|[->|[]]]; done.
Qed.

(** A request with [thinking_budget: 5000] and
    [extra_body.reasoning_effort: "high"] on a flash model, and the
    medium budgets of a flash and of a pro model. *)
Lemma C3_effort_overrides_budget_witness :
  let models : gmap string ModelInfo :=
    {[ "gemini-2.5-flash" := {| thinking := true |} ]} in
  let table :=
    {| budget_none := 0; budget_low := 1024;
       budget_medium_flash := 12288; budget_medium_default := 16384;
       budget_high_flash := 24576; budget_high_default := 32768 |} in
  let options :=
    {| temperature := VUndefined; max_tokens := VUndefined; top_p := VUndefined;
       stop := VUndefined; presence_penalty := VUndefined;
       frequency_penalty := VUndefined; seed := VUndefined;
       response_format := VUndefined; thinking_budget := Some 5000;
       reasoning_effort := VUndefined;
       extra_body := VObj [("reasoning_effort", VStr "high")];
       model_params := VUndefined; tools := None; tool_choice := VUndefined |} in
  resolve_effort table "gemini-2.5-flash" options false = (24576, true)
  ∧ mapEffortToThinkingBudget table (VStr "medium") "gemini-2.5-flash"
    ≠ mapEffortToThinkingBudget table (VStr "medium") "gemini-2.5-pro".
Proof.
  intros models table options. split.
  - apply (proj1 (C3_effort_overrides_budget models table VUndefined)
                 "gemini-2.5-flash" {| thinking := true |} options true false
                 "high" 24576); [reflexivity|reflexivity|reflexivity|].
    vm_compute. do 3 right. left.
  - apply (proj2 (C3_effort_overrides_budget models table VUndefined)
                 "gemini-2.5-flash" "gemini-2.5-pro");
      [reflexivity|reflexivity| |vm_compute; left].
    split; vm_compute; discriminate.
Defined.

(** An invalid top-level hint hides a valid nested one: the hint is the
    first one set, and it is then ignored. *)
Example invalid_hint_hides_nested_hint :
  let table :=
    {| budget_none := 0; budget_low := 1024;
       budget_medium_flash := 12288; budget_medium_default := 16384;
       budget_high_flash := 24576; budget_high_default := 32768 |} in
  let options :=
    {| temperature := VUndefined; max_tokens := VUndefined; top_p := VUndefined;
       stop := VUndefined; presence_penalty := VUndefined;
       frequency_penalty := VUndefined; seed := VUndefined;
       response_format := VUndefined; thinking_budget := Some 5000;
       reasoning_effort := VStr "extreme";
       extra_body := VObj [("reasoning_effort", VStr "high")];
       model_params := VUndefined; tools := None; tool_choice := VUndefined |} in
  resolve_effort table "gemini-2.5-flash" options false = (5000, false).
Proof. reflexivity. Qed.

(** C1, as the code has it.  With custom tools enabled and a non-empty
    tool list in the configuration and in the request, the call returns
    and its toolConfig follows the tool choice: "auto" gives
    function-calling mode AUTO; "none" gives NONE; an object whose
    [function] names X gives ANY with allowedFunctionNames [X]; more
    generally every object whose [function] field is truthy gives ANY with
    the one-element list holding [function.name], which is undefined when
    the field carries no name; every other tool choice gives the empty
    toolConfig object, which holds no functionCallingConfig.  When neither
    the custom nor the native branch applies, tools and toolConfig are both
    undefined. *)
Theorem C1_tool_choice_mapping
        (config : NativeToolsConfiguration) (options : ChatCompletionRequest) :
  (useCustomTools config = true →
   non_empty (customTools config) = true →
   non_empty (tools options) = true →
   ∃ setup,
     createFinalToolConfiguration config options = Some setup
     ∧ let toolConfig := setup_toolConfig setup in
       (tool_choice options = VStr "auto" →
        toolConfig = VObj [("functionCallingConfig", VObj [("mode", VStr "AUTO")])])
       ∧ (tool_choice options = VStr "none" →
          toolConfig = VObj [("functionCallingConfig", VObj [("mode", VStr "NONE")])])
       ∧ (∀ X choice fn,
            tool_choice options = VObj choice →
            obj_get "function" choice = VObj fn →
            obj_get "name" fn = X →
            toolConfig
            = VObj [("functionCallingConfig",
                      VObj [("mode", VStr "ANY");
                            ("allowedFunctionNames", VArr [X])])])
       ∧ (typeof_object (tool_choice options) = true →
          truthy (get (tool_choice options) "function") = true →
          toolConfig
          = VObj [("functionCallingConfig",
                    VObj [("mode", VStr "ANY");
                          ("allowedFunctionNames",
                            VArr [get (get (tool_choice options) "function") "name"])])])
       ∧ (tool_choice options ≠ VStr "auto" →
          tool_choice options ≠ VStr "none" →
          typeof_object (tool_choice options) = false
          ∨ truthy (get (tool_choice options) "function") = false →
          toolConfig = VObj []))
  ∧ (useCustomTools config && non_empty (customTools config) = false →
     useNativeTools config && non_empty (nativeTools config) = false →
     createFinalToolConfiguration config options
     = Some {| setup_tools := VUndefined; setup_toolConfig := VUndefined |}).
Proof.
  split.
  - intros Hc Hl Ht. unfold createFinalToolConfiguration. rewrite Hc, Hl. simpl.
    eexists. split; [reflexivity|]. simpl.
    unfold createValidateTools.
    destruct (tools options) as [[|tool rest]|]; try done. simpl.
    assert (typeof_object (tool_choice options) = true →
            truthy (get (tool_choice options) "function") = true →
            (if truthy (tool_choice options)
             then if is_str "auto" (tool_choice options)
                  then functionCallingConfig [("mode", VStr "AUTO")]
                  else if is_str "none" (tool_choice options)
                       then functionCallingConfig [("mode", VStr "NONE")]
                       else if typeof_object (tool_choice options)
                               && truthy (get (tool_choice options) "function")
                            then functionCallingConfig
                                   [("mode", VStr "ANY");
                                    ("allowedFunctionNames",
                                      VArr [get (get (tool_choice options) "function")
                                                "name"])]
                            else VObj []
             else VObj [])
            = VObj [("functionCallingConfig",
                      VObj [("mode", VStr "ANY");
                            ("allowedFunctionNames",
                              VArr [get (get (tool_choice options) "function")
                                        "name"])])]) as Hany.
    { intros Hobj Hfun.
      destruct (tool_choice options) as [| | | | | |l|fs|]; try done.
      simpl in *. by rewrite Hfun. }
    split_and!.
    + by intros ->.
    + by intros ->.
    + intros X choice fn Hchoice Hfn <-.
      rewrite Hany.
      * rewrite Hchoice. simpl. by rewrite Hfn.
      * by rewrite Hchoice.
      * rewrite Hchoice. simpl. by rewrite Hfn.
    + exact Hany.
    + intros Hauto Hnone Hno.
      destruct (truthy (tool_choice options)); [|done].
      destruct (is_str "auto" (tool_choice options)) eqn:Ea.
      { destruct (tool_choice options) as [| | | | |s| | |]; try done.
        simpl in Ea. apply String.eqb_eq in Ea. congruence. }
      destruct (is_str "none" (tool_choice options)) eqn:En.
      { destruct (tool_choice options) as [| | | | |s| | |]; try done.
        simpl in En. apply String.eqb_eq in En. congruence. }
      destruct Hno as [-> | ->]; [done|]. by rewrite andb_false_r.
  - intros Hc Hn. unfold createFinalToolConfiguration. by rewrite Hc, Hn.
Qed.

(** One declared tool, with a forced function, with "none", with the tool
    choice "required" and with an object whose [function] is not an
    object; and a configuration without tools. *)
Lemma C1_tool_choice_mapping_witness :
  let tool := {| function := {| name := VStr "lookup"; description := VUndefined;
                                parameters := VUndefined |} |} in
  let config := {| useCustomTools := true; useNativeTools := false;
                   customTools := Some [tool]; nativeTools := None |} in
  let forced := VObj [("type", VStr "function");
                      ("function", VObj [("name", VStr "lookup")])] in
  let unnamed := VObj [("type", VStr "function"); ("function", VStr "lookup")] in
  (∃ setup,
      createFinalToolConfiguration config (request_with_tools (Some [tool]) forced)
      = Some setup
      ∧ setup_toolConfig setup
        = VObj [("functionCallingConfig",
                  VObj [("mode", VStr "ANY");
                        ("allowedFunctionNames", VArr [VStr "lookup"])])])
  ∧ (∃ setup,
        createFinalToolConfiguration config
          (request_with_tools (Some [tool]) (VStr "none")) = Some setup
        ∧ setup_toolConfig setup
          = VObj [("functionCallingConfig", VObj [("mode", VStr "NONE")])])
  ∧ (∃ setup,
        createFinalToolConfiguration config
          (request_with_tools (Some [tool]) (VStr "required")) = Some setup
        ∧ setup_toolConfig setup = VObj [])
  ∧ (∃ setup,
        createFinalToolConfiguration config
          (request_with_tools (Some [tool]) unnamed) = Some setup
        ∧ setup_toolConfig setup
          = VObj [("functionCallingConfig",
                    VObj [("mode", VStr "ANY");
                          ("allowedFunctionNames", VArr [VUndefined])])])
  ∧ createFinalToolConfiguration
      {| useCustomTools := false; useNativeTools := false;
         customTools := Some []; nativeTools := None |}
      (request_with_tools None VUndefined)
    = Some {| setup_tools := VUndefined; setup_toolConfig := VUndefined |}.
Proof.
  intros tool config forced unnamed. split_and!.
  - destruct (proj1 (C1_tool_choice_mapping config
                       (request_with_tools (Some [tool]) forced))
                    eq_refl eq_refl eq_refl)
      as (setup & Hs & _ & _ & Hnamed & _).
    exists setup. split; [exact Hs|].
    apply (Hnamed (VStr "lookup") _ [("name", VStr "lookup")] eq_refl);
      reflexivity.
  - destruct (proj1 (C1_tool_choice_mapping config
                       (request_with_tools (Some [tool]) (VStr "none")))
                    eq_refl eq_refl eq_refl)
      as (setup & Hs & _ & Hnone & _).
    exists setup. split; [exact Hs|]. apply Hnone. reflexivity.
  - destruct (proj1 (C1_tool_choice_mapping config
                       (request_with_tools (Some [tool]) (VStr "required")))
                    eq_refl eq_refl eq_refl)
      as (setup & Hs & _ & _ & _ & _ & Hother).
    exists setup. split; [exact Hs|].
    apply Hother; [simpl; discriminate|simpl; discriminate|left; reflexivity].
  - destruct (proj1 (C1_tool_choice_mapping config
                       (request_with_tools (Some [tool]) unnamed))
                    eq_refl eq_refl eq_refl)
      as (setup & Hs & _ & _ & _ & Hany & _).
    exists setup. split; [exact Hs|]. apply Hany; reflexivity.
  - apply (proj2 (C1_tool_choice_mapping
                    {| useCustomTools := false; useNativeTools := false;
                       customTools := Some []; nativeTools := None |}
                    (request_with_tools None VUndefined)));
      reflexivity.
Defined.

(** The tool choice is read by [createValidateTools], which looks at the
    tool list of the request, not at the one of the configuration: with
    tools in the configuration only, "auto" gives the empty toolConfig. *)
Example tool_choice_needs_request_tools :
  let tool := {| function := {| name := VStr "lookup"; description := VUndefined;
                                parameters := VUndefined |} |} in
  let config := {| useCustomTools := true; useNativeTools := false;
                   customTools := Some [tool]; nativeTools := None |} in
  setup_toolConfig <$>
    createFinalToolConfiguration config (request_with_tools None (VStr "auto"))
  = Some (VObj []).
Proof. reflexivity. Qed.

(** C1 as stated fails, with one tool declared.  The tool choice
    "required", which is neither "auto", "none" nor a function object,
    gives the empty object for toolConfig, not undefined; and the
    malformed tool choices [{function: true}] and
    [{type: "function", function: "lookup"}] do give a toolConfig with a
    functionCallingConfig: mode ANY with the allowed names [[undefined]]. *)
Lemma C1_other_tool_choice_counterexample :
  let tool := {| function := {| name := VStr "lookup"; description := VUndefined;
                                parameters := VUndefined |} |} in
  let config := {| useCustomTools := true; useNativeTools := false;
                   customTools := Some [tool]; nativeTools := None |} in
  let toolConfig_for tool_choice :=
    setup_toolConfig <$>
      createFinalToolConfiguration config
        (request_with_tools (Some [tool]) tool_choice) in
  let any_undefined :=
    VObj [("functionCallingConfig",
            VObj [("mode", VStr "ANY");
                  ("allowedFunctionNames", VArr [VUndefined])])] in
  toolConfig_for (VStr "required") ≠ Some VUndefined
  ∧ toolConfig_for (VStr "required") = Some (VObj [])
  ∧ toolConfig_for (VObj [("function", VBool true)]) = Some any_undefined
  ∧ toolConfig_for (VObj [("type", VStr "function"); ("function", VStr "lookup")])
    = Some any_undefined.
Proof. split_and!; [vm_compute; discriminate|reflexivity..]. Qed.

End ConfigClaims.

(** ** The stream transformer *)

Module StreamFacts.
Import Js Stream StreamSpec.

(** Case analysis on the kind of a chunk, against every literal the goal
    compares it with. *)
Ltac split_kind kind :=
  repeat match goal with
         | |- context [String.eqb kind ?s] =>
             destruct (String.eqb_spec kind s) as [->|?]; simpl
         | H : context [String.eqb kind ?s] |- _ =>
             destruct (String.eqb_spec kind s) as [->|?]; simpl in H
         end.

Section WithObjectName.

Variable OBJ : string.

(** One step of [transform], on the state. *)
Lemma transform_state T st c :
  let st' := (transform OBJ T st c).1 in
  toolCallId st'
  = (if assigns_tool_call c
     then VStr ("call_" +:+ randomUUID (host T) (drawn st))
     else toolCallId st)
  ∧ toolCallName st'
    = (if assigns_tool_call c then get (data c) "name" else toolCallName st)
  ∧ drawn st' = (if assigns_tool_call c then S (drawn st) else drawn st)
  ∧ usageData st'
    = (if String.eqb (type c) "usage" && isUsageData (data c)
       then data c else usageData st)
  ∧ firstChunk st'
    = firstChunk st && negb (role_kind c && shape_ok (type c) (data c)).
Proof.
  destruct c as [kind d], st as [[] id nm us dr], T as [ci ct cm [] ch].
  all: unfold transform, assigns_tool_call, is_tool_code, role_kind, shape_ok; simpl.
  all: split_kind kind;
    repeat match goal with
           | |- context [if ?b then _ else _] => destruct b eqn:?; simpl
           end;
    done.
Qed.

(** One step of [transform], on the payload it enqueues. *)
Lemma transform_output T st c p :
  (transform OBJ T st c).2 = Some p →
  shape_ok (type c) (data c) = true
  ∧ has_key "completion_tokens_details" p = false
  ∧ (isR1 T = true → has_key "reasoning_finished" (delta_of p) = false)
  ∧ (if firstChunk st && role_kind c
     then get (delta_of p) "role" = VStr "assistant"
          ∧ (is_tool_code c = true →
             has_key "content" (delta_of p) = true
             ∧ get (delta_of p) "content" = VNull)
     else has_key "role" (delta_of p) = false).
Proof.
  destruct c as [kind d], st as [[] id nm us dr], T as [ci ct cm [] ch].
  all: unfold transform, is_tool_code, role_kind, shape_ok; simpl.
  all: split_kind kind;
    repeat match goal with
           | |- context [if ?b then _ else _] => destruct b eqn:?; simpl
           end;
    intros [= <-]; simpl; done.
Qed.

(** A well-shaped chunk of a role kind always enqueues a payload. *)
Lemma transform_role_kind_emits T st c :
  role_kind c = true → shape_ok (type c) (data c) = true →
  is_Some (transform OBJ T st c).2.
Proof.
  destruct c as [kind d], st as [fc id nm us dr].
  unfold transform, role_kind, shape_ok. simpl.
  split_kind kind; try done;
    intros _ ->; simpl; by destruct fc.
Qed.

(** Two transformers for the same model and mode, in states that agree
    on the first-chunk flag, enqueue the same payload up to ids. *)
Lemma transform_masked T1 T2 st1 st2 c :
  model T1 = model T2 → isR1 T1 = isR1 T2 →
  firstChunk st1 = firstChunk st2 →
  mask_all_ids <$> (transform OBJ T1 st1 c).2
  = mask_all_ids <$> (transform OBJ T2 st2 c).2.
Proof.
  destruct c as [kind d], st1 as [fc1 id1 nm1 us1 dr1], st2 as [fc2 id2 nm2 us2 dr2],
    T1 as [c1 t1 m1 r1 h1], T2 as [c2 t2 m2 r2 h2].
  simpl. intros -> -> ->. unfold transform. simpl.
  split_kind kind;
    repeat match goal with
           | |- context [if ?b then _ else _] => destruct b eqn:?; simpl
           end;
    done.
Qed.

Lemma flush_masked T1 T2 st1 st2 :
  model T1 = model T2 → isR1 T1 = isR1 T2 →
  usageData st1 = usageData st2 →
  truthy (toolCallId st1) = truthy (toolCallId st2) →
  mask_all_ids (flush_payload OBJ T1 st1) = mask_all_ids (flush_payload OBJ T2 st2).
Proof.
  destruct st1 as [fc1 id1 nm1 us1 dr1], st2 as [fc2 id2 nm2 us2 dr2],
    T1 as [c1 t1 m1 r1 h1], T2 as [c2 t2 m2 r2 h2].
  simpl. intros -> -> -> Hid. unfold flush_payload. simpl. rewrite Hid.
  destruct (truthy id2), (truthy us2), r2; done.
Qed.

(** The invariants of a run. *)

Lemma feed_toolCallId T chunks : ∀ st,
  truthy (toolCallId (feed OBJ T st chunks).1)
  = truthy (toolCallId st) || existsb assigns_tool_call chunks.
Proof.
  induction chunks as [|c chunks IH]; intros st; simpl.
  - by rewrite orb_false_r.
  - pose proof (transform_state T st c) as (Hid & _).
    destruct (transform OBJ T st c) as [st' out]. simpl in Hid.
    specialize (IH st'). destruct (feed OBJ T st' chunks) as [st'' outs].
    simpl in *. rewrite IH, Hid.
    destruct (assigns_tool_call c); simpl; [|done].
    by rewrite orb_true_r.
Qed.

Lemma feed_usageData T1 T2 chunks : ∀ st1 st2,
  usageData st1 = usageData st2 →
  usageData (feed OBJ T1 st1 chunks).1 = usageData (feed OBJ T2 st2 chunks).1.
Proof.
  induction chunks as [|c chunks IH]; intros st1 st2 Hu; simpl; [done|].
  pose proof (transform_state T1 st1 c) as (_ & _ & _ & H1 & _).
  pose proof (transform_state T2 st2 c) as (_ & _ & _ & H2 & _).
  destruct (transform OBJ T1 st1 c) as [st1' out1].
  destruct (transform OBJ T2 st2 c) as [st2' out2]. simpl in *.
  specialize (IH st1' st2').
  destruct (feed OBJ T1 st1' chunks) as [st1'' outs1].
  destruct (feed OBJ T2 st2' chunks) as [st2'' outs2]. simpl in *.
  apply IH. rewrite H1, H2. by rewrite Hu.
Qed.

Lemma feed_masked T1 T2 chunks : ∀ st1 st2,
  model T1 = model T2 → isR1 T1 = isR1 T2 →
  firstChunk st1 = firstChunk st2 →
  map (λ x, mask_all_ids x.2) (feed OBJ T1 st1 chunks).2
  = map (λ x, mask_all_ids x.2) (feed OBJ T2 st2 chunks).2.
Proof.
  induction chunks as [|c chunks IH]; intros st1 st2 Hm Hr Hf; simpl; [done|].
  pose proof (transform_masked T1 T2 st1 st2 c Hm Hr Hf) as Hout.
  pose proof (transform_state T1 st1 c) as (_ & _ & _ & _ & H1).
  pose proof (transform_state T2 st2 c) as (_ & _ & _ & _ & H2).
  destruct (transform OBJ T1 st1 c) as [st1' out1].
  destruct (transform OBJ T2 st2 c) as [st2' out2]. simpl in *.
  specialize (IH st1' st2' Hm Hr).
  destruct (feed OBJ T1 st1' chunks) as [st1'' outs1].
  destruct (feed OBJ T2 st2' chunks) as [st2'' outs2]. simpl in *.
  rewrite Hf in H1. rewrite <- H2 in H1. specialize (IH H1).
  destruct out1 as [p1|], out2 as [p2|]; simpl in *; try done.
  injection Hout as ->. by rewrite IH.
Qed.

(** Every payload enqueued by [transform] during a run. *)
Lemma feed_outputs (P : StreamChunk → value → Prop) T chunks :
  (∀ st c p, (transform OBJ T st c).2 = Some p → P c p) →
  ∀ st, Forall (λ x, P x.1 x.2) (feed OBJ T st chunks).2.
Proof.
  intros HP. induction chunks as [|c chunks IH]; intros st; simpl; [done|].
  pose proof (HP st c) as Hc.
  destruct (transform OBJ T st c) as [st' out]. specialize (IH st').
  destruct (feed OBJ T st' chunks) as [st'' outs]. simpl in *.
  destruct out as [p|]; [|done]. constructor; auto.
Qed.

(** Once the first-chunk flag is cleared, no delta carries a role. *)
Lemma feed_no_role T chunks : ∀ st,
  firstChunk st = false →
  Forall (λ x, has_key "role" (delta_of x.2) = false) (feed OBJ T st chunks).2.
Proof.
  induction chunks as [|c chunks IH]; intros st Hf; simpl; [done|].
  pose proof (transform_output T st c) as Hout.
  pose proof (transform_state T st c) as (_ & _ & _ & _ & Hfc).
  destruct (transform OBJ T st c) as [st' out]. simpl in *.
  rewrite Hf in Hfc, Hout. simpl in *.
  specialize (IH st' Hfc).
  destruct (feed OBJ T st' chunks) as [st'' outs]. simpl in *.
  destruct out as [p|]; [|done]. constructor; [|done].
  by destruct (Hout p eq_refl) as (_ & _ & _ & ?).
Qed.

(** While the flag is set: the first payload of a role kind carries the
    role, nothing before or after it does. *)
Lemma feed_first_role T chunks : ∀ st before c p after,
  firstChunk st = true →
  (feed OBJ T st chunks).2 = before ++ (c, p) :: after →
  role_kind c = true →
  Forall (λ x, role_kind x.1 = false) before →
  get (delta_of p) "role" = VStr "assistant"
  ∧ (is_tool_code c = true →
     has_key "content" (delta_of p) = true ∧ get (delta_of p) "content" = VNull)
  ∧ Forall (λ x, has_key "role" (delta_of x.2) = false) before
  ∧ Forall (λ x, has_key "role" (delta_of x.2) = false) after.
Proof.
  induction chunks as [|c0 chunks IH]; intros st before c p after Hf Houts Hc Hbefore.
  { simpl in Houts. by destruct before. }
  simpl in Houts.
  pose proof (transform_output T st c0) as Hout.
  pose proof (transform_state T st c0) as (_ & _ & _ & _ & Hfc).
  pose proof (transform_role_kind_emits T st c0) as Hemit.
  pose proof (feed_no_role T chunks) as Hno.
  destruct (transform OBJ T st c0) as [st' out]. simpl in *.
  specialize (IH st'). specialize (Hno st').
  destruct (feed OBJ T st' chunks) as [st'' outs]. simpl in *.
  rewrite Hf in Hfc, Hout. simpl in *.
  destruct out as [p0|].
  - destruct (Hout p0 eq_refl) as (Hshape & _ & _ & Hrole).
    destruct before as [|x before]; simpl in Houts.
    + injection Houts as <- <- <-. rewrite Hc, Hshape in *. simpl in *.
      destruct Hrole as [Hr Hcontent]. split_and!; auto.
    + assert (x = (c0, p0) ∧ outs = before ++ (c, p) :: after) as [-> Houts']
        by (by injection Houts).
      apply Forall_cons in Hbefore as [Hx Hb].
      simpl in Hx. rewrite Hx in *. simpl in *.
      destruct (IH before c p after Hfc Houts' Hc Hb) as (? & ? & ? & ?).
      split_and!; auto.
  - assert (role_kind c0 && shape_ok (type c0) (data c0) = false) as Hn.
    { destruct (role_kind c0) eqn:E1; [|done].
      destruct (shape_ok (type c0) (data c0)) eqn:E2; [|done].
      by destruct (Hemit eq_refl eq_refl). }
    rewrite Hn in Hfc. simpl in Hfc. eauto.
Qed.

End WithObjectName.

End StreamFacts.

Module StreamClaims.
Import Js Stream StreamSpec StreamFacts.

Lemma stream_payloads_unfold OBJ h model outputMode chunks :
  stream_payloads OBJ h model outputMode chunks
  = map snd (stream_trace OBJ h model outputMode chunks)
    ++ [flush_payload OBJ (createOpenAIStreamTransformer h model outputMode).1
          (feed OBJ (createOpenAIStreamTransformer h model outputMode).1
                (createOpenAIStreamTransformer h model outputMode).2 chunks).1].
Proof.
  unfold stream_payloads, stream_trace. simpl.
  by destruct (feed _ _ _ chunks).
Qed.

Lemma finish_reason_flush OBJ T st :
  finish_reason_of (flush_payload OBJ T st)
  = VStr (if truthy (toolCallId st) then "tool_calls" else "stop").
Proof.
  unfold flush_payload.
  by destruct (truthy (toolCallId st)), (truthy (usageData st)), (isR1 T).
Qed.

Lemma existsb_assigns_tool_code chunks :
  existsb is_tool_code chunks = false → existsb assigns_tool_call chunks = false.
Proof.
  induction chunks as [|c chunks IH]; simpl; [done|].
  unfold assigns_tool_call at 1.
  destruct (is_tool_code c); simpl; [done|auto].
Qed.

(** C6, as the code has it.  The terminal frame of a stream has
    finish_reason "tool_calls" when the chunk sequence holds a tool_code
    chunk that carries a function call (data that is an object with a
    [name] and an [args] key: the chunks for which a tool-call id is
    assigned), and "stop" otherwise; in particular it is "stop" when the
    sequence holds no tool_code chunk at all. *)
Theorem C6_finish_reason (OBJ : string) (h : Host) (model : string)
        (outputMode : option string) (chunks : list StreamChunk) :
  ∃ terminal,
    last (stream_payloads OBJ h model outputMode chunks) = Some terminal
    ∧ (existsb assigns_tool_call chunks = true →
       finish_reason_of terminal = VStr "tool_calls")
    ∧ (existsb assigns_tool_call chunks = false →
       finish_reason_of terminal = VStr "stop")
    ∧ (existsb is_tool_code chunks = false →
       finish_reason_of terminal = VStr "stop").
Proof.
  rewrite stream_payloads_unfold. eexists. split; [apply last_snoc|].
  rewrite finish_reason_flush, feed_toolCallId. simpl.
  split_and!.
  - by intros ->.
  - by intros ->.
  - intros H. by rewrite (existsb_assigns_tool_code _ H).
Qed.

(** A stream with a tool call between two texts, and a stream of text
    only. *)
Lemma C6_finish_reason_witness :
  let h := {| randomUUID := λ n, "uuid-" +:+ pretty n; now := 1700000000123 |} in
  let text := {| type := "text"; data := VStr "Hi" |} in
  let call := {| type := "tool_code";
                 data := VObj [("name", VStr "lookup"); ("args", VObj [])] |} in
  (∃ terminal,
      last (stream_payloads "chat.completion.chunk" h "gemini-2.5-pro" None
                            [text; call; text]) = Some terminal
      ∧ finish_reason_of terminal = VStr "tool_calls")
  ∧ (∃ terminal,
        last (stream_payloads "chat.completion.chunk" h "gemini-2.5-pro" None
                              [text; text]) = Some terminal
        ∧ finish_reason_of terminal = VStr "stop").
Proof.
  intros h text call. split.
  - destruct (C6_finish_reason "chat.completion.chunk" h "gemini-2.5-pro" None
                               [text; call; text]) as (t & Hl & Hcall & _).
    exists t. split; [exact Hl|]. apply Hcall. reflexivity.
  - destruct (C6_finish_reason "chat.completion.chunk" h "gemini-2.5-pro" None
                               [text; text]) as (t & Hl & _ & _ & Hnone).
    exists t. split; [exact Hl|]. apply Hnone. reflexivity.
Defined.

(** C6 as stated fails: a stream whose only tool_code chunk carries no
    function call (its data has a [name] but no [args]) does contain a
    tool_code chunk, yet no tool-call id is assigned and the terminal
    frame has finish_reason "stop". *)
Lemma C6_tool_code_without_call_counterexample :
  let h := {| randomUUID := λ n, "uuid-" +:+ pretty n; now := 1700000000123 |} in
  let chunks := [ {| type := "tool_code"; data := VObj [("name", VStr "lookup")] |} ] in
  existsb is_tool_code chunks = true
  ∧ finish_reason_of <$>
      last (stream_payloads "chat.completion.chunk" h "gemini-2.5-pro" None chunks)
    ≠ Some (VStr "tool_calls")
  ∧ finish_reason_of <$>
      last (stream_payloads "chat.completion.chunk" h "gemini-2.5-pro" None chunks)
    = Some (VStr "stop").
Proof. split_and!; [reflexivity|vm_compute; discriminate|vm_compute; reflexivity]. Qed.

Lemma isR1_created h model outputMode :
  isR1 (createOpenAIStreamTransformer h model outputMode).1
  = String.eqb (normalize_mode outputMode) "r1".
Proof. done. Qed.

(** C7. In r1 mode no payload of the stream has a reasoning_finished
    field in its delta, and the terminal payload carries
    completion_tokens_details with reasoning_tokens 0; in every other mode
    no payload carries completion_tokens_details. *)
Theorem C7_r1_fields (OBJ : string) (h : Host) (model : string)
        (outputMode : option string) (chunks : list StreamChunk) :
  (normalize_mode outputMode = "r1" →
   Forall (λ p, has_key "reasoning_finished" (delta_of p) = false)
          (stream_payloads OBJ h model outputMode chunks)
   ∧ ∃ terminal,
       last (stream_payloads OBJ h model outputMode chunks) = Some terminal
       ∧ get terminal "completion_tokens_details"
         = VObj [("reasoning_tokens", VNum 0)])
  ∧ (normalize_mode outputMode ≠ "r1" →
     Forall (λ p, has_key "completion_tokens_details" p = false)
            (stream_payloads OBJ h model outputMode chunks)).
Proof.
  rewrite stream_payloads_unfold. unfold stream_trace.
  pose proof (isR1_created h model outputMode) as HR.
  destruct (createOpenAIStreamTransformer h model outputMode) as [T st0].
  simpl in *. split.
  - intros Hmode. rewrite Hmode in HR. simpl in HR. split.
    + apply Forall_app. split.
      * apply Forall_fmap.
        apply (feed_outputs OBJ
                 (λ _ p, has_key "reasoning_finished" (delta_of p) = false)).
        intros st c p Hp.
        destruct (transform_output OBJ T st c p Hp) as (_ & _ & Hrf & _). auto.
      * repeat constructor. unfold flush_payload.
        by destruct (truthy (toolCallId (feed OBJ T st0 chunks).1)),
             (truthy (usageData (feed OBJ T st0 chunks).1)), (isR1 T).
    + eexists. split; [apply last_snoc|].
      unfold flush_payload. rewrite HR.
      by destruct (truthy (toolCallId (feed OBJ T st0 chunks).1)),
           (truthy (usageData (feed OBJ T st0 chunks).1)).
  - intros Hmode. apply String.eqb_neq in Hmode. rewrite Hmode in HR.
    apply Forall_app. split.
    + apply Forall_fmap.
      apply (feed_outputs OBJ
               (λ _ p, has_key "completion_tokens_details" p = false)).
      intros st c p Hp.
      by destruct (transform_output OBJ T st c p Hp) as (_ & ? & _).
    + repeat constructor. unfold flush_payload. rewrite HR.
      by destruct (truthy (toolCallId (feed OBJ T st0 chunks).1)),
           (truthy (usageData (feed OBJ T st0 chunks).1)).
Qed.

(** The same chunks in mode "R1" and in the default mode. *)
Lemma C7_r1_fields_witness :
  let h := {| randomUUID := λ n, "uuid-" +:+ pretty n; now := 1700000000123 |} in
  let chunks := [ {| type := "real_thinking"; data := VStr "hm" |};
                  {| type := "reasoning_end"; data := VObj [("finished", VBool true)] |};
                  {| type := "text"; data := VStr "Hi" |} ] in
  Forall (λ p, has_key "reasoning_finished" (delta_of p) = false)
         (stream_payloads "chat.completion.chunk" h "gemini-2.5-pro" (Some "R1") chunks)
  ∧ Forall (λ p, has_key "completion_tokens_details" p = false)
           (stream_payloads "chat.completion.chunk" h "gemini-2.5-pro" None chunks).
Proof.
  intros h chunks. split.
  - apply (proj1 (C7_r1_fields "chat.completion.chunk" h "gemini-2.5-pro"
                               (Some "R1") chunks)).
    reflexivity.
  - apply (proj2 (C7_r1_fields "chat.completion.chunk" h "gemini-2.5-pro"
                               None chunks)).
    vm_compute. discriminate.
Defined.

(** C8. Among the payloads enqueued for the chunks of a stream, the first
    one that arises from a text, thinking_content or tool_code chunk has
    role "assistant" in its delta, with content null besides when that
    chunk is a tool_code chunk; no delta enqueued before it or after it
    has a role field. *)
Theorem C8_first_role (OBJ : string) (h : Host) (model : string)
        (outputMode : option string) (chunks : list StreamChunk)
        (before after : list (StreamChunk * value)) (c : StreamChunk) (p : value) :
  stream_trace OBJ h model outputMode chunks = before ++ (c, p) :: after →
  role_kind c = true →
  Forall (λ x, role_kind x.1 = false) before →
  get (delta_of p) "role" = VStr "assistant"
  ∧ (is_tool_code c = true →
     has_key "content" (delta_of p) = true ∧ get (delta_of p) "content" = VNull)
  ∧ Forall (λ x, has_key "role" (delta_of x.2) = false) before
  ∧ Forall (λ x, has_key "role" (delta_of x.2) = false) after.
Proof.
  unfold stream_trace. simpl. intros Htrace Hc Hbefore.
  refine (feed_first_role OBJ _ chunks _ before c p after _ Htrace Hc Hbefore).
  reflexivity.
Qed.

(** Reasoning, then a tool call, then text: the tool call's delta has the
    role and a null content, the others have no role. *)
Lemma C8_first_role_witness :
  let h := {| randomUUID := λ n, "uuid-" +:+ pretty n; now := 1700000000123 |} in
  let think := {| type := "real_thinking"; data := VStr "hm" |} in
  let call := {| type := "tool_code";
                 data := VObj [("name", VStr "lookup"); ("args", VObj [])] |} in
  let text := {| type := "text"; data := VStr "Hi" |} in
  ∃ p0 p1 p2,
    stream_trace "chat.completion.chunk" h "gemini-2.5-pro" None [think; call; text]
    = [(think, p0); (call, p1); (text, p2)]
    ∧ get (delta_of p1) "role" = VStr "assistant"
    ∧ get (delta_of p1) "content" = VNull
    ∧ has_key "role" (delta_of p0) = false
    ∧ has_key "role" (delta_of p2) = false.
Proof.
  intros h think call text.
  eexists _, _, _. split; [vm_compute; reflexivity|].
  match goal with
  | |- _ ∧ _ ∧ has_key "role" (delta_of ?p0) = false
       ∧ has_key "role" (delta_of ?p2) = false =>
      destruct (C8_first_role "chat.completion.chunk" h "gemini-2.5-pro" None
                              [think; call; text] [(think, p0)] [(text, p2)] call _
                              eq_refl eq_refl ltac:(repeat constructor))
      as (Hrole & Hcontent & Hbefore & Hafter)
  end.
  split; [exact Hrole|]. split; [by apply Hcontent|].
  apply Forall_cons in Hbefore as [Hb _]. apply Forall_cons in Hafter as [Ha _].
  split; [exact Hb|exact Ha].
Defined.

(** C9, as the code has it.  Two transformers created by different hosts
    (different UUIDs, different clocks) for the same model and output
    mode, fed the same chunks, enqueue payloads that are equal once the
    stream id, the creation time and the tool-call ids are blanked; the
    frames serialised from them are then the same bytes, and both streams
    have the same number of frames. *)
Theorem C9_same_output_up_to_ids (OBJ : string) (h1 h2 : Host) (model : string)
        (outputMode : option string) (chunks : list StreamChunk) :
  map mask_all_ids (stream_payloads OBJ h1 model outputMode chunks)
  = map mask_all_ids (stream_payloads OBJ h2 model outputMode chunks)
  ∧ map (λ p, sse_frame (mask_all_ids p))
        (stream_payloads OBJ h1 model outputMode chunks)
    = map (λ p, sse_frame (mask_all_ids p))
          (stream_payloads OBJ h2 model outputMode chunks)
  ∧ length (stream_output OBJ h1 model outputMode chunks)
    = length (stream_output OBJ h2 model outputMode chunks).
Proof.
  assert (map mask_all_ids (stream_payloads OBJ h1 model outputMode chunks)
          = map mask_all_ids (stream_payloads OBJ h2 model outputMode chunks)) as Hmask.
  { rewrite !stream_payloads_unfold. unfold stream_trace. simpl.
    rewrite !map_app, !map_map. simpl. f_equal.
    - by apply feed_masked.
    - f_equal. apply flush_masked; try done.
      + by apply feed_usageData.
      + by rewrite !feed_toolCallId. }
  split_and!.
  - exact Hmask.
  - rewrite <- !(map_map mask_all_ids sse_frame). by rewrite Hmask.
  - unfold stream_output. rewrite !length_app, !length_map.
    apply (f_equal length) in Hmask. rewrite !length_map in Hmask.
    by rewrite Hmask.
Qed.

(** C9 as stated fails: two hosts that even give the same stream id and the
    same clock, but different later UUIDs, enqueue for one tool_code chunk
    frames that differ after the stream id and the creation time are
    blanked: the tool-call id is drawn afresh by each transformer. *)
Lemma C9_tool_call_id_counterexample :
  let h1 := {| randomUUID := λ n, match n with O => "s" | _ => "a" end; now := 0 |} in
  let h2 := {| randomUUID := λ n, match n with O => "s" | _ => "b" end; now := 0 |} in
  let call := {| type := "tool_code";
                 data := VObj [("name", VStr "lookup"); ("args", VObj [])] |} in
  map (λ p, sse_frame (mask_stream_fields p))
      (stream_payloads "chat.completion.chunk" h1 "gemini-2.5-pro" None [call])
  ≠ map (λ p, sse_frame (mask_stream_fields p))
        (stream_payloads "chat.completion.chunk" h2 "gemini-2.5-pro" None [call]).
Proof. vm_compute. intros H. discriminate H. Qed.

(** C10. A chunk of a recognised kind whose payload fails the test of its
    kind enqueues nothing and leaves the state of the stream (first-chunk
    flag, tool-call id and name, usage, UUIDs drawn) as it was. *)
Theorem C10_malformed_chunk_is_ignored (OBJ : string) (T : Transformer)
        (st : State) (chunk : StreamChunk) :
  type chunk ∈ recognized_kinds →
  shape_ok (type chunk) (data chunk) = false →
  transform OBJ T st chunk = (st, None).
Proof.
  destruct chunk as [kind d]. simpl. unfold recognized_kinds.
  rewrite !elem_of_cons, elem_of_nil.
  intros Hkind Hshape.
  destruct Hkind as [->|[->|[->|[->|[->|[->|[->|[->|[->|[]]]]]]]]]];
    unfold shape_ok in Hshape; simpl in Hshape;
    unfold transform; simpl; rewrite Hshape, ?andb_false_r; done.
Qed.

(** A text chunk whose data is a number, a tool_code chunk without args
    and a usage chunk without outputTokens, in the state of a stream that
    has already produced a tool call. *)
Lemma C10_malformed_chunk_is_ignored_witness :
  let T := {| chatID := "chatcmpl-1"; creationTime := 1700000000;
              model := "gemini-2.5-pro"; isR1 := false;
              host := {| randomUUID := λ n, "uuid-" +:+ pretty n; now := 0 |} |} in
  let st := {| firstChunk := true; toolCallId := VStr "call_7";
               toolCallName := VStr "lookup";
               usageData := VObj [("inputTokens", VNum 1); ("outputTokens", VNum 2)];
               drawn := 2 |} in
  transform "chat.completion.chunk" T st {| type := "text"; data := VNum 3 |}
  = (st, None)
  ∧ transform "chat.completion.chunk" T st
              {| type := "tool_code"; data := VObj [("name", VStr "f")] |}
    = (st, None)
  ∧ transform "chat.completion.chunk" T st
              {| type := "usage"; data := VObj [("inputTokens", VNum 9)] |}
    = (st, None).
Proof.
  intros T st. split_and!.
  - apply (C10_malformed_chunk_is_ignored "chat.completion.chunk" T st
             {| type := "text"; data := VNum 3 |});
      [vm_compute; repeat constructor|reflexivity].
  - apply (C10_malformed_chunk_is_ignored "chat.completion.chunk" T st
             {| type := "tool_code"; data := VObj [("name", VStr "f")] |});
      [vm_compute; repeat constructor|reflexivity].
  - apply (C10_malformed_chunk_is_ignored "chat.completion.chunk" T st
             {| type := "usage"; data := VObj [("inputTokens", VNum 9)] |});
      [vm_compute; repeat constructor|reflexivity].
Defined.

(** The end-to-end scenario of the specification: a usage chunk, then the
    text "Hi", in mode "openai". *)
Example usage_then_text :
  let h := {| randomUUID := λ n, "uuid-" +:+ pretty n; now := 1700000000123 |} in
  stream_payloads "chat.completion.chunk" h "gemini-2.5-pro" (Some "openai")
    [ {| type := "usage";
         data := VObj [("inputTokens", VNum 10); ("outputTokens", VNum 5)] |};
      {| type := "text"; data := VStr "Hi" |} ]
  = [ VObj [("id", VStr "chatcmpl-uuid-0");
            ("object", VStr "chat.completion.chunk");
            ("created", VNum 1700000000);
            ("model", VStr "gemini-2.5-pro");
            ("choices",
              VArr [VObj [("index", VNum 0);
                          ("delta", VObj [("content", VStr "Hi");
                                          ("role", VStr "assistant")]);
                          ("finish_reason", VNull);
                          ("logprobs", VNull);
                          ("matched_stop", VNull)]]);
            ("usage", VNull)];
      VObj [("id", VStr "chatcmpl-uuid-0");
            ("object", VStr "chat.completion.chunk");
            ("created", VNum 1700000000);
            ("model", VStr "gemini-2.5-pro");
            ("choices",
              VArr [VObj [("index", VNum 0);
                          ("delta", VObj []);
                          ("finish_reason", VStr "stop")]]);
            ("usage", VObj [("prompt_tokens", VNum 10);
                            ("completion_tokens", VNum 5);
                            ("total_tokens", VNum 15)])] ].
Proof. reflexivity. Qed.

End StreamClaims.

(** * Further properties *)

(** ** Schema converter: what the converted object holds *)

Module SchemaExtras.
Import Js Schema JsFacts SchemaFacts TypeKey Encodings EncodingFacts.

(** The converter on an object or array, step by step. *)
Lemma convert_steps input :
  is_object_like input = true →
  ∃ i1 i2,
    convert_properties (λ v, Some (convertJSONSchemaToGeminiSchema v)) input
      (mark_nullable input (map_type (stripUnsupportedKeys input))) = Some i1
    ∧ convert_items (λ v, Some (convertJSONSchemaToGeminiSchema v)) input i1 = Some i2
    ∧ convertJSONSchemaToGeminiSchema input = VObj (copy_plain_keys input i2).
Proof.
  intros Hobj. rewrite convert_unfold. unfold convert_with, convert_body.
  replace (negb (truthy input) || negb (typeof_object input)) with false
    by (by destruct input).
  set (f := convertJSONSchemaToGeminiSchema).
  assert (∀ v, (depth v < depth input)%nat → (λ v, Some (f v)) v = Some (f v)) as Hf by done.
  destruct (convert_properties_answers _ f input
              (mark_nullable input (map_type (stripUnsupportedKeys input))) Hobj Hf)
    as [_ [i1 Hi1]].
  pose proof (convert_items_answers _ f input i1 Hobj Hf) as Hi2.
  exists i1, (default i1 (convert_items (λ v, Some (f v)) input i1)).
  rewrite Hi1. simpl. rewrite Hi2. done.
Qed.

Lemma convert_not_object input :
  is_object_like input = false → convertJSONSchemaToGeminiSchema input = VUndefined.
Proof.
  intros H. rewrite convert_unfold. unfold convert_with, convert_body.
  destruct input; try done; simpl; by rewrite orb_true_r.
Qed.

Lemma map_type_other k initial :
  k ≠ "type" →
  obj_get k (map_type initial) = obj_get k initial
  ∧ obj_has k (map_type initial) = obj_has k initial.
Proof.
  intros Hk. unfold map_type.
  assert (obj_get k (obj_delete "type" initial) = obj_get k initial
          ∧ obj_has k (obj_delete "type" initial) = obj_has k initial) as Hdel.
  { unfold obj_delete. split.
    - apply obj_get_filter. intros v. simpl. by apply String.eqb_neq.
    - apply obj_has_filter. intros v. simpl. by apply String.eqb_neq. }
  destruct (obj_get "type" initial); try done;
    match goal with
    | |- context [toGeminiType ?t] => destruct (toGeminiType t)
    end; rewrite ?obj_get_set_ne, ?obj_has_set_ne by done; done.
Qed.

Lemma strip_keeps k src :
  in_allowList k = true →
  obj_get k (stripUnsupportedKeys (VObj src)) = obj_get k src.
Proof.
  intros Hk. unfold stripUnsupportedKeys. simpl.
  apply obj_get_filter. intros v. simpl. rewrite Hk.
  unfold in_allowList, allowList in Hk. simpl in Hk.
  repeat match type of Hk with
         | (String.eqb ?a ?b || _) = true =>
             destruct (String.eqb_spec a b) as [->|?]; [done|simpl in Hk]
         end.
  done.
Qed.

Lemma truthy_convert v :
  truthy (convertJSONSchemaToGeminiSchema v) = is_object_like v.
Proof.
  destruct (is_object_like v) eqn:H.
  - by apply convert_object_truthy.
  - by rewrite convert_not_object.
Qed.

(** Keys of an object under the operations of the converter. *)

Lemma allowed_obj_set k v fs :
  Forall (λ e, in_allowList e.1 = true) fs → in_allowList k = true →
  Forall (λ e, in_allowList e.1 = true) (obj_set k v fs).
Proof.
  intros Hfs Hk. induction Hfs as [|[k0 v0] fs Hx Hfs IH]; simpl.
  - by constructor.
  - destruct (String.eqb k0 k); constructor; auto.
Qed.

Lemma allowed_obj_delete k fs :
  Forall (λ e, in_allowList e.1 = true) fs →
  Forall (λ e, in_allowList e.1 = true) (obj_delete k fs).
Proof.
  intros Hfs. apply Forall_forall. intros e He.
  apply list_elem_of_filter in He as [_ He].
  by apply (proj1 (Forall_forall _ _) Hfs).
Qed.

Lemma allowed_strip input :
  Forall (λ e, in_allowList e.1 = true) (stripUnsupportedKeys input).
Proof.
  unfold stripUnsupportedKeys. apply Forall_forall. intros e He.
  apply list_elem_of_filter in He as [He _].
  destruct (in_allowList e.1); [done|]. by rewrite andb_false_r in He.
Qed.

Lemma allowed_initial input :
  Forall (λ e, in_allowList e.1 = true)
         (mark_nullable input (map_type (stripUnsupportedKeys input))).
Proof.
  pose proof (allowed_strip input) as Hs.
  assert (Forall (λ e, in_allowList e.1 = true)
                 (map_type (stripUnsupportedKeys input))) as Hm.
  { unfold map_type. repeat case_match; try done;
      (by apply allowed_obj_set) || (by apply allowed_obj_delete). }
  unfold mark_nullable. repeat case_match; try done; by apply allowed_obj_set.
Qed.

Lemma convert_properties_shape self input initial initial' :
  convert_properties self input initial = Some initial' →
  initial' = initial
  ∨ ∃ cp, initial' = obj_set "properties" (VObj cp) initial.
Proof.
  unfold convert_properties.
  assert (∀ p, match normalizeProperties p with
               | Some props =>
                   convertedProps ← convert_entries self props;
                   Some (match convertedProps with
                         | [] => initial
                         | _ => obj_set "properties" (VObj convertedProps) initial
                         end)
               | None => Some initial
               end = Some initial' →
               initial' = initial
               ∨ ∃ cp, initial' = obj_set "properties" (VObj cp) initial) as Hgen.
  { intros p. destruct (normalizeProperties p) as [props|]; [|intros [= <-]; by left].
    destruct (convert_entries self props) as [[|e cp]|]; simpl; intros [= <-]; eauto. }
  destruct (get input "properties") eqn:Hp; try apply Hgen. intros [= <-]. by left.
Qed.

Lemma convert_items_shape self input initial initial' :
  convert_items self input initial = Some initial' →
  initial' = initial ∨ ∃ conv, initial' = obj_set "items" conv initial.
Proof.
  unfold convert_items, set_if_truthy.
  destruct (get input "items") as [| | | | | |l|fs|]; simpl.
  1: intros [= <-]; by left.
  all: match goal with |- context [mbind _ (?g ?x)] => destruct (g x); simpl; [|done] end.
  all: case_match; intros [= <-]; eauto.
Qed.

Lemma allowed_converted input out :
  convertJSONSchemaToGeminiSchema input = VObj out →
  Forall (λ e, in_allowList e.1 = true) out.
Proof.
  intros Hout.
  destruct (is_object_like input) eqn:Hobj;
    [|by rewrite convert_not_object in Hout].
  destruct (convert_steps input Hobj) as (i1 & i2 & H1 & H2 & Hc).
  rewrite Hc in Hout. injection Hout as <-.
  pose proof (allowed_initial input) as H0.
  assert (Forall (λ e, in_allowList e.1 = true) i1) as HK1.
  { destruct (convert_properties_shape _ _ _ _ H1) as [->|[cp ->]]; [done|].
    by apply allowed_obj_set. }
  assert (Forall (λ e, in_allowList e.1 = true) i2) as HK2.
  { destruct (convert_items_shape _ _ _ _ H2) as [->|[conv ->]]; [done|].
    by apply allowed_obj_set. }
  unfold copy_plain_keys.
  repeat case_match; repeat apply allowed_obj_set; done.
Qed.

Lemma in_allowList_elem k : in_allowList k = true → k ∈ allowList.
Proof.
  unfold in_allowList. intros He.
  apply existsb_exists in He as (x & Hx & Heq).
  apply String.eqb_eq in Heq as ->. by apply list_elem_of_In.
Qed.

(** X1. Every own key of the object the converter returns is one of
    type, description, properties, items, required, enum, format,
    nullable, and none starts with [$].  This is about the keys of the
    returned object itself, not about what the values under them hold. *)
Theorem converted_keys_allowed input out :
  convertJSONSchemaToGeminiSchema input = VObj out →
  Forall (λ e, e.1 ∈ allowList ∧ String.prefix "$" e.1 = false) out.
Proof.
  intros Hout. eapply Forall_impl; [exact (allowed_converted input out Hout)|].
  intros e He. split; [by apply in_allowList_elem|].
  apply in_allowList_elem in He. unfold allowList in He.
  rewrite !elem_of_cons, elem_of_nil in He.
  destruct He as [->|[->|[->|[->|[->|[->|[->|[->|[]]]]]]]]]; done.
Qed.

(** A schema with a combinator, a constraint and a [$]-key. *)
Lemma converted_keys_allowed_witness :
  ∃ out,
    convertJSONSchemaToGeminiSchema
      (VObj [("$schema", VStr "x"); ("type", VStr "integer");
             ("minimum", VNum 0); ("oneOf", VArr [])]) = VObj out
    ∧ Forall (λ e, e.1 ∈ allowList ∧ String.prefix "$" e.1 = false) out.
Proof.
  eexists. split; [reflexivity|].
  apply (converted_keys_allowed
           (VObj [("$schema", VStr "x"); ("type", VStr "integer");
                  ("minimum", VNum 0); ("oneOf", VArr [])])).
  reflexivity.
Defined.

(** The keys that the steps before [copy_plain_keys] leave alone. *)
Lemma untouched_key k src i1 i2 :
  in_allowList k = true →
  k ∉ ["type"; "nullable"; "properties"; "items"] →
  convert_properties (λ v, Some (convertJSONSchemaToGeminiSchema v)) (VObj src)
    (mark_nullable (VObj src) (map_type (stripUnsupportedKeys (VObj src)))) = Some i1 →
  convert_items (λ v, Some (convertJSONSchemaToGeminiSchema v)) (VObj src) i1 = Some i2 →
  obj_get k i2 = obj_get k src.
Proof.
  intros Hk Hne H1 H2.
  assert (k ≠ "type" ∧ k ≠ "nullable" ∧ k ≠ "properties" ∧ k ≠ "items")
    as (?&?&?&?) by set_solver.
  rewrite (proj1 (convert_items_other k _ _ _ _ ltac:(done) H2)).
  rewrite (proj1 (convert_properties_other k _ _ _ _ ltac:(done) H1)).
  rewrite (proj1 (mark_nullable_other k _ _ ltac:(done))).
  rewrite (proj1 (map_type_other k _ ltac:(done))).
  by apply strip_keeps.
Qed.

(** One conditional assignment of [copy_plain_keys], seen from a key. *)
Lemma get_array_step k k' (g : list value → value) v i :
  obj_get k (match v with VArr l => obj_set k' (g l) i | _ => i end)
  = if String.eqb k' k
    then match v with VArr l => g l | _ => obj_get k i end
    else obj_get k i.
Proof.
  destruct (String.eqb_spec k' k) as [->|Hne].
  - destruct v; try done. by rewrite obj_get_set_eq.
  - destruct v; try done. by rewrite obj_get_set_ne.
Qed.

Lemma get_string_step k k' v i :
  obj_get k (match v with VStr d => obj_set k' (VStr d) i | _ => i end)
  = if String.eqb k' k
    then match v with VStr d => VStr d | _ => obj_get k i end
    else obj_get k i.
Proof.
  destruct (String.eqb_spec k' k) as [->|Hne].
  - destruct v; try done. by rewrite obj_get_set_eq.
  - destruct v; try done. by rewrite obj_get_set_ne.
Qed.

Lemma copy_plain_keys_get k input initial :
  obj_get k (copy_plain_keys input initial)
  = if String.eqb "format" k then
      match get input "format" with VStr d => VStr d | _ => obj_get k initial end
    else if String.eqb "description" k then
      match get input "description" with VStr d => VStr d | _ => obj_get k initial end
    else if String.eqb "enum" k then
      match get input "enum" with VArr l => VArr l | _ => obj_get k initial end
    else if String.eqb "required" k then
      match get input "required" with
      | VArr l => VArr (filter (λ r, typeof_string r = true) l)
      | _ => obj_get k initial
      end
    else obj_get k initial.
Proof.
  unfold copy_plain_keys. cbv zeta.
  rewrite get_string_step.
  destruct (String.eqb_spec "format" k) as [<-|?].
  { rewrite get_string_step, (get_array_step _ _ (λ l, VArr l)),
      (get_array_step _ _ (λ l, VArr (filter (λ r, typeof_string r = true) l))).
    done. }
  rewrite get_string_step.
  destruct (String.eqb_spec "description" k) as [<-|?].
  { rewrite (get_array_step _ _ (λ l, VArr l)),
      (get_array_step _ _ (λ l, VArr (filter (λ r, typeof_string r = true) l))).
    done. }
  rewrite (get_array_step _ _ (λ l, VArr l)).
  destruct (String.eqb_spec "enum" k) as [<-|?].
  { rewrite (get_array_step _ _ (λ l, VArr (filter (λ r, typeof_string r = true) l))).
    done. }
  by rewrite (get_array_step _ _ (λ l, VArr (filter (λ r, typeof_string r = true) l))).
Qed.

Lemma copy_plain_keys_required input initial :
  obj_get "required" (copy_plain_keys input initial)
  = match get input "required" with
    | VArr l => VArr (filter (λ r, typeof_string r = true) l)
    | _ => obj_get "required" initial
    end.
Proof. by rewrite copy_plain_keys_get. Qed.

(** X2. In a converted schema, [required] is the input's array with the
    entries that are not strings removed, in order; a [required] that is
    not an array is copied as it is. *)
Theorem required_keeps_strings src :
  get (convertJSONSchemaToGeminiSchema (VObj src)) "required"
  = match obj_get "required" src with
    | VArr l => VArr (filter (λ r, typeof_string r = true) l)
    | v => v
    end.
Proof.
  destruct (convert_steps (VObj src) eq_refl) as (i1 & i2 & H1 & H2 & ->).
  simpl. rewrite copy_plain_keys_required. simpl.
  rewrite (untouched_key "required" src i1 i2) by (done || set_solver).
  by destruct (obj_get "required" src).
Qed.

(** X3. [enum], [description] and [format] of a converted schema are the
    input's, whatever their type. *)
Theorem plain_keys_copied src :
  get (convertJSONSchemaToGeminiSchema (VObj src)) "enum" = obj_get "enum" src
  ∧ get (convertJSONSchemaToGeminiSchema (VObj src)) "description"
    = obj_get "description" src
  ∧ get (convertJSONSchemaToGeminiSchema (VObj src)) "format" = obj_get "format" src.
Proof.
  destruct (convert_steps (VObj src) eq_refl) as (i1 & i2 & H1 & H2 & ->).
  pose proof (untouched_key "enum" src i1 i2 eq_refl ltac:(set_solver) H1 H2) as He.
  pose proof (untouched_key "description" src i1 i2 eq_refl ltac:(set_solver) H1 H2) as Hd.
  pose proof (untouched_key "format" src i1 i2 eq_refl ltac:(set_solver) H1 H2) as Hf.
  simpl. rewrite !copy_plain_keys_get. simpl. rewrite He, Hd, Hf.
  split_and!.
  - by destruct (obj_get "enum" src).
  - by destruct (obj_get "description" src).
  - by destruct (obj_get "format" src).
Qed.

(** X4. [nullable] of a converted schema is true when the input's type is
    an array that contains "null", and the input's own [nullable]
    otherwise. *)
Theorem nullable_from_type src :
  get (convertJSONSchemaToGeminiSchema (VObj src)) "nullable"
  = match obj_get "type" src with
    | VArr l => if existsb (is_str "null") l then VBool true
                else obj_get "nullable" src
    | _ => obj_get "nullable" src
    end.
Proof.
  destruct (convert_steps (VObj src) eq_refl) as (i1 & i2 & H1 & H2 & ->).
  simpl.
  rewrite (proj1 (copy_plain_keys_other "nullable" _ _ ltac:(set_solver))).
  rewrite (proj1 (convert_items_other "nullable" _ _ _ _ ltac:(done) H2)).
  rewrite (proj1 (convert_properties_other "nullable" _ _ _ _ ltac:(done) H1)).
  assert (obj_get "nullable" (map_type (stripUnsupportedKeys (VObj src)))
          = obj_get "nullable" src) as Hraw.
  { rewrite (proj1 (map_type_other "nullable" _ ltac:(done))). by apply strip_keeps. }
  unfold mark_nullable. simpl.
  destruct (obj_get "type" src) as [| | | | | |l|fs|]; try done.
  destruct (existsb (is_str "null") l); [|done]. by rewrite obj_get_set_eq.
Qed.

(** X5. [items] of a converted schema is the conversion of the input's
    [items], or of its first element when it is an array; when that is
    neither an object nor an array, the input's [items] is copied as it
    is. *)
Theorem items_first_schema src :
  get (convertJSONSchemaToGeminiSchema (VObj src)) "items"
  = let first := match obj_get "items" src with
                 | VArr l => default VUndefined (head l)
                 | v => v
                 end in
    if is_object_like first then convertJSONSchemaToGeminiSchema first
    else obj_get "items" src.
Proof.
  destruct (convert_steps (VObj src) eq_refl) as (i1 & i2 & H1 & H2 & ->).
  simpl.
  rewrite (proj1 (copy_plain_keys_other "items" _ _ ltac:(set_solver))).
  assert (obj_get "items" i1 = obj_get "items" src) as Hraw.
  { rewrite (proj1 (convert_properties_other "items" _ _ _ _ ltac:(done) H1)).
    rewrite (proj1 (mark_nullable_other "items" _ _ ltac:(done))).
    rewrite (proj1 (map_type_other "items" _ ltac:(done))). by apply strip_keeps. }
  revert H2. unfold convert_items, set_if_truthy. simpl.
  destruct (obj_get "items" src) as [| | | | | |l|fs|] eqn:Hi; simpl;
    rewrite ?truthy_convert; simpl.
  all: try (intros [= <-]; by rewrite Hraw).
  - destruct (is_object_like (default VUndefined (head l)));
      intros [= <-]; [by rewrite obj_get_set_eq|by rewrite Hraw].
  - intros [= <-]. by rewrite obj_get_set_eq.
Qed.

Lemma convert_entries_nodup acc ps :
  NoDup ((own acc).*1 ++ ps.*1) →
  Forall (λ e, plain_name e.1 = true) ps →
  converted_entries convertJSONSchemaToGeminiSchema acc ps
  = {| own := own acc
              ++ map (λ e, (e.1, convertJSONSchemaToGeminiSchema e.2))
                     (filter (λ e, is_object_like e.2 = true) ps);
       proto_accessor := proto_accessor acc |}.
Proof.
  unfold converted_entries.
  revert acc. induction ps as [|[k v] ps IH]; intros acc Hnd Hplain; simpl.
  - rewrite app_nil_r. by destruct acc.
  - apply Forall_cons in Hplain as [Hk Hplain]. simpl in Hk.
    unfold assign_if_truthy at 2. rewrite truthy_convert.
    destruct (is_object_like v) eqn:Hv.
    + rewrite filter_cons_True by done. simpl.
      rewrite assign_fresh_plain; [|done|].
      * rewrite IH; simpl; [by rewrite <- app_assoc| |done].
        rewrite fmap_app. simpl. by rewrite <- app_assoc.
      * apply NoDup_app in Hnd as (_ & Hdisj & _).
        intros Hin. apply (Hdisj k Hin). constructor.
    + rewrite filter_cons_False by (simpl; congruence).
      apply IH; [|done]. simpl in Hnd. apply NoDup_app in Hnd as (Ha & Hdisj & Hps).
      apply NoDup_app. split_and!; [done| |by inversion Hps].
      intros x Hx Hx'. apply (Hdisj x Hx). by constructor.
Qed.

(** X6. [properties] of a converted schema, for properties given in any of
    the accepted encodings, without repeated names and with plain names
    (no array index, no [__proto__]): the mapping from each property whose
    sub-schema is an object or array to its conversion, in order, the
    other properties being left out; when no property remains, the
    input's [properties] is copied as it is. *)
Theorem properties_converted src props :
  normalizeProperties (obj_get "properties" src) = Some props →
  NoDup props.*1 →
  Forall (λ e, plain_name e.1 = true) props →
  get (convertJSONSchemaToGeminiSchema (VObj src)) "properties"
  = match filter (λ e, is_object_like e.2 = true) props with
    | [] => obj_get "properties" src
    | kept => VObj (map (λ e, (e.1, convertJSONSchemaToGeminiSchema e.2)) kept)
    end.
Proof.
  intros Hn Hnd Hplain.
  destruct (convert_steps (VObj src) eq_refl) as (i1 & i2 & H1 & H2 & ->).
  simpl.
  rewrite (proj1 (copy_plain_keys_other "properties" _ _ ltac:(set_solver))).
  rewrite (proj1 (convert_items_other "properties" _ _ _ _ ltac:(done) H2)).
  rewrite (convert_properties_known _ _ _ props) in H1 by done.
  rewrite (convert_entries_nodup empty_literal props) in H1 by done. simpl in H1.
  injection H1 as <-.
  destruct (filter (λ e, is_object_like e.2 = true) props) as [|e kept]; simpl.
  - rewrite (proj1 (mark_nullable_other "properties" _ _ ltac:(done))).
    rewrite (proj1 (map_type_other "properties" _ ltac:(done))). by apply strip_keeps.
  - by rewrite obj_get_set_eq.
Qed.

(** Two properties as a pair list, one of them without a schema. *)
Lemma properties_converted_witness :
  get (convertJSONSchemaToGeminiSchema
         (VObj [("type", VStr "object");
                ("properties",
                  VArr [VArr [VStr "city"; VObj [("type", VStr "string")]];
                        VArr [VStr "zip"; VNull]])]))
      "properties"
  = VObj [("city", VObj [("type", VStr "STRING")])].
Proof.
  apply (properties_converted
           [("type", VStr "object");
            ("properties",
              VArr [VArr [VStr "city"; VObj [("type", VStr "string")]];
                    VArr [VStr "zip"; VNull]])]
           [("city", VObj [("type", VStr "string")]); ("zip", VNull)]).
  - reflexivity.
  - repeat constructor; set_solver.
  - repeat constructor.
Defined.

(** Names that are not plain: the properties "b" and "1" given in this
    order come out with the array index first, and the pair for
    [__proto__] sets the prototype of the mapping without adding a
    property to it. *)
Example properties_index_and_proto :
  get (convertJSONSchemaToGeminiSchema
         (VObj [("properties",
                  VArr [VArr [VStr "b"; VObj [("type", VStr "string")]];
                        VArr [VStr "__proto__"; VObj [("type", VStr "number")]];
                        VArr [VStr "1"; VObj [("type", VStr "boolean")]]])]))
      "properties"
  = VObj [("1", VObj [("type", VStr "BOOLEAN")]);
          ("b", VObj [("type", VStr "STRING")])].
Proof. reflexivity. Qed.

Lemma obj_get_app k fs gs :
  obj_get k (fs ++ gs) = if obj_has k fs then obj_get k fs else obj_get k gs.
Proof.
  induction fs as [|[k0 v0] fs IH]; simpl; [done|].
  by destruct (String.eqb k0 k).
Qed.

Lemma obj_has_reverse k fs : obj_has k (reverse fs) = obj_has k fs.
Proof.
  induction fs as [|[k0 v0] fs IH]; simpl; [done|].
  rewrite reverse_cons, obj_has_app, IH. simpl.
  destruct (String.eqb k0 k), (obj_has k fs); done.
Qed.

Lemma normalize_pairs_lookup k ps :
  k ≠ "__proto__" →
  ∀ acc,
    obj_get k (own (foldl normalize_item acc (map (λ e, VArr [VStr e.1; e.2]) ps)))
    = if obj_has k ps then obj_get k (reverse ps) else obj_get k (own acc).
Proof.
  intros Hk. induction ps as [|[k0 v0] ps IH]; intros acc; simpl; [done|].
  rewrite IH, reverse_cons, obj_get_app, obj_has_reverse. simpl.
  destruct (obj_has k ps); [by destruct (String.eqb k0 k)|].
  destruct (String.eqb_spec k0 k) as [->|Hne].
  - rewrite assign_plain by done. simpl. by rewrite obj_get_own_set_eq.
  - by rewrite obj_get_assign_ne.
Qed.

(** X7. In a pair list that names a property more than once, the last
    pair for the name gives its sub-schema; this for every name but
    [__proto__], whose pairs set the prototype of the mapping. *)
Theorem pair_list_last_wins ps k :
  k ≠ "__proto__" →
  ∃ props, normalizeProperties (as_pairs ps) = Some props
           ∧ obj_get k props = obj_get k (reverse ps).
Proof.
  intros Hk. eexists. split; [reflexivity|].
  rewrite normalize_pairs_lookup by done. simpl.
  destruct (obj_has k ps) eqn:Hh; [done|].
  rewrite obj_has_false_get; [done|]. by rewrite obj_has_reverse.
Qed.

(** The name "a" given twice, around another name. *)
Lemma pair_list_last_wins_witness :
  ∃ props,
    normalizeProperties
      (as_pairs [("a", VObj [("type", VStr "string")]); ("b", VNull);
                 ("a", VObj [("type", VStr "number")])]) = Some props
    ∧ obj_get "a" props = VObj [("type", VStr "number")].
Proof.
  apply (pair_list_last_wins
           [("a", VObj [("type", VStr "string")]); ("b", VNull);
            ("a", VObj [("type", VStr "number")])] "a").
  discriminate.
Defined.

(** Pairs for [__proto__]: an object becomes the prototype of the mapping
    and null removes it, neither adds a property; once the prototype is
    null, a further pair creates a property of that name. *)
Example pair_list_proto :
  normalizeProperties (as_pairs [("__proto__", VObj [("type", VStr "string")])])
  = Some []
  ∧ normalizeProperties (as_pairs [("__proto__", VNull); ("__proto__", VNum 5)])
    = Some [("__proto__", VNum 5)].
Proof. split; reflexivity. Qed.

(** The names that [Object.entries] gives the elements of an array start
    with a digit. *)
Lemma pretty_N_go_digit x : ∀ s,
  (0 < x)%N →
  ∃ c s', pretty_N_go x s = String c s'
          ∧ (48 ≤ Ascii.N_of_ascii c ≤ 57)%N.
Proof.
  induction (N.lt_wf_0 x) as [x _ IH]. intros s Hx.
  rewrite pretty_N_go_step by done.
  destruct (decide (x `div` 10 = 0)%N) as [Hz|Hz].
  - rewrite Hz, pretty_N_go_0. eexists _, _. split; [done|].
    unfold pretty_N_char. repeat case_match; simpl; lia.
  - apply IH; [apply N.div_lt; lia|by apply N.neq_0_lt_0].
Qed.

Lemma pretty_nat_digit (i : nat) :
  ∃ c s', pretty i = String c s' ∧ (48 ≤ Ascii.N_of_ascii c ≤ 57)%N.
Proof.
  unfold pretty, pretty_nat, pretty, pretty_N.
  destruct (decide (N.of_nat i = 0)%N) as [He|Hne].
  - exists (Ascii.ascii_of_N 48), "". split; [done|]. simpl. lia.
  - apply pretty_N_go_digit. lia.
Qed.

Lemma index_not_allowed (i : nat) : in_allowList (pretty i) = false.
Proof.
  destruct (pretty_nat_digit i) as (c & s' & -> & Hc).
  unfold in_allowList, allowList. simpl.
  destruct c as [[] [] [] [] [] [] [] []]; simpl in Hc; try lia; done.
Qed.

Lemma strip_array l : stripUnsupportedKeys (VArr l) = [].
Proof.
  unfold stripUnsupportedKeys. simpl.
  generalize 0%nat. intros n.
  assert (∀ (f : nat → nat),
             filter (λ kv : string * value,
                       negb (String.prefix "$" kv.1) && in_allowList kv.1 = true)
                    (imap (λ i x, (pretty (f i), x)) l) = []) as H.
  { induction l as [|x l IH]; intros f; simpl; [done|].
    rewrite filter_cons_False.
    - apply (IH (f ∘ S)).
    - simpl. rewrite index_not_allowed. by rewrite andb_false_r. }
  apply (H id).
Qed.

Lemma convert_array l : convertJSONSchemaToGeminiSchema (VArr l) = VObj [].
Proof.
  rewrite convert_unfold. unfold convert_with, convert_body. simpl.
  by rewrite strip_array.
Qed.

(** X8. The converter answers undefined exactly for the inputs that are
    neither objects nor arrays (null, undefined, booleans, numbers,
    strings); an array converts to the empty object, and an object to an
    object. *)
Theorem convert_result_kind input :
  (convertJSONSchemaToGeminiSchema input = VUndefined ↔ is_object_like input = false)
  ∧ (∀ l, input = VArr l → convertJSONSchemaToGeminiSchema input = VObj [])
  ∧ (∀ src, input = VObj src →
            ∃ out, convertJSONSchemaToGeminiSchema input = VObj out).
Proof.
  split_and!.
  - split; [|apply convert_not_object].
    intros Hu. destruct (is_object_like input) eqn:Hobj; [|done].
    destruct (convert_steps input Hobj) as (? & ? & _ & _ & Hc). congruence.
  - intros l ->. apply convert_array.
  - intros src ->.
    destruct (convert_steps (VObj src) eq_refl) as (? & ? & _ & _ & Hc). eauto.
Qed.

(** The string "object", an array of schemas and an empty object. *)
Lemma convert_result_kind_witness :
  convertJSONSchemaToGeminiSchema (VStr "object") = VUndefined
  ∧ convertJSONSchemaToGeminiSchema (VArr [VObj [("type", VStr "string")]]) = VObj []
  ∧ ∃ out, convertJSONSchemaToGeminiSchema (VObj []) = VObj out.
Proof.
  split_and!.
  - apply (proj1 (convert_result_kind (VStr "object"))). reflexivity.
  - apply (proj1 (proj2 (convert_result_kind (VArr [VObj [("type", VStr "string")]])))
                 [VObj [("type", VStr "string")]]).
    reflexivity.
  - apply (proj2 (proj2 (convert_result_kind (VObj []))) []). reflexivity.
Defined.

End SchemaExtras.

(** ** Generation config: budgets, sampling fields, safety settings *)

Module ConfigExtras.
Import Js Config JsFacts ConfigClaims Safety.

Lemma validate_range models modelId budget :
  model_thinks models modelId = true →
  -1 ≤ validateThinkingBudget models modelId budget
  ∧ validateThinkingBudget models modelId budget ≠ 0.
Proof.
  intros Hm. unfold validateThinkingBudget. rewrite Hm.
  destruct (Z.eqb_spec budget 0); [done|].
  destruct (Z.ltb_spec budget (-1)); [done|]. lia.
Qed.

(** X9. Validating a budget twice is the same as validating it once, for
    every model; on a thinking model a validated budget is at least -1 and
    is not 0. *)
Theorem validateThinkingBudget_settles
        (geminiCliModels : gmap string ModelInfo) (modelId : string) (budget : Z) :
  validateThinkingBudget geminiCliModels modelId
    (validateThinkingBudget geminiCliModels modelId budget)
  = validateThinkingBudget geminiCliModels modelId budget
  ∧ (model_thinks geminiCliModels modelId = true →
     -1 ≤ validateThinkingBudget geminiCliModels modelId budget
     ∧ validateThinkingBudget geminiCliModels modelId budget ≠ 0).
Proof.
  split; [|apply validate_range].
  unfold validateThinkingBudget.
  destruct (model_thinks geminiCliModels modelId); [|done].
  destruct (Z.eqb_spec budget 0); [done|].
  destruct (Z.ltb_spec budget (-1)); [done|].
  destruct (Z.eqb_spec budget 0); [done|].
  destruct (Z.ltb_spec budget (-1)); [lia|done].
Qed.

(** A budget below the sentinel on a thinking model. *)
Lemma validateThinkingBudget_settles_witness :
  let models : gmap string ModelInfo :=
    {[ "gemini-2.5-pro" := {| thinking := true |} ]} in
  -1 ≤ validateThinkingBudget models "gemini-2.5-pro" (-7)
  ∧ validateThinkingBudget models "gemini-2.5-pro" (-7) ≠ 0.
Proof.
  intros models.
  apply (proj2 (validateThinkingBudget_settles models "gemini-2.5-pro" (-7))).
  reflexivity.
Defined.

(** The generation config before the undefined keys are removed has no
    repeated key, so removing them does not disturb the others. *)

Lemma obj_set_keys_present k v fs :
  obj_has k fs = true → (obj_set k v fs).*1 = fs.*1.
Proof.
  induction fs as [|[k0 v0] fs IH]; simpl; [done|].
  destruct (String.eqb k0 k); simpl; [done|]. intros H. f_equal. by apply IH.
Qed.

Lemma obj_has_elem k (fs : fields) : obj_has k fs = false → k ∉ fs.*1.
Proof.
  induction fs as [|[k0 v0] fs IH]; simpl; [intros _ H; by apply elem_of_nil in H|].
  destruct (String.eqb_spec k0 k); [done|]. intros H Hin.
  apply elem_of_cons in Hin as [?|?]; [congruence|by apply IH].
Qed.

Lemma obj_set_keys_nodup k v fs :
  NoDup fs.*1 → NoDup (obj_set k v fs).*1.
Proof.
  intros Hnd.
  destruct (obj_has k fs) eqn:Hk.
  - by rewrite obj_set_keys_present.
  - rewrite obj_set_fresh by done. rewrite fmap_app. simpl.
    apply NoDup_app. split_and!; [done| |apply NoDup_singleton].
    intros x Hx Hx'. apply list_elem_of_singleton in Hx' as ->.
    by apply (obj_has_elem _ _ Hk).
Qed.

Lemma obj_has_absent k (fs : fields) : k ∉ fs.*1 → obj_has k fs = false.
Proof.
  induction fs as [|[k0 v0] fs IH]; simpl; [done|].
  intros Hk. destruct (String.eqb_spec k0 k) as [->|?].
  - exfalso. apply Hk. constructor.
  - apply IH. intros H. apply Hk. by constructor.
Qed.

Lemma defined_keys_get k fs :
  NoDup fs.*1 →
  obj_get k (filter (λ kv, is_undefined kv.2 = false) fs) = obj_get k fs
  ∧ obj_has k (filter (λ kv, is_undefined kv.2 = false) fs)
    = obj_has k fs && negb (is_undefined (obj_get k fs)).
Proof.
  induction fs as [|[k0 v0] fs IH]; simpl; [done|].
  intros Hnd. apply NoDup_cons in Hnd as [Hk0 Hnd]. specialize (IH Hnd).
  destruct (is_undefined v0) eqn:Hu.
  - rewrite filter_cons_False by (simpl; congruence).
    destruct (String.eqb_spec k0 k) as [->|?]; [|done].
    assert (obj_has k (filter (λ kv, is_undefined kv.2 = false) fs) = false) as Hno.
    { apply obj_has_absent. intros Hin. apply Hk0.
      apply list_elem_of_fmap in Hin as (e & -> & He).
      apply list_elem_of_filter in He as [_ He].
      apply list_elem_of_fmap. by exists e. }
    rewrite Hno, (obj_has_false_get _ _ Hno). by destruct v0.
  - rewrite filter_cons_True by done. simpl.
    destruct (String.eqb_spec k0 k) as [->|?]; [|done].
    by rewrite Hu.
Qed.

Lemma defined_values_has k fs :
  obj_has k (filter (λ kv, is_undefined kv.2 = false) fs)
  = negb (is_undefined (obj_get k (filter (λ kv, is_undefined kv.2 = false) fs))).
Proof.
  induction fs as [|[k0 v0] fs IH]; simpl; [done|].
  destruct (is_undefined v0) eqn:Hu.
  - by rewrite filter_cons_False by (simpl; congruence).
  - rewrite filter_cons_True by done. simpl.
    destruct (String.eqb k0 k); [by rewrite Hu|done].
Qed.

Section Config.

Variable geminiCliModels : gmap string ModelInfo.
Variable REASONING_EFFORT_BUDGETS : EffortBudgets.
Variable DEFAULT_TEMPERATURE : value.

(** Looking up a key other than the two optional ones in a generation
    config. *)
Lemma config_lookup k modelId options isReal incl :
  k ≠ "responseMimeType" → k ≠ "thinkingConfig" →
  obj_get k (createValidatedConfig geminiCliModels REASONING_EFFORT_BUDGETS
                                   DEFAULT_TEMPERATURE modelId options isReal incl)
  = obj_get k
      [("temperature", nullish (temperature options) DEFAULT_TEMPERATURE);
       ("maxOutputTokens", max_tokens options);
       ("topP", top_p options);
       ("stopSequences", if typeof_string (stop options)
                         then VArr [stop options] else stop options);
       ("presencePenalty", presence_penalty options);
       ("frequencyPenalty", frequency_penalty options);
       ("seed", seed options)].
Proof.
  intros H1 H2. unfold createValidatedConfig.
  set (base := [("temperature", _); ("maxOutputTokens", _); ("topP", _);
                ("stopSequences", _); ("presencePenalty", _);
                ("frequencyPenalty", _); ("seed", _)]).
  assert (NoDup base.*1) as Hbase by (simpl; repeat constructor; set_solver).
  destruct (resolve_effort _ _ _ _) as [b i].
  match goal with
  | |- obj_get k (filter _ ?g) = _ =>
      assert (NoDup g.*1) as Hnd
        by (repeat case_match; repeat apply obj_set_keys_nodup; done);
      rewrite (proj1 (defined_keys_get k g Hnd))
  end.
  repeat case_match; rewrite ?obj_get_set_ne by done; done.
Qed.

(** X10. The sampling fields of the generation config are the request's,
    under the backend's names: temperature falls back to the default
    when the request has none, a single stop string becomes a
    one-element array, the other fields are copied; and no key of the
    config holds undefined, a field the request leaves undefined being
    absent. *)
Theorem sampling_fields_copied modelId options isReal incl :
  let out := createValidatedConfig geminiCliModels REASONING_EFFORT_BUDGETS
               DEFAULT_TEMPERATURE modelId options isReal incl in
  obj_get "temperature" out = nullish (temperature options) DEFAULT_TEMPERATURE
  ∧ obj_get "maxOutputTokens" out = max_tokens options
  ∧ obj_get "topP" out = top_p options
  ∧ obj_get "stopSequences" out
    = (if typeof_string (stop options) then VArr [stop options] else stop options)
  ∧ obj_get "presencePenalty" out = presence_penalty options
  ∧ obj_get "frequencyPenalty" out = frequency_penalty options
  ∧ obj_get "seed" out = seed options
  ∧ ∀ k, obj_has k out = negb (is_undefined (obj_get k out)).
Proof.
  simpl. split_and!; try (by rewrite config_lookup).
  intros k. unfold createValidatedConfig. apply defined_values_has.
Qed.

(** X11. The config asks for JSON output exactly when the request's
    response format has type "json_object". *)
Theorem json_mode_flag modelId options isReal incl :
  obj_get "responseMimeType" (createValidatedConfig geminiCliModels REASONING_EFFORT_BUDGETS
                                   DEFAULT_TEMPERATURE modelId options isReal incl)
  = if is_str "json_object" (opt_get (response_format options) "type")
    then VStr "application/json" else VUndefined.
Proof.
  unfold createValidatedConfig.
  set (base := [("temperature", _); ("maxOutputTokens", _); ("topP", _);
                ("stopSequences", _); ("presencePenalty", _);
                ("frequencyPenalty", _); ("seed", _)]).
  assert (NoDup base.*1) as Hbase by (simpl; repeat constructor; set_solver).
  destruct (resolve_effort _ _ _ _) as [b i].
  match goal with
  | |- obj_get ?k (filter _ ?g) = _ =>
      assert (NoDup g.*1) as Hnd
        by (repeat case_match; repeat apply obj_set_keys_nodup; done);
      rewrite (proj1 (defined_keys_get k g Hnd))
  end.
  repeat case_match; rewrite ?obj_get_set_ne by done;
    rewrite ?obj_get_set_eq; done.
Qed.

(** X12. For a thinking model the config always carries a thinkingConfig,
    whose budget is at least -1 and never 0, and is -1 whenever thoughts
    are not included; for any other model it carries none. *)
Theorem thinkingConfig_budget_allowed modelId options isReal incl :
  (model_thinks geminiCliModels modelId = true →
   ∃ budget includeThoughts,
     obj_get "thinkingConfig" (createValidatedConfig geminiCliModels REASONING_EFFORT_BUDGETS
                                   DEFAULT_TEMPERATURE modelId options isReal incl)
     = thinkingConfig_object budget includeThoughts
     ∧ -1 ≤ budget ∧ budget ≠ 0
     ∧ (includeThoughts = false → budget = -1))
  ∧ (model_thinks geminiCliModels modelId = false →
     obj_has "thinkingConfig" (createValidatedConfig geminiCliModels REASONING_EFFORT_BUDGETS
                                   DEFAULT_TEMPERATURE modelId options isReal incl) = false).
Proof.
  split.
  - intros Hm. rewrite thinkingConfig_of_config by done.
    destruct (resolve_effort _ _ _ _) as [b i].
    destruct (isReal && i); eexists _, _; (split; [done|]).
    + by destruct (validate_range geminiCliModels modelId b Hm).
    + destruct (validate_range geminiCliModels modelId DEFAULT_THINKING_BUDGET Hm).
      split_and!; try done. intros _.
      unfold validateThinkingBudget. by rewrite Hm.
  - intros Hm. unfold createValidatedConfig. rewrite Hm.
    rewrite defined_values_has.
    set (base := [("temperature", _); ("maxOutputTokens", _); ("topP", _);
                  ("stopSequences", _); ("presencePenalty", _);
                  ("frequencyPenalty", _); ("seed", _)]).
    assert (NoDup base.*1) as Hbase by (simpl; repeat constructor; set_solver).
    match goal with
    | |- context [obj_get ?k (filter _ ?g)] =>
        assert (NoDup g.*1) as Hnd
          by (repeat case_match; repeat apply obj_set_keys_nodup; done);
        rewrite (proj1 (defined_keys_get k g Hnd))
    end.
    repeat case_match; rewrite ?obj_get_set_ne by done; done.
Qed.

(** X13. On a thinking model, when the first hint that is set is "none",
    the config carries thinkingBudget -1 with includeThoughts false,
    whatever the table, the explicit budget and the two flags say. *)
Theorem effort_none_hides_thoughts modelId options isReal incl :
  model_thinks geminiCliModels modelId = true →
  head (filter (λ v, truthy v = true) (effort_hint_sources options))
  = Some (VStr "none") →
  obj_get "thinkingConfig" (createValidatedConfig geminiCliModels REASONING_EFFORT_BUDGETS
                                   DEFAULT_TEMPERATURE modelId options isReal incl)
  = thinkingConfig_object (-1) false.
Proof.
  intros Hm Hfirst. rewrite thinkingConfig_of_config by done.
  unfold resolve_effort. rewrite (requested_effort_first _ _ Hfirst). simpl.
  rewrite andb_false_r. unfold validateThinkingBudget. by rewrite Hm.
Qed.

(** X14. On a thinking model, a hint that is not one of none, low,
    medium, high (or no hint at all) is ignored: the budget is the
    validated explicit budget, or -1 without one, and thoughts are
    included as the caller's flags say. *)
Theorem invalid_effort_ignored modelId options isReal incl :
  model_thinks geminiCliModels modelId = true →
  isValidEffortLevel (requested_effort options) = false →
  obj_get "thinkingConfig" (createValidatedConfig geminiCliModels REASONING_EFFORT_BUDGETS
                                   DEFAULT_TEMPERATURE modelId options isReal incl)
  = if isReal && incl then
      thinkingConfig_object
        (validateThinkingBudget geminiCliModels modelId
           (default (-1) (thinking_budget options))) true
    else thinkingConfig_object (-1) false.
Proof.
  intros Hm Hinv. rewrite thinkingConfig_of_config by done.
  unfold resolve_effort. rewrite Hinv, andb_false_r.
  destruct (isReal && incl); [done|].
  unfold validateThinkingBudget. by rewrite Hm.
Qed.

End Config.

(** A request with max_tokens and a stop string. *)
Lemma effort_none_hides_thoughts_witness :
  let models : gmap string ModelInfo :=
    {[ "gemini-2.5-pro" := {| thinking := true |} ]} in
  let table :=
    {| budget_none := 0; budget_low := 1024;
       budget_medium_flash := 12288; budget_medium_default := 16384;
       budget_high_flash := 24576; budget_high_default := 32768 |} in
  let options :=
    {| temperature := VUndefined; max_tokens := VUndefined; top_p := VUndefined;
       stop := VUndefined; presence_penalty := VUndefined;
       frequency_penalty := VUndefined; seed := VUndefined;
       response_format := VUndefined; thinking_budget := Some 4096;
       reasoning_effort := VStr "none"; extra_body := VUndefined;
       model_params := VUndefined; tools := None; tool_choice := VUndefined |} in
  obj_get "thinkingConfig"
          (createValidatedConfig models table VUndefined "gemini-2.5-pro" options
                                 true true)
  = thinkingConfig_object (-1) false.
Proof.
  intros models table options.
  apply (effort_none_hides_thoughts models table VUndefined "gemini-2.5-pro" options
                                    true true); reflexivity.
Defined.

(** An unknown effort with an explicit budget of 0. *)
Lemma invalid_effort_ignored_witness :
  let models : gmap string ModelInfo :=
    {[ "gemini-2.5-pro" := {| thinking := true |} ]} in
  let table :=
    {| budget_none := 0; budget_low := 1024;
       budget_medium_flash := 12288; budget_medium_default := 16384;
       budget_high_flash := 24576; budget_high_default := 32768 |} in
  let options :=
    {| temperature := VUndefined; max_tokens := VUndefined; top_p := VUndefined;
       stop := VUndefined; presence_penalty := VUndefined;
       frequency_penalty := VUndefined; seed := VUndefined;
       response_format := VUndefined; thinking_budget := Some 0;
       reasoning_effort := VStr "maximum"; extra_body := VUndefined;
       model_params := VUndefined; tools := None; tool_choice := VUndefined |} in
  obj_get "thinkingConfig"
          (createValidatedConfig models table VUndefined "gemini-2.5-pro" options
                                 true true)
  = thinkingConfig_object (-1) true.
Proof.
  intros models table options.
  apply (invalid_effort_ignored models table VUndefined "gemini-2.5-pro" options
                                true true); reflexivity.
Defined.

(** A thinking model and a model that is not in the table. *)
Lemma thinkingConfig_budget_allowed_witness :
  let models : gmap string ModelInfo :=
    {[ "gemini-2.5-pro" := {| thinking := true |} ]} in
  let table :=
    {| budget_none := 0; budget_low := 1024;
       budget_medium_flash := 12288; budget_medium_default := 16384;
       budget_high_flash := 24576; budget_high_default := 32768 |} in
  (∃ budget includeThoughts,
      obj_get "thinkingConfig"
              (createValidatedConfig models table VUndefined "gemini-2.5-pro"
                                     (request_with_tools None VUndefined) true true)
      = thinkingConfig_object budget includeThoughts
      ∧ -1 ≤ budget ∧ budget ≠ 0 ∧ (includeThoughts = false → budget = -1))
  ∧ obj_has "thinkingConfig"
            (createValidatedConfig models table VUndefined "text-bison"
                                   (request_with_tools None VUndefined) true true)
    = false.
Proof.
  intros models table. split.
  - apply (proj1 (thinkingConfig_budget_allowed models table VUndefined
                    "gemini-2.5-pro" (request_with_tools None VUndefined) true true)).
    reflexivity.
  - apply (proj2 (thinkingConfig_budget_allowed models table VUndefined
                    "text-bison" (request_with_tools None VUndefined) true true)).
    reflexivity.
Defined.

End ConfigExtras.

(** ** Safety settings and tool declarations *)

Module ToolExtras.
Import Js Config JsFacts Safety SchemaExtras.

(** X15. The safety settings list one entry per category whose threshold
    is set (a non-empty string), in the order harassment, hate speech,
    sexually explicit, dangerous content, each with its threshold; a
    category whose threshold is unset or empty has no entry. *)
Theorem safety_settings_only_set (cats : SafetyCategories) (env : Env) :
  createSafetySettings cats env
  = map (λ p, safetySetting p.1 p.2)
        (filter (λ p, truthy p.2 = true) (thresholds cats env))
  ∧ Forall (λ s, truthy (get s "threshold") = true) (createSafetySettings cats env)
  ∧ (length (createSafetySettings cats env) ≤ 4)%nat.
Proof.
  unfold createSafetySettings, thresholds, push_if_set.
  destruct (truthy (GEMINI_MODERATION_HARASSMENT_THRESHOLD env)) eqn:H1,
           (truthy (GEMINI_MODERATION_HATE_SPEECH_THRESHOLD env)) eqn:H2,
           (truthy (GEMINI_MODERATION_SEXUALLY_EXPLICIT_THRESHOLD env)) eqn:H3,
           (truthy (GEMINI_MODERATION_DANGEROUS_CONTENT_THRESHOLD env)) eqn:H4.
  all: repeat (rewrite filter_cons_True by done)
       || (rewrite filter_cons_False by (simpl; congruence)).
  all: simpl; split_and!; [done|repeat constructor; done|lia].
Qed.

(** X16. [createValidateTools] reads the tool choice only when the request
    declares tools: without tools (absent or empty list) it answers an
    empty tools array and the empty toolConfig, whatever the tool choice;
    with tools it answers one group of function declarations, one per
    tool, with the tools' names in order. *)
Theorem createValidateTools_declarations (options : ChatCompletionRequest) :
  (non_empty (tools options) = false →
   createValidateTools options
   = {| setup_tools := VArr []; setup_toolConfig := VObj [] |})
  ∧ (∀ ts, tools options = Some ts → ts ≠ [] →
           ∃ decls,
             setup_tools (createValidateTools options)
             = VArr [VObj [("functionDeclarations", VArr decls)]]
             ∧ map (λ d, get d "name") decls = map (λ t, name (function t)) ts
             ∧ map (λ d, get d "description") decls
               = map (λ t, description (function t)) ts).
Proof.
  unfold createValidateTools. split.
  - destruct (tools options) as [[|t ts]|]; done.
  - intros ts -> Hne. destruct ts as [|t ts]; [done|].
    eexists. split; [done|]. rewrite !map_map. done.
Qed.

(** A request without tools but with tool choice "auto", and one with two
    tools. *)
Lemma createValidateTools_declarations_witness :
  let tool n := {| function := {| name := VStr n; description := VUndefined;
                                  parameters := VUndefined |} |} in
  createValidateTools (request_with_tools (Some []) (VStr "auto"))
  = {| setup_tools := VArr []; setup_toolConfig := VObj [] |}
  ∧ ∃ decls,
      setup_tools (createValidateTools
                     (request_with_tools (Some [tool "a"; tool "b"]) VUndefined))
      = VArr [VObj [("functionDeclarations", VArr decls)]]
      ∧ map (λ d, get d "name") decls = [VStr "a"; VStr "b"].
Proof.
  intros tool. split.
  - apply (proj1 (createValidateTools_declarations
                    (request_with_tools (Some []) (VStr "auto")))).
    reflexivity.
  - destruct (proj2 (createValidateTools_declarations
                       (request_with_tools (Some [tool "a"; tool "b"]) VUndefined))
                    [tool "a"; tool "b"] eq_refl ltac:(discriminate))
      as (decls & Ht & Hn & _).
    exists decls. split; [exact Ht|exact Hn].
Defined.

(** X17. The parameters of a function declaration: the empty object for a
    tool without parameters (undefined, null or another falsy value) and
    for parameters given as an array; for parameters that are an object,
    an object whose keys are all among the keys the backend accepts; and
    undefined for any other parameters. *)
Theorem declaration_parameters (tool : Tool) :
  let p := parameters (function tool) in
  (truthy p = false → get (functionDeclaration tool) "parameters" = VObj [])
  ∧ (∀ l, p = VArr l → get (functionDeclaration tool) "parameters" = VObj [])
  ∧ (∀ src, p = VObj src →
            ∃ out, get (functionDeclaration tool) "parameters" = VObj out
                   ∧ Forall (λ e, e.1 ∈ Schema.allowList) out)
  ∧ (truthy p = true → is_object_like p = false →
     get (functionDeclaration tool) "parameters" = VUndefined).
Proof.
  unfold functionDeclaration, Js.or. simpl. split_and!.
  - by intros ->.
  - intros l ->. simpl. apply convert_array.
  - intros src ->. simpl.
    destruct (convert_steps (VObj src) eq_refl) as (i1 & i2 & _ & _ & Hout).
    eexists. split; [exact Hout|].
    eapply Forall_impl; [exact (allowed_converted (VObj src) _ Hout)|].
    intros e He. by apply in_allowList_elem.
  - intros -> Ho. by apply convert_not_object.
Qed.

(** A tool without parameters and one whose parameters carry a
    combinator. *)
Lemma declaration_parameters_witness :
  get (functionDeclaration
         {| function := {| name := VStr "now"; description := VUndefined;
                           parameters := VNull |} |}) "parameters" = VObj []
  ∧ ∃ out,
      get (functionDeclaration
             {| function := {| name := VStr "find"; description := VUndefined;
                               parameters := VObj [("type", VStr "object");
                                                   ("anyOf", VArr [])] |} |})
          "parameters" = VObj out
      ∧ Forall (λ e, e.1 ∈ Schema.allowList) out.
Proof.
  split.
  - apply (proj1 (declaration_parameters
                    {| function := {| name := VStr "now"; description := VUndefined;
                                      parameters := VNull |} |})).
    reflexivity.
  - apply (proj1 (proj2 (proj2 (declaration_parameters
                    {| function := {| name := VStr "find"; description := VUndefined;
                                      parameters := VObj [("type", VStr "object");
                                                          ("anyOf", VArr [])] |} |})))
                 [("type", VStr "object"); ("anyOf", VArr [])]).
    reflexivity.
Defined.

(** X18. In the final tool configuration the custom branch comes first:
    with custom tools enabled and listed, the call returns, and the tools
    are one group of declarations of the configuration's custom tools,
    whatever the native settings are; when the request lists the same
    tools, that group is the one [createValidateTools] builds. *)
Theorem custom_tools_first (config : NativeToolsConfiguration)
        (options : ChatCompletionRequest) (ts : list Tool) :
  useCustomTools config = true →
  customTools config = Some ts → ts ≠ [] →
  ∃ setup,
    createFinalToolConfiguration config options = Some setup
    ∧ setup_tools setup
      = VArr [VObj [("functionDeclarations", VArr (map functionDeclaration ts))]]
    ∧ (tools options = Some ts →
       setup_tools setup = setup_tools (createValidateTools options)).
Proof.
  intros Hu Hc Hne. unfold createFinalToolConfiguration. rewrite Hu, Hc.
  destruct ts as [|t ts]; [done|]. simpl.
  eexists. split; [reflexivity|]. simpl. split; [done|].
  intros Ht. unfold createValidateTools. by rewrite Ht.
Qed.

(** Custom and native tools both enabled. *)
Lemma custom_tools_first_witness :
  let tool := {| function := {| name := VStr "lookup"; description := VUndefined;
                                parameters := VUndefined |} |} in
  let config := {| useCustomTools := true; useNativeTools := true;
                   customTools := Some [tool];
                   nativeTools := Some [VObj [("google_search", VObj [])]] |} in
  ∃ setup,
    createFinalToolConfiguration config (request_with_tools None VUndefined)
    = Some setup
    ∧ setup_tools setup
      = VArr [VObj [("functionDeclarations", VArr [functionDeclaration tool])]].
Proof.
  intros tool config.
  destruct (custom_tools_first config (request_with_tools None VUndefined)
                               [tool] eq_refl eq_refl ltac:(discriminate))
    as (setup & Hs & Ht & _).
  exists setup. split; [exact Hs|exact Ht].
Defined.

Lemma normalize_native_tool_defined tool :
  tool ≠ VNull → tool ≠ VUndefined →
  ∃ mapped, normalize_native_tool tool = Some mapped
            ∧ normalize_native_tool mapped = Some mapped
            ∧ mapped = (if truthy (get tool "google_search") then
                          VObj [("google_search", get tool "google_search")]
                        else if truthy (get tool "url_context") then
                          VObj [("url_context", get tool "url_context")]
                        else tool).
Proof.
  intros Hn Hu. unfold normalize_native_tool.
  destruct (truthy (get tool "google_search")) eqn:Hg.
  { destruct tool; try done; eexists; split_and!; try reflexivity;
      simpl in *; by rewrite Hg. }
  destruct (truthy (get tool "url_context")) eqn:Hc.
  { destruct tool; try done; eexists; split_and!; try reflexivity;
      simpl in *; by rewrite Hc. }
  destruct tool; try done; eexists; split_and!; try reflexivity;
    simpl in *; by rewrite ?Hg, ?Hc.
Qed.

Lemma normalize_native_tool_throws tool :
  normalize_native_tool tool = None ↔ tool = VNull ∨ tool = VUndefined.
Proof.
  split.
  - destruct tool; try done; auto.
  - by intros [-> | ->].
Qed.

(** X19. In the native branch (custom branch not taken, native tools
    enabled and listed) the call throws exactly when one of the listed
    tools is null or undefined.  Otherwise it returns with toolConfig
    undefined whatever the request's tool choice, and with one tool per
    native tool, in order, each normalised: a tool with a google_search
    capability is reduced to that key alone, otherwise one with a
    url_context capability to that key alone, any other tool is passed as
    it is; normalising a normalised tool changes nothing. *)
Theorem native_tools_passed (config : NativeToolsConfiguration)
        (options : ChatCompletionRequest) (ns : list value) :
  useCustomTools config && non_empty (customTools config) = false →
  useNativeTools config = true →
  nativeTools config = Some ns → ns ≠ [] →
  (createFinalToolConfiguration config options = None
   ↔ Exists (λ t, t = VNull ∨ t = VUndefined) ns)
  ∧ (Forall (λ t, t ≠ VNull ∧ t ≠ VUndefined) ns →
     ∃ mapped,
       createFinalToolConfiguration config options
       = Some {| setup_tools := VArr mapped; setup_toolConfig := VUndefined |}
       ∧ mapped
         = map (λ t, if truthy (get t "google_search") then
                       VObj [("google_search", get t "google_search")]
                     else if truthy (get t "url_context") then
                       VObj [("url_context", get t "url_context")]
                     else t) ns
       ∧ Forall (λ m, normalize_native_tool m = Some m) mapped).
Proof.
  intros Hc Hu Hn Hne. unfold createFinalToolConfiguration.
  rewrite Hc, Hu, Hn.
  replace (non_empty (Some ns)) with true by (by destruct ns).
  simpl. split.
  - split.
    + intros Hnone.
      destruct (mapM normalize_native_tool ns) as [mapped|] eqn:Hm; [done|].
      apply mapM_None, Exists_exists in Hm as (t & Hin & Ht).
      apply Exists_exists. exists t. split; [done|].
      by apply normalize_native_tool_throws.
    + intros Hex. apply Exists_exists in Hex as (t & Hin & Ht).
      assert (mapM normalize_native_tool ns = None) as ->; [|done].
      apply mapM_None, Exists_exists. exists t. split; [done|].
      by apply normalize_native_tool_throws.
  - intros Hall.
    exists (map (λ t, if truthy (get t "google_search") then
                        VObj [("google_search", get t "google_search")]
                      else if truthy (get t "url_context") then
                        VObj [("url_context", get t "url_context")]
                      else t) ns).
    split_and!.
    + assert (mapM normalize_native_tool ns
              = Some (map (λ t, if truthy (get t "google_search") then
                                  VObj [("google_search", get t "google_search")]
                                else if truthy (get t "url_context") then
                                  VObj [("url_context", get t "url_context")]
                                else t) ns)) as ->; [|done].
      apply mapM_Some, Forall2_fmap_r, Forall_Forall2_diag.
      eapply Forall_impl; [exact Hall|]. intros t [H1 H2]. simpl.
      by destruct (normalize_native_tool_defined t H1 H2) as (m & -> & _ & ->).
    + done.
    + apply Forall_fmap. eapply Forall_impl; [exact Hall|]. intros t [H1 H2]. simpl.
      by destruct (normalize_native_tool_defined t H1 H2) as (m & _ & Hm & <-).
Qed.

(** A search tool with a stray key, and a tool choice that is ignored; and
    a list with a null tool. *)
Lemma native_tools_passed_witness :
  let config ns := {| useCustomTools := false; useNativeTools := true;
                      customTools := None; nativeTools := Some ns |} in
  (∃ mapped,
      createFinalToolConfiguration
        (config [VObj [("google_search", VObj []); ("note", VStr "x")]])
        (request_with_tools None (VStr "auto"))
      = Some {| setup_tools := VArr mapped; setup_toolConfig := VUndefined |}
      ∧ mapped = [VObj [("google_search", VObj [])]])
  ∧ createFinalToolConfiguration
      (config [VObj [("url_context", VObj [])]; VNull])
      (request_with_tools None VUndefined)
    = None.
Proof.
  intros config. split.
  - destruct (proj2 (native_tools_passed
                       (config [VObj [("google_search", VObj []); ("note", VStr "x")]])
                       (request_with_tools None (VStr "auto"))
                       [VObj [("google_search", VObj []); ("note", VStr "x")]]
                       eq_refl eq_refl eq_refl ltac:(discriminate)))
      as (mapped & Hs & Hm & _); [repeat constructor; discriminate|].
    exists mapped. split; [exact Hs|exact Hm].
  - apply (proj1 (native_tools_passed
                    (config [VObj [("url_context", VObj [])]; VNull])
                    (request_with_tools None VUndefined)
                    [VObj [("url_context", VObj [])]; VNull]
                    eq_refl eq_refl eq_refl ltac:(discriminate))).
    right. left. by left.
Defined.

End ToolExtras.

(** ** The stream transformer: frames, usage, tool-call ids *)

Module StreamExtras.
Import Js Stream StreamSpec StreamVocabulary StreamFacts StreamClaims.

Section WithObjectName.

Variable OBJ : string.

Lemma recognized_existsb kind :
  kind ∉ recognized_kinds → existsb (String.eqb kind) recognized_kinds = false.
Proof.
  intros Hk. destruct (existsb _ _) eqn:He; [|done]. exfalso. apply Hk.
  apply existsb_exists in He as (x & Hx & Heq).
  apply String.eqb_eq in Heq as ->. by apply list_elem_of_In.
Qed.

(** The [switch] of [transform] has no case for the chunk. *)
Lemma transform_no_case T st kind d :
  existsb (String.eqb kind) recognized_kinds = false →
  transform OBJ T st {| type := kind; data := d |} = (st, None).
Proof.
  unfold recognized_kinds. simpl. intros Hk.
  unfold transform. simpl.
  split_kind kind; done.
Qed.

(** X21. A chunk whose kind is none of the recognised ones enqueues
    nothing and leaves the state of the stream as it was. *)
Theorem unknown_kind_is_ignored (T : Transformer) (st : State)
        (chunk : StreamChunk) :
  type chunk ∉ recognized_kinds →
  transform OBJ T st chunk = (st, None).
Proof.
  intros Hk. destruct chunk as [kind d]. simpl in Hk.
  apply transform_no_case. by apply recognized_existsb.
Qed.

(** [transform] enqueues a payload exactly for the chunks that [emits]
    describes, and the payload is an [openAIChunk] around a non-empty
    delta. *)
Lemma transform_emits T st c :
  match (transform OBJ T st c).2 with
  | Some p => emits (isR1 T) c = true
              ∧ ∃ delta, delta ≠ [] ∧ p = openAIChunk OBJ T delta
  | None => emits (isR1 T) c = false
  end.
Proof.
  destruct (decide (type c ∈ recognized_kinds)) as [Hin|Hnot].
  - destruct c as [kind d], st as [[] id nm us dr], T as [ci ct cm [] ch].
    all: unfold recognized_kinds in Hin; simpl in Hin.
    all: rewrite !elem_of_cons, elem_of_nil in Hin.
    all: destruct Hin as [->|[->|[->|[->|[->|[->|[->|[->|[->|[]]]]]]]]]].
    all: unfold transform, emits, recognized_kinds, shape_ok; simpl.
    all: repeat match goal with
                | |- context [if ?b then _ else _] => destruct b eqn:?; simpl
                end;
      rewrite ?andb_false_r; try done; (split; [done|]);
      eexists; (split; [|reflexivity]); done.
  - destruct c as [kind d]. simpl in Hnot.
    rewrite transform_no_case by (by apply recognized_existsb). simpl.
    unfold emits. cbn [type]. by rewrite recognized_existsb.
Qed.

Lemma feed_emits T chunks : ∀ st,
  map fst (feed OBJ T st chunks).2
  = filter (λ c, emits (isR1 T) c = true) chunks.
Proof.
  induction chunks as [|c chunks IH]; intros st; simpl; [done|].
  pose proof (transform_emits T st c) as Hc.
  destruct (transform OBJ T st c) as [st' out]. specialize (IH st').
  destruct (feed OBJ T st' chunks) as [st'' outs]. simpl in *.
  destruct out as [p|].
  - destruct Hc as [Hc _]. rewrite filter_cons_True by done. simpl. by rewrite IH.
  - rewrite filter_cons_False by congruence. done.
Qed.

(** X20. The frames of a stream follow its chunks: the chunks that give
    rise to a frame are, in arrival order, exactly those of a recognised
    kind other than usage whose payload passes the test of its kind
    (reasoning_end excepted in r1 mode), one frame each; the stream then
    ends with the terminal frame and the [DONE] sentinel, which is its
    last frame. *)
Theorem frames_follow_chunks (h : Host) (model : string)
        (outputMode : option string) (chunks : list StreamChunk) :
  let r1 := String.eqb (normalize_mode outputMode) "r1" in
  map fst (stream_trace OBJ h model outputMode chunks)
  = filter (λ c, emits r1 c = true) chunks
  ∧ length (stream_output OBJ h model outputMode chunks)
    = (length (filter (λ c, emits r1 c = true) chunks) + 2)%nat
  ∧ last (stream_output OBJ h model outputMode chunks) = Some done_frame.
Proof.
  simpl.
  assert (map fst (stream_trace OBJ h model outputMode chunks)
          = filter (λ c, emits (String.eqb (normalize_mode outputMode) "r1") c = true)
                   chunks) as Htrace.
  { unfold stream_trace. simpl. by rewrite feed_emits. }
  split_and!; [done| |].
  - unfold stream_output. rewrite stream_payloads_unfold.
    rewrite <- Htrace.
    rewrite !length_app, !length_map, !length_app, !length_map.
    change (length [done_frame]) with 1%nat.
    generalize (length (stream_trace OBJ h model outputMode chunks)).
    intros n. simpl. lia.
  - unfold stream_output. apply last_snoc.
Qed.

(** The state after a run: the usage recorded is that of the last usage
    chunk that carries both token counts. *)
Lemma feed_last_usage T chunks : ∀ st,
  usageData (feed OBJ T st chunks).1
  = match last (filter (λ c, records_usage c = true) chunks) with
    | Some c => data c
    | None => usageData st
    end.
Proof.
  induction chunks as [|c chunks IH]; intros st; simpl; [done|].
  pose proof (transform_state OBJ T st c) as (_ & _ & _ & Hu & _).
  destruct (transform OBJ T st c) as [st' out]. specialize (IH st').
  destruct (feed OBJ T st' chunks) as [st'' outs]. simpl in *.
  rewrite IH, Hu. fold (records_usage c).
  destruct (records_usage c) eqn:Hc.
  - rewrite filter_cons_True by done.
    destruct (filter (λ c, records_usage c = true) chunks) as [|c' l] eqn:Hf; [done|].
    rewrite last_cons_cons.
    destruct (last (c' :: l)) eqn:Hl; [done|]. by apply last_None in Hl.
  - by rewrite filter_cons_False by congruence.
Qed.

Lemma flush_usage T st :
  get (flush_payload OBJ T st) "usage"
  = (if truthy (usageData st) then usage_object (usageData st) else VUndefined)
  ∧ has_key "usage" (flush_payload OBJ T st) = truthy (usageData st).
Proof.
  unfold flush_payload, usage_object.
  by destruct (truthy (usageData st)), (isR1 T).
Qed.

Lemma records_usage_truthy c : records_usage c = true → truthy (data c) = true.
Proof.
  unfold records_usage, isUsageData. destruct (data c); simpl;
    rewrite ?andb_false_r; done.
Qed.

(** X22. Usage chunks never give rise to a frame.  The terminal frame
    carries the usage of the last usage chunk that holds both token
    counts, earlier ones being overwritten: prompt_tokens and
    completion_tokens are that chunk's inputTokens and outputTokens as
    given, and when these are integers that, like their sum, do not
    exceed 2^53 in magnitude, total_tokens is their sum.  When the
    stream holds no such chunk the terminal frame has no usage field. *)
Theorem terminal_usage_is_last (h : Host) (model : string)
        (outputMode : option string) (chunks : list StreamChunk) :
  Forall (λ x, type x.1 ≠ "usage") (stream_trace OBJ h model outputMode chunks)
  ∧ ∃ terminal,
      last (stream_payloads OBJ h model outputMode chunks) = Some terminal
      ∧ match last (filter (λ c, records_usage c = true) chunks) with
        | Some c =>
            get (get terminal "usage") "prompt_tokens" = get (data c) "inputTokens"
            ∧ get (get terminal "usage") "completion_tokens"
              = get (data c) "outputTokens"
            ∧ (∀ i o, get (data c) "inputTokens" = VNum i →
                      get (data c) "outputTokens" = VNum o →
                      Z.abs i ≤ 2 ^ 53 → Z.abs o ≤ 2 ^ 53 →
                      Z.abs (i + o) ≤ 2 ^ 53 →
                      get (get terminal "usage") "total_tokens" = VNum (i + o))
        | None => has_key "usage" terminal = false
        end.
Proof.
  split.
  - assert (map fst (stream_trace OBJ h model outputMode chunks)
            = filter (λ c, emits (String.eqb (normalize_mode outputMode) "r1") c = true)
                     chunks) as Htrace
      by (unfold stream_trace; simpl; by rewrite feed_emits).
    apply Forall_forall. intros x Hx.
    assert (x.1 ∈ map fst (stream_trace OBJ h model outputMode chunks)) as Hin
      by (apply list_elem_of_fmap; eauto).
    rewrite Htrace in Hin. apply list_elem_of_filter in Hin as [He _].
    unfold emits in He. intros Htype. rewrite Htype in He. simpl in He.
    first [done | by rewrite andb_false_r in He].
  - rewrite stream_payloads_unfold. eexists. split; [apply last_snoc|].
    destruct (flush_usage
                (createOpenAIStreamTransformer h model outputMode).1
                (feed OBJ (createOpenAIStreamTransformer h model outputMode).1
                      (createOpenAIStreamTransformer h model outputMode).2 chunks).1)
      as [Hget Hhas].
    rewrite Hget, Hhas, feed_last_usage. simpl.
    destruct (last (filter (λ c, records_usage c = true) chunks)) as [c|] eqn:Hl;
      [|done].
    assert (records_usage c = true) as Hc.
    { apply last_Some_elem_of in Hl. by apply list_elem_of_filter in Hl as [? _]. }
    rewrite (records_usage_truthy c Hc). unfold usage_object.
    cbn [get obj_get String.eqb Ascii.eqb Bool.eqb].
    split_and!; [done|done|].
    intros i o Hin Hout Hi Ho Hsum. unfold add. rewrite Hin, Hout. simpl.
    by rewrite JsFacts.number_of_exact.
Qed.

(** X23. All frames of a stream carry the same id, object name, creation
    time and model: the id drawn and the clock read when the transformer
    was created, and the model it was created for.  The frames that
    arise from chunks have finish_reason null and usage null around
    their delta; the terminal frame has the empty delta. *)
Theorem frames_share_header (h : Host) (model : string)
        (outputMode : option string) (chunks : list StreamChunk) :
  Forall (λ p, get p "id" = VStr ("chatcmpl-" +:+ randomUUID h 0)
               ∧ get p "object" = VStr OBJ
               ∧ get p "created" = VNum (now h `div` 1000)
               ∧ get p "model" = VStr model)
         (stream_payloads OBJ h model outputMode chunks)
  ∧ Forall (λ x, finish_reason_of x.2 = VNull
                 ∧ get x.2 "usage" = VNull
                 ∧ ∃ delta, delta_of x.2 = VObj delta)
           (stream_trace OBJ h model outputMode chunks)
  ∧ ∃ terminal,
      last (stream_payloads OBJ h model outputMode chunks) = Some terminal
      ∧ delta_of terminal = VObj [].
Proof.
  rewrite stream_payloads_unfold. unfold stream_trace. simpl.
  set (T := {| chatID := _; creationTime := _; model := model; isR1 := _; host := h |}).
  set (st0 := {| firstChunk := true; toolCallId := _; toolCallName := _;
                 usageData := _; drawn := _ |}).
  assert (Forall (λ x, ∃ delta, delta ≠ [] ∧ x.2 = openAIChunk OBJ T delta)
                 (feed OBJ T st0 chunks).2) as Hshape.
  { apply (feed_outputs OBJ
             (λ _ p, ∃ delta, delta ≠ [] ∧ p = openAIChunk OBJ T delta)).
    intros st c p Hp. pose proof (transform_emits T st c) as He.
    rewrite Hp in He. by destruct He. }
  split_and!.
  - apply Forall_app. split.
    + apply Forall_fmap. eapply Forall_impl; [exact Hshape|].
      intros x (delta & _ & Hx). simpl. rewrite Hx. done.
    + repeat constructor; unfold flush_payload;
        by destruct (truthy (toolCallId (feed OBJ T st0 chunks).1)),
             (truthy (usageData (feed OBJ T st0 chunks).1)), (isR1 T).
  - eapply Forall_impl; [exact Hshape|].
    intros x (delta & Hne & Hx). rewrite Hx. split_and!; [done..|]. by exists delta.
  - eexists. split; [apply last_snoc|]. unfold flush_payload.
    by destruct (truthy (toolCallId (feed OBJ T st0 chunks).1)),
         (truthy (usageData (feed OBJ T st0 chunks).1)), (isR1 T).
Qed.

Lemma transform_reasoning_field T st c p :
  (transform OBJ T st c).2 = Some p →
  let field := if isR1 T then "reasoning_content" else "reasoning" in
  let other := if isR1 T then "reasoning" else "reasoning_content" in
  has_key other (delta_of p) = false
  ∧ (type c = "real_thinking" → delta_of p = VObj [(field, data c)])
  ∧ (type c = "reasoning" → delta_of p = VObj [(field, get (data c) "reasoning")]).
Proof.
  intros Hp. pose proof (transform_emits T st c) as He. rewrite Hp in He.
  destruct He as [He _]. revert Hp.
  assert (type c ∈ recognized_kinds) as Hin.
  { destruct (decide (type c ∈ recognized_kinds)) as [?|Hnot]; [done|].
    unfold emits in He. by rewrite recognized_existsb in He. }
  clear He.
  destruct c as [kind d], st as [[] id nm us dr], T as [ci ct cm [] ch].
  all: unfold recognized_kinds in Hin; simpl in Hin.
  all: rewrite !elem_of_cons, elem_of_nil in Hin.
  all: destruct Hin as [->|[->|[->|[->|[->|[->|[->|[->|[->|[]]]]]]]]]].
  all: unfold transform; simpl.
  all: repeat match goal with
              | |- context [if ?b then _ else _] => destruct b eqn:?; simpl
              end;
    intros [= <-]; simpl; done.
Qed.

(** X24. The reasoning text of a stream travels in one field, chosen by
    the mode: reasoning_content in r1 mode, reasoning otherwise.  The
    delta of a real_thinking chunk holds that field alone, with the
    chunk's text; the delta of a reasoning chunk holds that field alone,
    with the chunk's reasoning; and no delta of the stream has the other
    field. *)
Theorem reasoning_field_by_mode (h : Host) (model : string)
        (outputMode : option string) (chunks : list StreamChunk) :
  let r1 := String.eqb (normalize_mode outputMode) "r1" in
  let field := if r1 then "reasoning_content" else "reasoning" in
  let other := if r1 then "reasoning" else "reasoning_content" in
  Forall (λ x, has_key other (delta_of x.2) = false
               ∧ (type x.1 = "real_thinking" →
                  delta_of x.2 = VObj [(field, data x.1)])
               ∧ (type x.1 = "reasoning" →
                  delta_of x.2 = VObj [(field, get (data x.1) "reasoning")]))
         (stream_trace OBJ h model outputMode chunks).
Proof.
  simpl. unfold stream_trace. simpl.
  set (T := {| chatID := _; creationTime := _; model := model; isR1 := _; host := h |}).
  apply (feed_outputs OBJ
           (λ c p, has_key (if isR1 T then "reasoning" else "reasoning_content")
                           (delta_of p) = false
                   ∧ (type c = "real_thinking" →
                      delta_of p = VObj [(if isR1 T then "reasoning_content"
                                          else "reasoning", data c)])
                   ∧ (type c = "reasoning" →
                      delta_of p = VObj [(if isR1 T then "reasoning_content"
                                          else "reasoning",
                                          get (data c) "reasoning")]))).
  intros st c p Hp. by apply (transform_reasoning_field T st c p).
Qed.

(** A tool_code chunk that carries a function call is given the next
    UUID of the host. *)
Lemma transform_tool_call T st c :
  assigns_tool_call c = true →
  ∃ p, (transform OBJ T st c).2 = Some p
       ∧ tool_call_id_of p = VStr ("call_" +:+ randomUUID (host T) (drawn st)).
Proof.
  destruct c as [kind d]. unfold assigns_tool_call, is_tool_code. simpl.
  intros H. apply andb_true_iff in H as [Hk Hd].
  apply String.eqb_eq in Hk as ->.
  unfold transform. simpl. rewrite Hd.
  destruct (firstChunk st); eexists; split; done.
Qed.

Lemma feed_tool_call_ids T chunks : ∀ st,
  map (λ x, tool_call_id_of x.2)
      (filter (λ x, assigns_tool_call x.1 = true) (feed OBJ T st chunks).2)
  = map (λ i, VStr ("call_" +:+ randomUUID (host T) i))
        (seq (drawn st)
             (length (filter (λ c, assigns_tool_call c = true) chunks))).
Proof.
  induction chunks as [|c chunks IH]; intros st; simpl; [done|].
  pose proof (transform_state OBJ T st c) as (_ & _ & Hdr & _).
  pose proof (transform_tool_call T st c) as Hcall.
  destruct (transform OBJ T st c) as [st' out]. specialize (IH st').
  destruct (feed OBJ T st' chunks) as [st'' outs]. simpl in *.
  destruct (assigns_tool_call c) eqn:Hc.
  - destruct (Hcall eq_refl) as (p & -> & Hid).
    rewrite !filter_cons_True by done. simpl.
    by rewrite Hid, IH, Hdr.
  - rewrite (filter_cons_False _ c) by congruence. rewrite <- Hdr, <- IH.
    destruct out as [p|]; [|done].
    by rewrite filter_cons_False by (simpl; congruence).
Qed.

(** X25. The tool calls of a stream take their ids from the host's
    UUIDs in order: the n-th tool_code chunk that carries a function
    call gets "call_" followed by the UUID drawn after the n-1 earlier
    ones (the first UUID went to the stream id).  With a host whose
    UUIDs are pairwise different, no two tool calls of a stream share an
    id. *)
Theorem tool_call_ids_in_order (h : Host) (model : string)
        (outputMode : option string) (chunks : list StreamChunk) :
  let ids := map (λ x, tool_call_id_of x.2)
                 (filter (λ x, assigns_tool_call x.1 = true)
                         (stream_trace OBJ h model outputMode chunks)) in
  ids = map (λ i, VStr ("call_" +:+ randomUUID h i))
            (seq 1 (length (filter (λ c, assigns_tool_call c = true) chunks)))
  ∧ ((∀ i j, randomUUID h i = randomUUID h j → i = j) → NoDup ids).
Proof.
  simpl.
  assert (map (λ x, tool_call_id_of x.2)
              (filter (λ x, assigns_tool_call x.1 = true)
                      (stream_trace OBJ h model outputMode chunks))
          = map (λ i, VStr ("call_" +:+ randomUUID h i))
                (seq 1 (length (filter (λ c, assigns_tool_call c = true) chunks))))
    as Hids.
  { unfold stream_trace. simpl. by rewrite feed_tool_call_ids. }
  split; [done|]. intros Hinj. rewrite Hids.
  apply NoDup_fmap_2; [|apply NoDup_seq].
  intros i j Hij. apply Hinj. by simplify_eq/=.
Qed.

Lemma feed_firstChunk_cleared T chunks : ∀ st,
  firstChunk st = false → firstChunk (feed OBJ T st chunks).1 = false.
Proof.
  induction chunks as [|c chunks IH]; intros st Hf; simpl; [done|].
  pose proof (transform_state OBJ T st c) as (_ & _ & _ & _ & Hfc).
  destruct (transform OBJ T st c) as [st' out]. specialize (IH st').
  destruct (feed OBJ T st' chunks) as [st'' outs]. simpl in *.
  apply IH. by rewrite Hfc, Hf.
Qed.

Lemma feed_drawn T chunks : ∀ st,
  drawn (feed OBJ T st chunks).1
  = (drawn st + length (filter (λ c, assigns_tool_call c = true) chunks))%nat.
Proof.
  induction chunks as [|c chunks IH]; intros st; simpl; [lia|].
  pose proof (transform_state OBJ T st c) as (_ & _ & Hdr & _).
  destruct (transform OBJ T st c) as [st' out]. specialize (IH st').
  destruct (feed OBJ T st' chunks) as [st'' outs]. simpl in *.
  rewrite IH, Hdr. destruct (assigns_tool_call c) eqn:Hc.
  - rewrite filter_cons_True by done. simpl. lia.
  - by rewrite filter_cons_False by congruence.
Qed.

(** X26. The state of a stream only moves forward, whatever chunks
    arrive: a first-chunk flag that is cleared stays cleared; a
    tool-call id, once assigned, is never cleared, so the finish reason
    of the stream stays tool_calls; a recorded usage is replaced by later
    usage payloads but never dropped; and the number of UUIDs drawn grows
    by one for each tool_code chunk that carries a function call, and by
    nothing else. *)
Theorem state_moves_forward (T : Transformer) (st : State)
        (chunks : list StreamChunk) :
  let st' := (feed OBJ T st chunks).1 in
  (firstChunk st = false → firstChunk st' = false)
  ∧ (truthy (toolCallId st) = true →
     truthy (toolCallId st') = true
     ∧ finish_reason_of (flush_payload OBJ T st') = VStr "tool_calls")
  ∧ (truthy (usageData st) = true → truthy (usageData st') = true)
  ∧ drawn st'
    = (drawn st + length (filter (λ c, assigns_tool_call c = true) chunks))%nat.
Proof.
  simpl. split_and!.
  - apply feed_firstChunk_cleared.
  - intros Hid.
    assert (truthy (toolCallId (feed OBJ T st chunks).1) = true) as Hid'
      by (by rewrite feed_toolCallId, Hid).
    split; [done|]. by rewrite finish_reason_flush, Hid'.
  - intros Hu. rewrite feed_last_usage.
    destruct (last (filter (λ c, records_usage c = true) chunks)) as [c|] eqn:Hl;
      [|done].
    apply records_usage_truthy.
    apply last_Some_elem_of in Hl. by apply list_elem_of_filter in Hl as [? _].
  - apply feed_drawn.
Qed.

End WithObjectName.

Lemma toLowerCase_idem s : toLowerCase (toLowerCase s) = toLowerCase s.
Proof.
  induction s as [|c s IH]; simpl; [done|]. rewrite IH. f_equal.
  unfold lower_ascii.
  destruct c as [[] [] [] [] [] [] [] []]; done.
Qed.

(** X27. The r1 mode is selected exactly by an output mode that reads "r1"
    once lower-cased; an omitted or empty mode is "tagged", as is the
    legacy "think-tags" in any case; and a normalised mode is in lower
    case. *)
Theorem r1_mode_selected (outputMode : option string) :
  (normalize_mode outputMode = "r1"
   ↔ ∃ m, outputMode = Some m ∧ toLowerCase m = "r1")
  ∧ (outputMode = None ∨ outputMode = Some "" → normalize_mode outputMode = "tagged")
  ∧ (∀ m, outputMode = Some m → toLowerCase m = "think-tags" →
          normalize_mode outputMode = "tagged")
  ∧ toLowerCase (normalize_mode outputMode) = normalize_mode outputMode.
Proof.
  unfold normalize_mode. split_and!.
  - split.
    + destruct outputMode as [m|]; simpl; [|done].
      destruct (String.eqb_spec m "") as [->|Hm]; [done|].
      destruct (String.eqb_spec (toLowerCase m) "think-tags"); [done|]. eauto.
    + intros (m & -> & Hm). simpl.
      destruct (String.eqb_spec m "") as [->|?]; [done|]. by rewrite Hm.
  - by intros [->| ->].
  - intros m -> Hm. simpl.
    destruct (String.eqb_spec m "") as [->|?]; [done|]. by rewrite Hm.
  - destruct outputMode as [m|]; simpl; [|done].
    destruct (String.eqb_spec m "") as [->|?]; [done|].
    destruct (String.eqb_spec (toLowerCase m) "think-tags"); [done|].
    apply toLowerCase_idem.
Qed.

(** The modes "R1" and "Think-Tags". *)
Lemma r1_mode_selected_witness :
  normalize_mode (Some "R1") = "r1"
  ∧ normalize_mode (Some "Think-Tags") = "tagged".
Proof.
  split.
  - apply (proj2 (proj1 (r1_mode_selected (Some "R1")))).
    exists "R1". split; reflexivity.
  - apply (proj1 (proj2 (proj2 (r1_mode_selected (Some "Think-Tags")))) "Think-Tags");
      reflexivity.
Defined.

(** A chunk of a kind that the transformer does not know. *)
Lemma unknown_kind_is_ignored_witness :
  let T := {| chatID := "chatcmpl-1"; creationTime := 1700000000;
              model := "gemini-2.5-pro"; isR1 := false;
              host := {| randomUUID := λ n, "uuid-" +:+ pretty n; now := 0 |} |} in
  let st := {| firstChunk := true; toolCallId := VNull; toolCallName := VNull;
               usageData := VUndefined; drawn := 1 |} in
  transform "chat.completion.chunk" T st {| type := "image"; data := VStr "x" |}
  = (st, None).
Proof.
  intros T st.
  apply (unknown_kind_is_ignored "chat.completion.chunk" T st
           {| type := "image"; data := VStr "x" |}).
  unfold recognized_kinds. simpl. rewrite !elem_of_cons, elem_of_nil.
  intros [H|[H|[H|[H|[H|[H|[H|[H|[H|[]]]]]]]]]]; discriminate H.
Defined.

(** A real_thinking chunk in r1 mode. *)
Lemma reasoning_field_by_mode_witness :
  let h := {| randomUUID := λ n, pretty n; now := 0 |} in
  let think := {| type := "real_thinking"; data := VStr "hm" |} in
  ∃ p, stream_trace "chat.completion.chunk" h "gemini-2.5-pro" (Some "r1") [think]
       = [(think, p)]
       ∧ delta_of p = VObj [("reasoning_content", VStr "hm")].
Proof.
  intros h think. eexists. split; [vm_compute; reflexivity|].
  pose proof (reasoning_field_by_mode "chat.completion.chunk" h "gemini-2.5-pro"
                                      (Some "r1") [think]) as H.
  apply Forall_cons in H as [(_ & Hreal & _) _].
  apply Hreal. reflexivity.
Defined.

(** Two tool calls in one stream, with a host that counts. *)
Lemma tool_call_ids_in_order_witness :
  let h := {| randomUUID := λ n, pretty n; now := 0 |} in
  let call n := {| type := "tool_code";
                   data := VObj [("name", VStr n); ("args", VObj [])] |} in
  NoDup (map (λ x, tool_call_id_of x.2)
             (filter (λ x, assigns_tool_call x.1 = true)
                     (stream_trace "chat.completion.chunk" h "gemini-2.5-pro" None
                                   [call "a"; {| type := "text"; data := VStr "t" |};
                                    call "b"]))).
Proof.
  intros h call.
  apply (proj2 (tool_call_ids_in_order "chat.completion.chunk" h "gemini-2.5-pro" None
                  [call "a"; {| type := "text"; data := VStr "t" |}; call "b"])).
  intros i j Hij. simpl in Hij. by apply (inj pretty).
Defined.

(** A stream with two usage chunks: the second one is reported. *)
Lemma terminal_usage_is_last_witness :
  let h := {| randomUUID := λ n, pretty n; now := 0 |} in
  let usage i o := {| type := "usage";
                      data := VObj [("inputTokens", VNum i);
                                    ("outputTokens", VNum o)] |} in
  ∃ terminal,
    last (stream_payloads "chat.completion.chunk" h "gemini-2.5-pro" None
                          [usage 1 2; usage 10 5]) = Some terminal
    ∧ get (get terminal "usage") "total_tokens" = VNum 15.
Proof.
  intros h usage.
  destruct (proj2 (terminal_usage_is_last "chat.completion.chunk" h "gemini-2.5-pro"
                     None [usage 1 2; usage 10 5]))
    as (terminal & Hl & Hu).
  exists terminal. split; [exact Hl|].
  destruct Hu as (_ & _ & Htotal).
  apply (Htotal 10 5); [reflexivity|reflexivity|vm_compute; discriminate..].
Defined.

(** A state in which a tool call has been made, fed a malformed tool_code
    chunk and a text. *)
Lemma state_moves_forward_witness :
  let T := {| chatID := "chatcmpl-1"; creationTime := 1700000000;
              model := "gemini-2.5-pro"; isR1 := false;
              host := {| randomUUID := λ n, "uuid-" +:+ pretty n; now := 0 |} |} in
  let st := {| firstChunk := false; toolCallId := VStr "call_7";
               toolCallName := VStr "lookup"; usageData := VUndefined;
               drawn := 2 |} in
  let chunks := [ {| type := "tool_code"; data := VObj [("name", VStr "f")] |};
                  {| type := "text"; data := VStr "Hi" |} ] in
  finish_reason_of
    (flush_payload "chat.completion.chunk" T
                   (feed "chat.completion.chunk" T st chunks).1)
  = VStr "tool_calls".
Proof.
  intros T st chunks.
  apply (proj1 (proj2 (state_moves_forward "chat.completion.chunk" T st chunks))).
  reflexivity.
Defined.

End StreamExtras.

(** ** Schema converter: converting a converted schema *)

Module SchemaIdempotence.
Import Js Schema JsFacts SchemaFacts TypeKey EncodingFacts SchemaExtras ConfigExtras.

Lemma obj_set_same k v fs :
  obj_get k fs = v → v ≠ VUndefined → obj_set k v fs = fs.
Proof.
  intros Hget Hv. induction fs as [|[k0 v0] fs IH]; simpl in *; [congruence|].
  destruct (String.eqb k0 k); [by subst|]. by rewrite IH.
Qed.

Lemma toGeminiType_image_depth n : ∀ ty m,
  (depth ty < n)%nat → toGeminiType ty = Some m →
  toGeminiType (VStr m) = Some m.
Proof.
  induction n as [|n IH]; intros ty m Hd Hty; [lia|].
  destruct ty as [| | | | |s|l|fs|]; try done.
  - simpl in Hty. apply gemini_type_of_name_spec in Hty.
    rewrite !elem_of_cons, elem_of_nil in Hty.
    destruct Hty as [[= _ ->]|[[= _ ->]|[[= _ ->]|[[= _ ->]|[[= _ ->]|[[= _ ->]|[]]]]]]];
      done.
  - rewrite toGeminiType_array in Hty. apply (IH (find_non_null l)); [|done].
    unfold find_non_null. simpl in Hd.
    destruct (head (filter _ l)) as [t|] eqn:Hh; simpl; [|lia].
    apply head_Some_elem_of, list_elem_of_filter in Hh as [_ Hin].
    apply depth_elem in Hin. lia.
Qed.

Lemma toGeminiType_image ty m :
  toGeminiType ty = Some m → toGeminiType (VStr m) = Some m.
Proof. apply (toGeminiType_image_depth (S (depth ty))). lia. Qed.

Lemma allowed_no_dollar k : in_allowList k = true → String.prefix "$" k = false.
Proof.
  unfold in_allowList. intros H.
  apply existsb_exists in H as (x & Hx & Heq).
  apply String.eqb_eq in Heq as ->.
  apply list_elem_of_In in Hx. unfold allowList in Hx.
  rewrite !elem_of_cons, elem_of_nil in Hx.
  destruct Hx as [->|[->|[->|[->|[->|[->|[->|[->|[]]]]]]]]]; done.
Qed.

Lemma strip_allowed o :
  Forall (λ e, in_allowList e.1 = true) o → stripUnsupportedKeys (VObj o) = o.
Proof.
  intros H. unfold stripUnsupportedKeys. simpl.
  induction H as [|e o He _ IH]; [done|].
  rewrite filter_cons_True; [by rewrite IH|].
  by rewrite He, (allowed_no_dollar _ He).
Qed.

(** The [type] of a converted schema is absent or one of the backend's. *)
Lemma converted_type src o :
  convertJSONSchemaToGeminiSchema (VObj src) = VObj o →
  obj_get "type" o = VUndefined
  ∨ ∃ m, obj_get "type" o = VStr m ∧ toGeminiType (VStr m) = Some m.
Proof.
  intros Ho.
  destruct (convert_type_key (VObj src) eq_refl) as (o' & Ho' & Hget & Hhas).
  rewrite Ho in Ho'. injection Ho' as <-.
  rewrite Hget. unfold map_type.
  destruct (obj_get "type" (stripUnsupportedKeys (VObj src))) as [| | | | | |l|fs|] eqn:Hty;
    [by left|..].
  all: match goal with
       | |- context [toGeminiType ?t] => destruct (toGeminiType t) as [m|] eqn:Hm
       end.
  all: try (right; exists m; split; [by rewrite obj_get_set_eq|];
            by eapply toGeminiType_image).
  all: left; apply obj_has_false_get, obj_has_delete_eq.
Qed.

Lemma map_type_fixed o :
  (obj_get "type" o = VUndefined
   ∨ ∃ m, obj_get "type" o = VStr m ∧ toGeminiType (VStr m) = Some m) →
  map_type o = o ∧ mark_nullable (VObj o) o = o.
Proof.
  unfold map_type, mark_nullable. simpl.
  intros [Hu|(m & Hm & Hty)].
  - by rewrite Hu.
  - rewrite Hm, Hty. split; [|done]. by apply obj_set_same.
Qed.

Lemma convert_truthy_object v :
  truthy (convertJSONSchemaToGeminiSchema v) = true →
  is_object_like (convertJSONSchemaToGeminiSchema v) = true.
Proof.
  rewrite truthy_convert. intros Hv.
  by destruct (convert_type_key v Hv) as (out & -> & _).
Qed.

Lemma converted_no_proto v out :
  convertJSONSchemaToGeminiSchema v = VObj out → obj_has "__proto__" out = false.
Proof.
  intros H. apply obj_has_not_elem_of. intros Hin.
  pose proof (allowed_converted v out H) as Hall.
  apply list_elem_of_fmap in Hin as (e & He & Hin).
  apply (proj1 (Forall_forall _ _) Hall) in Hin. by rewrite <- He in Hin.
Qed.

(** The loop over the properties collects converted schemas only, under
    distinct names, in the order an object lists them; no property is
    named [__proto__], a name whose assignment lands on the accessor. *)
Lemma converted_entries_invariant ps : ∀ acc,
  Forall (λ e, convertJSONSchemaToGeminiSchema (convertJSONSchemaToGeminiSchema e.2)
               = convertJSONSchemaToGeminiSchema e.2) ps →
  proto_accessor acc = true →
  obj_has "__proto__" (own acc) = false →
  NoDup (own acc).*1 →
  own_order (own acc) →
  Forall (λ e, convertJSONSchemaToGeminiSchema e.2 = e.2
               ∧ is_object_like e.2 = true) (own acc) →
  obj_has "__proto__"
          (own (converted_entries convertJSONSchemaToGeminiSchema acc ps)) = false
  ∧ NoDup (own (converted_entries convertJSONSchemaToGeminiSchema acc ps)).*1
  ∧ own_order (own (converted_entries convertJSONSchemaToGeminiSchema acc ps))
  ∧ Forall (λ e, convertJSONSchemaToGeminiSchema e.2 = e.2
                 ∧ is_object_like e.2 = true)
           (own (converted_entries convertJSONSchemaToGeminiSchema acc ps)).
Proof.
  unfold converted_entries.
  induction ps as [|e ps IH]; intros acc Hps Hacc Hproto Hnd Hord Hfix; simpl;
    [by split_and!|].
  apply Forall_cons in Hps as [He Hps].
  assert (proto_accessor
            (assign_if_truthy e.1 (convertJSONSchemaToGeminiSchema e.2) acc) = true
          ∧ obj_has "__proto__"
              (own (assign_if_truthy e.1 (convertJSONSchemaToGeminiSchema e.2) acc))
            = false
          ∧ NoDup (own (assign_if_truthy e.1 (convertJSONSchemaToGeminiSchema e.2)
                                         acc)).*1
          ∧ own_order (own (assign_if_truthy e.1 (convertJSONSchemaToGeminiSchema e.2)
                                             acc))
          ∧ Forall (λ e, convertJSONSchemaToGeminiSchema e.2 = e.2
                         ∧ is_object_like e.2 = true)
                   (own (assign_if_truthy e.1 (convertJSONSchemaToGeminiSchema e.2)
                                          acc)))
    as (? & ? & ? & ? & ?); [|by apply IH].
  unfold assign_if_truthy.
  destruct (truthy (convertJSONSchemaToGeminiSchema e.2)) eqn:Ht; [|done].
  pose proof Ht as Hv. rewrite truthy_convert in Hv.
  destruct (convert_type_key e.2 Hv) as (out & Hout & _).
  destruct (decide (e.1 = "__proto__")) as [Hp|Hp].
  - assert (assign e.1 (convertJSONSchemaToGeminiSchema e.2) acc
            = {| own := own acc; proto_accessor := true |}) as ->; [|done].
    unfold assign. rewrite Hp, Hproto, Hacc, Hout. simpl.
    by rewrite (converted_no_proto _ _ Hout).
  - rewrite assign_plain by done. simpl. split_and!; try done.
    + by rewrite obj_has_own_set_ne.
    + by apply own_set_nodup.
    + by apply own_set_order.
    + apply (Forall_own_set (λ v, convertJSONSchemaToGeminiSchema v = v
                                  ∧ is_object_like v = true)); [done|].
      split; [done|]. by rewrite Hout.
Qed.

(** Going again through the properties that the loop has collected gives
    them back. *)
Lemma converted_entries_fixed suf : ∀ acc,
  own_order (own acc ++ suf) →
  NoDup ((own acc).*1 ++ suf.*1) →
  obj_has "__proto__" suf = false →
  Forall (λ e, convertJSONSchemaToGeminiSchema e.2 = e.2
               ∧ is_object_like e.2 = true) suf →
  own (converted_entries convertJSONSchemaToGeminiSchema acc suf) = own acc ++ suf.
Proof.
  unfold converted_entries.
  induction suf as [|[k v] suf IH]; intros acc Hord Hnd Hproto Hfix; simpl.
  - by rewrite app_nil_r.
  - apply Forall_cons in Hfix as [[Hv Ho] Hfix]. simpl in Hv, Ho, Hproto.
    destruct (String.eqb_spec k "__proto__") as [?|Hk]; [done|].
    unfold assign_if_truthy at 2. rewrite truthy_convert, Ho, Hv.
    rewrite assign_plain by done.
    assert (own_set k v (own acc) = own acc ++ [(k, v)]) as ->.
    { apply own_set_last.
      - unfold own_order in *. rewrite fmap_app in *. simpl in *.
        rewrite (cons_middle k), app_assoc in Hord.
        by apply StronglySorted_app_1_l in Hord.
      - apply NoDup_app in Hnd as (_ & Hdisj & _).
        intros Hin. apply (Hdisj k Hin). constructor. }
    rewrite IH; simpl.
    + by rewrite <- app_assoc.
    + by rewrite <- app_assoc.
    + rewrite fmap_app. simpl. by rewrite <- app_assoc.
    + done.
    + done.
Qed.

Lemma convert_properties_none g input initial :
  normalizeProperties (get input "properties") = None →
  convert_properties g input initial = Some initial.
Proof.
  unfold convert_properties. intros Hn.
  destruct (get input "properties"); try done; by rewrite Hn.
Qed.

(** The second conversion leaves the properties as the first made them. *)
Lemma properties_fixed src o i0 i1 :
  (∀ v, (depth v < depth (VObj src))%nat →
        convertJSONSchemaToGeminiSchema (convertJSONSchemaToGeminiSchema v)
        = convertJSONSchemaToGeminiSchema v) →
  obj_get "properties" i0 = obj_get "properties" src →
  convert_properties (λ v, Some (convertJSONSchemaToGeminiSchema v)) (VObj src) i0
  = Some i1 →
  obj_get "properties" o = obj_get "properties" i1 →
  convert_properties (λ v, Some (convertJSONSchemaToGeminiSchema v)) (VObj o) o
  = Some o.
Proof.
  intros IH Hraw H1 Ho.
  destruct (normalizeProperties (get (VObj src) "properties")) as [ps|] eqn:Hn.
  - rewrite (convert_properties_known _ _ _ ps Hn) in H1. injection H1 as <-.
    assert (Forall (λ e, convertJSONSchemaToGeminiSchema
                           (convertJSONSchemaToGeminiSchema e.2)
                         = convertJSONSchemaToGeminiSchema e.2) ps) as Hps.
    { pose proof (normalizeProperties_depth _ _ Hn) as Hd.
      eapply Forall_impl; [exact Hd|]. intros e He. apply IH.
      pose proof (depth_get (VObj src) "properties" eq_refl). simpl in *. lia. }
    destruct (converted_entries_invariant ps empty_literal Hps eq_refl eq_refl
                                          ltac:(constructor) ltac:(constructor)
                                          ltac:(constructor))
      as (Hproto & Hnd & Hord & Hcp).
    destruct (own (converted_entries convertJSONSchemaToGeminiSchema empty_literal ps))
      as [|c cp] eqn:Hfold.
    + (* nothing converted: the raw value is still there *)
      rewrite Hraw in Ho.
      rewrite (convert_properties_known _ (VObj o) o ps)
        by (simpl in *; by rewrite Ho).
      by rewrite Hfold.
    + rewrite obj_get_set_eq in Ho.
      rewrite (convert_properties_known _ (VObj o) o (c :: cp))
        by (simpl; by rewrite Ho).
      rewrite (converted_entries_fixed (c :: cp) empty_literal) by done.
      simpl. f_equal. by apply obj_set_same.
  - rewrite convert_properties_none in H1 by done. injection H1 as <-.
    apply convert_properties_none. simpl in *. by rewrite Ho, Hraw.
Qed.

Lemma items_fixed src o i1 i2 :
  (∀ v, (depth v < depth (VObj src))%nat →
        convertJSONSchemaToGeminiSchema (convertJSONSchemaToGeminiSchema v)
        = convertJSONSchemaToGeminiSchema v) →
  obj_get "items" i1 = obj_get "items" src →
  convert_items (λ v, Some (convertJSONSchemaToGeminiSchema v)) (VObj src) i1 = Some i2 →
  obj_get "items" o = obj_get "items" i2 →
  convert_items (λ v, Some (convertJSONSchemaToGeminiSchema v)) (VObj o) o = Some o.
Proof.
  intros IH Hraw H2 Ho.
  pose proof (depth_get (VObj src) "items" eq_refl) as Hd.
  set (first := match obj_get "items" src with
                | VArr l => default VUndefined (head l)
                | v => v
                end).
  assert (depth first < depth (VObj src))%nat as Hfirst.
  { unfold first. simpl in Hd.
    destruct (obj_get "items" src) as [| | | | | |l|fs|]; simpl in *; try lia.
    pose proof (depth_head l). lia. }
  assert (i2 = set_if_truthy "items" (convertJSONSchemaToGeminiSchema first) i1) as ->.
  { revert H2. unfold convert_items, first. simpl.
    destruct (obj_get "items" src) as [| | | | | |l|fs|]; simpl; intros [= <-]; done. }
  unfold set_if_truthy in Ho. rewrite truthy_convert in Ho.
  destruct (is_object_like first) eqn:Hf.
  - rewrite obj_get_set_eq in Ho.
    destruct (convert_type_key first Hf) as (out & Hout & _).
    unfold convert_items. simpl. rewrite Ho, Hout. simpl.
    rewrite <- Hout, (IH first Hfirst), Hout. simpl.
    f_equal. apply obj_set_same; [by rewrite Ho, Hout|done].
  - rewrite Hraw in Ho. unfold convert_items. simpl. rewrite Ho.
    unfold first in Hf.
    destruct (obj_get "items" src) as [| | | | | |l|fs|]; simpl; try done.
    all: by rewrite (convert_not_object _ Hf).
Qed.

Lemma filter_strings_twice (l : list value) :
  filter (λ r, typeof_string r = true) (filter (λ r, typeof_string r = true) l)
  = filter (λ r, typeof_string r = true) l.
Proof.
  induction l as [|x l IH]; [done|].
  destruct (typeof_string x) eqn:Hx.
  - rewrite filter_cons_True by done. rewrite filter_cons_True by done. by rewrite IH.
  - by rewrite filter_cons_False by congruence.
Qed.

Lemma plain_keys_fixed src o i2 :
  o = copy_plain_keys (VObj src) i2 →
  (∀ k, k ∈ ["required"; "enum"; "description"; "format"] →
        obj_get k i2 = obj_get k src) →
  copy_plain_keys (VObj o) o = o.
Proof.
  intros Ho Hraw.
  assert (obj_get "required" o
          = match obj_get "required" src with
            | VArr l => VArr (filter (λ r, typeof_string r = true) l)
            | v => v
            end) as Hr.
  { rewrite Ho, copy_plain_keys_get. simpl. rewrite Hraw by set_solver.
    by destruct (obj_get "required" src). }
  assert (obj_get "enum" o = obj_get "enum" src) as He.
  { rewrite Ho, copy_plain_keys_get. simpl. rewrite Hraw by set_solver.
    by destruct (obj_get "enum" src). }
  assert (obj_get "description" o = obj_get "description" src) as Hd.
  { rewrite Ho, copy_plain_keys_get. simpl. rewrite Hraw by set_solver.
    by destruct (obj_get "description" src). }
  assert (obj_get "format" o = obj_get "format" src) as Hf.
  { rewrite Ho, copy_plain_keys_get. simpl. rewrite Hraw by set_solver.
    by destruct (obj_get "format" src). }
  clear Ho Hraw. unfold copy_plain_keys. simpl.
  assert (match obj_get "required" o with
          | VArr l => obj_set "required" (VArr (filter (λ r, typeof_string r = true) l)) o
          | _ => o
          end = o) as ->.
  { destruct (obj_get "required" o) as [| | | | | |l|fs|] eqn:E; try done.
    apply obj_set_same; [|done]. rewrite E.
    destruct (obj_get "required" src); try done.
    injection Hr as ->. by rewrite filter_strings_twice. }
  assert (match obj_get "enum" o with
          | VArr l => obj_set "enum" (VArr l) o
          | _ => o
          end = o) as ->.
  { destruct (obj_get "enum" o) eqn:E; try done. by apply obj_set_same. }
  assert (match obj_get "description" o with
          | VStr d => obj_set "description" (VStr d) o
          | _ => o
          end = o) as ->.
  { destruct (obj_get "description" o) eqn:E; try done. by apply obj_set_same. }
  destruct (obj_get "format" o) eqn:E; try done. by apply obj_set_same.
Qed.

Lemma convert_idempotent_depth n : ∀ input,
  (depth input < n)%nat →
  convertJSONSchemaToGeminiSchema (convertJSONSchemaToGeminiSchema input)
  = convertJSONSchemaToGeminiSchema input.
Proof.
  induction n as [|n IH]; intros input Hd; [lia|].
  destruct (is_object_like input) eqn:Hobj;
    [|rewrite (convert_not_object input Hobj); by rewrite convert_not_object].
  destruct input as [| | | | | |l|src|]; try done.
  - (* an array converts to the empty object *)
    rewrite (convert_unfold (VArr l)). unfold convert_with, convert_body. simpl.
    by rewrite strip_array.
  - destruct (convert_steps (VObj src) eq_refl) as (i1 & i2 & H1 & H2 & Hc).
    set (o := copy_plain_keys (VObj src) i2) in *.
    rewrite Hc.
    assert (∀ v, (depth v < depth (VObj src))%nat →
                 convertJSONSchemaToGeminiSchema (convertJSONSchemaToGeminiSchema v)
                 = convertJSONSchemaToGeminiSchema v) as IH'
      by (intros v Hv; apply IH; lia).
    set (i0 := mark_nullable (VObj src) (map_type (stripUnsupportedKeys (VObj src)))) in *.
    assert (∀ k, in_allowList k = true → k ≠ "type" → k ≠ "nullable" →
                 obj_get k i0 = obj_get k src) as Hi0.
    { intros k Hk ? ?. unfold i0.
      rewrite (proj1 (mark_nullable_other k _ _ ltac:(done))).
      rewrite (proj1 (map_type_other k _ ltac:(done))). by apply strip_keeps. }
    (* the second conversion, step by step *)
    rewrite (convert_unfold (VObj o)). unfold convert_with, convert_body.
    change (negb (truthy (VObj o)) || negb (typeof_object (VObj o))) with false.
    cbv iota.
    assert (Forall (λ e, in_allowList e.1 = true) o) as Hallowed
      by (by apply (allowed_converted (VObj src))).
    rewrite (strip_allowed o Hallowed).
    destruct (map_type_fixed o (converted_type src o Hc)) as [-> ->].
    rewrite (properties_fixed src o i0 i1 IH' (Hi0 "properties" eq_refl ltac:(done)
                                                 ltac:(done)) H1).
    2:{ unfold o.
        rewrite (proj1 (copy_plain_keys_other "properties" _ _ ltac:(set_solver))).
        by rewrite (proj1 (convert_items_other "properties" _ _ _ _ ltac:(done) H2)). }
    cbn [mbind option_bind].
    rewrite (items_fixed src o i1 i2 IH').
    2:{ rewrite (proj1 (convert_properties_other "items" _ _ _ _ ltac:(done) H1)).
        by apply Hi0. }
    2:{ done. }
    2:{ unfold o.
        by rewrite (proj1 (copy_plain_keys_other "items" _ _ ltac:(set_solver))). }
    cbn [mbind option_bind]. simpl. f_equal.
    apply (plain_keys_fixed src o i2); [done|].
    intros k Hk. apply (untouched_key k src i1 i2); [|set_solver|done|done].
    rewrite !elem_of_cons, elem_of_nil in Hk.
    by destruct Hk as [->|[->|[->|[->|[]]]]].
Qed.

(** X28. Converting a converted schema changes nothing: whatever the
    input, the converter applied to its own result gives that result
    again. *)
Theorem convert_idempotent input :
  convertJSONSchemaToGeminiSchema (convertJSONSchemaToGeminiSchema input)
  = convertJSONSchemaToGeminiSchema input.
Proof. apply (convert_idempotent_depth (S (depth input))). lia. Qed.

End SchemaIdempotence.
